(** * VoiceBot Enterprise: the session controller of [frontend/script.js]

    A shallow embedding of the [VoiceBotApp] class: the message dispatcher
    with its local fallback, the notification feed, the voice-command
    layer, the metrics refresh ticks, the mock-data generators and the PDF
    report compilation, followed by the properties of the specification
    that concern them.

    Conventions of the model.
    - A JavaScript string is a [string]; [toLowerCase] and [trim] act on
      the ASCII letters and blanks, characters outside ASCII are left as
      they are.
    - A JavaScript number holding a count or an instant is a [Z]; a draw of
      [Math.random()] is a rational of the interval [0,1).
    - The platform is an oracle: the k-th reading of the clock is
      [dateNow k], the k-th draw of [Math.random()] is [mathRandom k], and
      the state counts the readings and draws made so far.
    - An [async] method is cut at its [await]: the part run at the call,
      and the part run when the awaited promise settles, which receives the
      outcome of the remote call as an argument.
    - An exception that leaves a method is the [Thrown] completion. *)

From Stdlib Require Import ZArith QArith Qround List String Ascii Bool Arith Lia.
From Stdlib Require Import DecimalString Sorted Permutation Lqa.
Import ListNotations.
Local Open Scope string_scope.
Local Open Scope list_scope.
Local Open Scope Z_scope.

(** ** JavaScript string primitives *)

Module Js.

Definition toLowerChar (c : ascii) : ascii :=
  let n := nat_of_ascii c in
  if ((65 <=? n) && (n <=? 90))%nat then ascii_of_nat (n + 32) else c.

(** [String.prototype.toLowerCase] *)
Fixpoint toLowerCase (s : string) : string :=
  match s with
  | EmptyString => EmptyString
  | String c s' => String (toLowerChar c) (toLowerCase s')
  end.

(** [String.prototype.includes]: [pat] occurs in [s] at some position. *)
Fixpoint includes (s pat : string) : bool :=
  String.prefix pat s ||
  match s with
  | EmptyString => false
  | String _ s' => includes s' pat
  end.

Definition isBlank (c : ascii) : bool :=
  let n := nat_of_ascii c in
  (((9 <=? n) && (n <=? 13)) || (n =? 32))%nat.

Fixpoint trimStart (s : string) : string :=
  match s with
  | EmptyString => EmptyString
  | String c s' => if isBlank c then trimStart s' else s
  end.

Fixpoint trimEnd (s : string) : string :=
  match s with
  | EmptyString => EmptyString
  | String c s' =>
      let t := trimEnd s' in
      if isBlank c && (t =? "")%string then EmptyString else String c t
  end.

(** [String.prototype.trim] *)
Definition trim (s : string) : string := trimEnd (trimStart s).

(** A string is truthy when it is not empty. *)
Definition truthy (s : string) : bool := negb (s =? "")%string.

(** The double quote character, for the templates that print one. *)
Definition dquote : string := String (ascii_of_nat 34) EmptyString.

(** [Array.prototype.find] *)
Fixpoint find {A} (p : A -> bool) (l : list A) : option A :=
  match l with
  | [] => None
  | x :: l' => if p x then Some x else find p l'
  end.

(** [Array.prototype.join] *)
Fixpoint join (sep : string) (l : list string) : string :=
  match l with
  | [] => EmptyString
  | [x] => x
  | x :: l' => (x ++ sep ++ join sep l')%string
  end.

(** [Math.floor] of a rational. *)
Definition floor (q : Q) : Z := Qfloor q.

(** The remainder [x % m] of JavaScript, which truncates the quotient. *)
Definition trunc (q : Q) : Z :=
  if Qle_bool 0 q then Qfloor q else Qceiling q.
Definition rem (x m : Q) : Q := (x - m * inject_Z (trunc (x / m)))%Q.

(** [toFixed(1)] of the exact rational, as the number of tenths it
    prints: the nearest tenth, a tie going away from zero. The platform
    rounds the binary number that stands for the rational, which can give
    the neighbouring tenth when the rational is within a rounding error of
    a tie. *)
Definition toFixed1 (q : Q) : Z :=
  if Qle_bool 0 q then Qfloor (q * 10 + (1 # 2))%Q
  else - Qfloor (- q * 10 + (1 # 2))%Q.

(** The decimal text of an integer, as template literals print it. *)
Definition numToString (z : Z) : string := NilZero.string_of_int (Z.to_int z).

(** [String.fromCharCode] *)
Definition fromCharCode (n : nat) : string :=
  String (ascii_of_nat n) EmptyString.

(** [array[i]] for an index within the array. *)
Definition at_ (l : list string) (i : nat) : string := nth i l EmptyString.

End Js.

(** How a method ends: normally, or with an exception that propagates to
    its caller. Both carry the state reached. *)
Inductive completion (A : Type) : Type :=
| Normal (a : A)
| Thrown (a : A).
Arguments Normal {A} a.
Arguments Thrown {A} a.

Definition stateOf {A} (c : completion A) : A :=
  match c with Normal a => a | Thrown a => a end.

Definition isNormal {A} (c : completion A) : bool :=
  match c with Normal _ => true | Thrown _ => false end.

(** ** Data model *)

Inductive Severity : Type := info | success | warning | error.

Definition Severity_eqb (a b : Severity) : bool :=
  match a, b with
  | info, info | success, success | warning, warning | error, error => true
  | _, _ => false
  end.

Inductive InputType : Type := voice | text.

(** [this.realTimeData] *)
Record Metrics : Type := mkMetrics {
  conversations : Z;
  leads : Z;
  revenue : Z;
  satisfaction : Z
}.

(** An entry of [this.notifications]. The [timestamp] is the instant that
    [toLocaleString] renders. *)
Module Notification.
Record t : Type := mk {
  id : Z;
  message : string;
  type : Severity;
  timestamp : Z;
  read : bool
}.
End Notification.

(** The [metadata] argument of [addAIMessage]; an absent field is [None]. *)
Record Metadata : Type := mkMetadata {
  intent : option string;
  confidence : option Q;
  suggestions : option (list string)
}.

Definition noMetadata : Metadata := mkMetadata None None None.

(** The children of the [.chat-messages] element. [time] is the instant
    read by [new Date()] when the element is created. *)
Inductive ChatNode : Type :=
| UserMessage (message : string) (inputType : InputType) (time : Z)
| AIMessage (message : string) (metadata : Metadata) (time : Z)
| SystemMessage (message : string) (type : Severity) (time : Z)
| QuickReplies (suggestions : list string)
| TypingIndicator.

(** The JSON body of a reply of [POST /chat]. *)
Record ChatData : Type := mkChatData {
  d_response : option string;
  d_intent : option string;
  d_confidence : option Q;
  d_suggestions : option (list string)
}.

(** A body on which the [try] block of [processMessage] throws after it
    has hidden the typing indicator:
    - [NullBody], the body is [null], and reading [data.response] throws;
    - [IntentNotString response], the [intent] is a truthy value that is
      not a string and the [confidence] is truthy, and
      [metadata.intent.replace] throws while the entry of [response] is
      built;
    - [SuggestionsNotArray response intent confidence], the [suggestions]
      are a non-empty string or an object with a positive [length], and
      [suggestions.map] throws while the quick replies are built; the
      entry of the response keeps the intent and the confidence, and not
      these suggestions, which it never reads. *)
Inductive Malformed : Type :=
| NullBody
| IntentNotString (response : string)
| SuggestionsNotArray (response : string) (intent : option string)
    (confidence : option Q).

(** How the remote call of [processMessage] settles: the [try] block
    throws before it renders anything ([fetch] or [response.json()]
    rejects), or the body is parsed into an object whose fields, where
    present, are strings, a number and a list of strings, or the body is
    one on which the block throws later. *)
Inductive RemoteOutcome : Type :=
| Rejected
| Resolved (data : ChatData)
| Unusable (body : Malformed).

(** Requests started with [fetch]. *)
Inductive Request : Type :=
| ChatRequest (message : string) (user_id : Q) (timestamp : Z)
| CryptoRequest
| PostsRequest
| UsersRequest.

(** Callbacks registered with [setTimeout]. *)
Inductive Timer : Type :=
| BusinessReportTimer
| ReportDoneTimer.

(** Which [onresult] handler the recognition object carries: the one of
    [initSpeechRecognition] or the one of [setupVoiceCommands]. *)
Inductive ResultHandler : Type := PlainHandler | CommandHandler.

Record Recognition : Type := mkRecognition {
  lang : string;
  onresult : ResultHandler
}.

(** The collections of the dashboard, live or mock. An instant stands for
    the date text rendered from it. *)
Record TopModel : Type := mkTopModel {
  tm_name : string;
  tm_sales : Z
}.

Record AnalyticsData : Type := mkAnalyticsData {
  salesGrowth : Z;
  customerAcquisition : Z;
  revenueIncrease : Z;
  quarterly : list Z;
  monthly : list Z;
  topModels : list TopModel
}.

Record InventoryItem : Type := mkInventoryItem {
  i_id : Z;
  i_model : string;
  i_brand : string;
  i_stock : Z;
  i_price : Z;
  i_status : string;
  i_lastUpdated : Z
}.

Record Customer : Type := mkCustomer {
  c_id : Z;
  c_name : string;
  c_email : string;
  c_phone : string;
  c_location : string;
  c_avatar : string;
  c_status : string;
  c_lastContact : Q;
  c_purchaseHistory : Z;
  c_value : Z
}.

(** What is drawn on the pages of the report. *)
Inductive PdfItem : Type :=
| CoverPage (generatedOn : Z) (summary : Metrics)
| AnalyticsHeading
| ChartImage (chart : string) (xPos yPos : Z)
| AnalyticsIndicators (data : AnalyticsData)
| CustomersPage (customers : list Customer)
| InventoryPage (inventory : list InventoryItem)
| InsightsPage (recommendations : list string).

(** A file handed to the browser for download. *)
Inductive Download : Type :=
| JsonExport (stamp : Z)
| JsonReport (stamp : Z)
| PdfReport (stamp : Z) (pages : list (list PdfItem)).

(** The state: the fields of the [VoiceBotApp] object, the part of the
    document its methods read and write, and the log of what was asked of
    the platform. *)
Record App : Type := mkApp {
  (* the object *)
  isListening : bool;
  recognition : option Recognition;
  synthesis : bool;
  currentSection : string;
  realTimeData : Metrics;
  notifications : list Notification.t;
  isDarkMode : bool;
  userId : option Q;
  businessInsights : option (list string);
  (* the document *)
  chatMessages : option (list ChatNode);
  elementIds : list string;
  textInput : option string;
  reportProgress : list Z;
  (* the platform *)
  spoken : list string;
  requests : list Request;
  timers : list Timer;
  downloads : list Download;
  clockReads : nat;
  randomReads : nat
}.

(** Field updates. *)

Definition set_isListening v (st : App) : App :=
  mkApp v (recognition st) (synthesis st) (currentSection st)
    (realTimeData st) (notifications st) (isDarkMode st) (userId st)
    (businessInsights st) (chatMessages st) (elementIds st) (textInput st)
    (reportProgress st) (spoken st) (requests st) (timers st) (downloads st)
    (clockReads st) (randomReads st).

Definition set_recognition v (st : App) : App :=
  mkApp (isListening st) v (synthesis st) (currentSection st)
    (realTimeData st) (notifications st) (isDarkMode st) (userId st)
    (businessInsights st) (chatMessages st) (elementIds st) (textInput st)
    (reportProgress st) (spoken st) (requests st) (timers st) (downloads st)
    (clockReads st) (randomReads st).

Definition set_currentSection v (st : App) : App :=
  mkApp (isListening st) (recognition st) (synthesis st) v (realTimeData st)
    (notifications st) (isDarkMode st) (userId st) (businessInsights st)
    (chatMessages st) (elementIds st) (textInput st) (reportProgress st)
    (spoken st) (requests st) (timers st) (downloads st) (clockReads st)
    (randomReads st).

Definition set_realTimeData v (st : App) : App :=
  mkApp (isListening st) (recognition st) (synthesis st) (currentSection st)
    v (notifications st) (isDarkMode st) (userId st) (businessInsights st)
    (chatMessages st) (elementIds st) (textInput st) (reportProgress st)
    (spoken st) (requests st) (timers st) (downloads st) (clockReads st)
    (randomReads st).

Definition set_notifications v (st : App) : App :=
  mkApp (isListening st) (recognition st) (synthesis st) (currentSection st)
    (realTimeData st) v (isDarkMode st) (userId st) (businessInsights st)
    (chatMessages st) (elementIds st) (textInput st) (reportProgress st)
    (spoken st) (requests st) (timers st) (downloads st) (clockReads st)
    (randomReads st).

Definition set_isDarkMode v (st : App) : App :=
  mkApp (isListening st) (recognition st) (synthesis st) (currentSection st)
    (realTimeData st) (notifications st) v (userId st) (businessInsights st)
    (chatMessages st) (elementIds st) (textInput st) (reportProgress st)
    (spoken st) (requests st) (timers st) (downloads st) (clockReads st)
    (randomReads st).

Definition set_userId v (st : App) : App :=
  mkApp (isListening st) (recognition st) (synthesis st) (currentSection st)
    (realTimeData st) (notifications st) (isDarkMode st) v
    (businessInsights st) (chatMessages st) (elementIds st) (textInput st)
    (reportProgress st) (spoken st) (requests st) (timers st) (downloads st)
    (clockReads st) (randomReads st).

Definition set_businessInsights v (st : App) : App :=
  mkApp (isListening st) (recognition st) (synthesis st) (currentSection st)
    (realTimeData st) (notifications st) (isDarkMode st) (userId st) v
    (chatMessages st) (elementIds st) (textInput st) (reportProgress st)
    (spoken st) (requests st) (timers st) (downloads st) (clockReads st)
    (randomReads st).

Definition set_chatMessages v (st : App) : App :=
  mkApp (isListening st) (recognition st) (synthesis st) (currentSection st)
    (realTimeData st) (notifications st) (isDarkMode st) (userId st)
    (businessInsights st) v (elementIds st) (textInput st)
    (reportProgress st) (spoken st) (requests st) (timers st) (downloads st)
    (clockReads st) (randomReads st).

Definition set_textInput v (st : App) : App :=
  mkApp (isListening st) (recognition st) (synthesis st) (currentSection st)
    (realTimeData st) (notifications st) (isDarkMode st) (userId st)
    (businessInsights st) (chatMessages st) (elementIds st) v
    (reportProgress st) (spoken st) (requests st) (timers st) (downloads st)
    (clockReads st) (randomReads st).

Definition set_reportProgress v (st : App) : App :=
  mkApp (isListening st) (recognition st) (synthesis st) (currentSection st)
    (realTimeData st) (notifications st) (isDarkMode st) (userId st)
    (businessInsights st) (chatMessages st) (elementIds st) (textInput st) v
    (spoken st) (requests st) (timers st) (downloads st) (clockReads st)
    (randomReads st).

Definition set_spoken v (st : App) : App :=
  mkApp (isListening st) (recognition st) (synthesis st) (currentSection st)
    (realTimeData st) (notifications st) (isDarkMode st) (userId st)
    (businessInsights st) (chatMessages st) (elementIds st) (textInput st)
    (reportProgress st) v (requests st) (timers st) (downloads st)
    (clockReads st) (randomReads st).

Definition set_requests v (st : App) : App :=
  mkApp (isListening st) (recognition st) (synthesis st) (currentSection st)
    (realTimeData st) (notifications st) (isDarkMode st) (userId st)
    (businessInsights st) (chatMessages st) (elementIds st) (textInput st)
    (reportProgress st) (spoken st) v (timers st) (downloads st)
    (clockReads st) (randomReads st).

Definition set_timers v (st : App) : App :=
  mkApp (isListening st) (recognition st) (synthesis st) (currentSection st)
    (realTimeData st) (notifications st) (isDarkMode st) (userId st)
    (businessInsights st) (chatMessages st) (elementIds st) (textInput st)
    (reportProgress st) (spoken st) (requests st) v (downloads st)
    (clockReads st) (randomReads st).

Definition set_downloads v (st : App) : App :=
  mkApp (isListening st) (recognition st) (synthesis st) (currentSection st)
    (realTimeData st) (notifications st) (isDarkMode st) (userId st)
    (businessInsights st) (chatMessages st) (elementIds st) (textInput st)
    (reportProgress st) (spoken st) (requests st) (timers st) v
    (clockReads st) (randomReads st).

Definition set_clockReads v (st : App) : App :=
  mkApp (isListening st) (recognition st) (synthesis st) (currentSection st)
    (realTimeData st) (notifications st) (isDarkMode st) (userId st)
    (businessInsights st) (chatMessages st) (elementIds st) (textInput st)
    (reportProgress st) (spoken st) (requests st) (timers st) (downloads st)
    v (randomReads st).

Definition set_randomReads v (st : App) : App :=
  mkApp (isListening st) (recognition st) (synthesis st) (currentSection st)
    (realTimeData st) (notifications st) (isDarkMode st) (userId st)
    (businessInsights st) (chatMessages st) (elementIds st) (textInput st)
    (reportProgress st) (spoken st) (requests st) (timers st) (downloads st)
    (clockReads st) v.

(** ** The constructor *)

(** The values the constructor gives to the fields, for a document whose
    chat element, text input and element ids are as given and a platform
    with or without speech synthesis. *)
Definition initialMetrics : Metrics := mkMetrics 1247 89 52400 96.

Definition construct (hasSynthesis : bool) (chat : option (list ChatNode))
    (ids : list string) (input : option string) : App :=
  mkApp false None hasSynthesis "dashboard" initialMetrics [] false None None
    chat ids input [] [] [] [] [] 0%nat 0%nat.

Section Platform.

(** The k-th reading of the clock, in milliseconds, and the k-th draw of
    [Math.random()]. *)
Variable dateNow : nat -> Z.
Variable mathRandom : nat -> Q.

(** [Date.now()] and [new Date()] *)
Definition readClock (st : App) : Z * App :=
  (dateNow (clockReads st), set_clockReads (S (clockReads st)) st).

(** [Math.random()] *)
Definition random (st : App) : Q * App :=
  (mathRandom (randomReads st), set_randomReads (S (randomReads st)) st).

(** ** The chat transcript *)

Definition addUserMessage (message : string) (type : InputType) (st : App)
  : App :=
  match chatMessages st with
  | None => st
  | Some nodes =>
      let (now, st) := readClock st in
      set_chatMessages (Some (nodes ++ [UserMessage message type now])) st
  end.

Definition addAIMessage (message : string) (metadata : Metadata) (st : App)
  : App :=
  match chatMessages st with
  | None => st
  | Some nodes =>
      let (now, st) := readClock st in
      set_chatMessages (Some (nodes ++ [AIMessage message metadata now])) st
  end.

Definition addQuickReplies (suggestions : list string) (st : App) : App :=
  match chatMessages st, suggestions with
  | Some nodes, _ :: _ =>
      set_chatMessages (Some (nodes ++ [QuickReplies suggestions])) st
  | _, _ => st
  end.

Definition addSystemMessage (message : string) (type : Severity) (st : App)
  : App :=
  match chatMessages st with
  | None => st
  | Some nodes =>
      let (now, st) := readClock st in
      set_chatMessages (Some (nodes ++ [SystemMessage message type now])) st
  end.

Definition showTypingIndicator (st : App) : App :=
  match chatMessages st with
  | None => st
  | Some nodes => set_chatMessages (Some (nodes ++ [TypingIndicator])) st
  end.

(** [getElementById('typingIndicator')] finds the first such element. *)
Fixpoint removeFirstTyping (nodes : list ChatNode) : list ChatNode :=
  match nodes with
  | [] => []
  | TypingIndicator :: rest => rest
  | n :: rest => n :: removeFirstTyping rest
  end.

Definition hideTypingIndicator (st : App) : App :=
  match chatMessages st with
  | None => st
  | Some nodes => set_chatMessages (Some (removeFirstTyping nodes)) st
  end.

Definition speakResponse (text : string) (st : App) : App :=
  if synthesis st then set_spoken (spoken st ++ [text]) st else st.

(** ** The local fallback *)

Definition bikeResponse : string :=
  "We have several excellent bikes under 1 lakh! Our popular models include: Honda CB Shine (₹72,000), Bajaj Pulsar 125 (₹94,000), and TVS Raider 125 (₹85,000). All come with great mileage and warranty. Would you like to know more about any specific model?".

Definition testRideResponse : string :=
  "I'd be happy to help you book a test ride! Please provide your name, contact number, and preferred date. We have slots available from Monday to Saturday, 10 AM to 6 PM. Which bike would you like to test ride?".

Definition emiResponse : string :=
  "We offer flexible EMI options starting from ₹2,500 per month! We work with all major banks and NBFCs. For a ₹1 lakh bike, you can get EMIs starting from ₹3,000 for 36 months. Lower interest rates available for salaried professionals. Shall I calculate EMI for a specific model?".

Definition serviceResponse : string :=
  "We offer comprehensive service packages: Basic Service (₹800), Complete Service (₹1,500), and Premium Care (₹2,500). Includes engine oil change, brake check, tire inspection, and 20-point check. First service is free! Which package interests you?".

Definition genericResponse : string :=
  "Thank you for your interest! I can help you with bike information, pricing, test rides, EMI options, and service bookings. What would you like to know more about?".

Definition getDemoResponse (message : string) : string :=
  let msg := Js.toLowerCase message in
  if Js.includes msg "bike" || Js.includes msg "under"
     || Js.includes msg "lakh" then bikeResponse
  else if Js.includes msg "test ride" || Js.includes msg "book" then
    testRideResponse
  else if Js.includes msg "emi" || Js.includes msg "finance" then
    emiResponse
  else if Js.includes msg "service" || Js.includes msg "maintenance" then
    serviceResponse
  else genericResponse.

(** ** The message dispatcher *)

(** [processMessage] up to its [await fetch(...)]. *)
Definition processMessage_begin (message : string) (st : App) : App :=
  let st := showTypingIndicator st in
  let (user, st) :=
    match userId st with
    | Some u => (u, st)
    | None => let (r, st) := random st in (r, set_userId (Some r) st)
    end in
  let (now, st) := readClock st in
  set_requests (requests st ++ [ChatRequest message user now]) st.

(** [data.suggestions && data.suggestions.length > 0] *)
Definition nonEmpty {A} (l : option (list A)) : option (list A) :=
  match l with
  | Some (x :: l') => Some (x :: l')
  | _ => None
  end.

(** The [catch] block of [processMessage]. *)
Definition processMessage_catch (message : string) (st : App) : App :=
  let st := hideTypingIndicator st in
  let demoResponse := getDemoResponse message in
  let st := addAIMessage demoResponse noMetadata st in
  speakResponse demoResponse st.

(** The [try] block of [processMessage] from the point where the remote
    call settles. An entry and a group of quick replies are built only on a
    page with a chat element, so that a body whose intent or suggestions
    cannot be rendered throws only there: [createMessageElement] throws
    after it has read the clock, [addQuickReplies] once the entry of the
    response is in the chat. *)
Definition processMessage_try (outcome : RemoteOutcome) (st : App)
  : completion App :=
  match outcome with
  | Rejected => Thrown st
  | Resolved data =>
      let st := hideTypingIndicator st in
      match d_response data with
      | Some response =>
          if Js.truthy response then
            let st :=
              addAIMessage response
                (mkMetadata (d_intent data) (d_confidence data)
                   (d_suggestions data)) st in
            let st :=
              match nonEmpty (d_suggestions data) with
              | Some l => addQuickReplies l st
              | None => st
              end in
            Normal (speakResponse response st)
          else Normal st
      | None => Normal st
      end
  | Unusable NullBody => Thrown (hideTypingIndicator st)
  | Unusable (IntentNotString response) =>
      let st := hideTypingIndicator st in
      if Js.truthy response then
        match chatMessages st with
        | Some _ => let (_, st) := readClock st in Thrown st
        | None => Normal (speakResponse response st)
        end
      else Normal st
  | Unusable (SuggestionsNotArray response intent confidence) =>
      let st := hideTypingIndicator st in
      if Js.truthy response then
        let st :=
          addAIMessage response (mkMetadata intent confidence None) st in
        match chatMessages st with
        | Some _ => Thrown st
        | None => Normal (speakResponse response st)
        end
      else Normal st
  end.

(** [processMessage] from the point where the remote call settles. *)
Definition processMessage_settle (message : string) (outcome : RemoteOutcome)
    (st : App) : App :=
  match processMessage_try outcome st with
  | Normal st => st
  | Thrown st => processMessage_catch message st
  end.

Definition processMessage (message : string) (outcome : RemoteOutcome)
    (st : App) : App :=
  processMessage_settle message outcome (processMessage_begin message st).

(** [handleVoiceInput] *)
Definition handleVoiceInput_begin (transcript : string) (st : App) : App :=
  processMessage_begin transcript (addUserMessage transcript voice st).

Definition handleVoiceInput (transcript : string) (outcome : RemoteOutcome)
    (st : App) : App :=
  processMessage_settle transcript outcome
    (handleVoiceInput_begin transcript st).

(** [sendTextMessage]: reading [value] of an absent text input throws. *)
Definition sendTextMessage_begin (st : App) : completion App :=
  match textInput st with
  | None => Thrown st
  | Some value =>
      let message := Js.trim value in
      if Js.truthy message then
        let st := set_textInput (Some EmptyString) st in
        let st := addUserMessage message text st in
        Normal (processMessage_begin message st)
      else Normal st
  end.

Definition sendTextMessage (outcome : RemoteOutcome) (st : App)
  : completion App :=
  match textInput st with
  | None => Thrown st
  | Some value =>
      let message := Js.trim value in
      if Js.truthy message then
        let st := set_textInput (Some EmptyString) st in
        let st := addUserMessage message text st in
        Normal (processMessage message outcome st)
      else Normal st
  end.

Definition isQuickReplies (n : ChatNode) : bool :=
  match n with QuickReplies _ => true | _ => false end.

(** [sendQuickReply] *)
Definition sendQuickReply_begin (suggestion : string) (st : App) : App :=
  let st :=
    match chatMessages st with
    | Some nodes =>
        set_chatMessages
          (Some (filter (fun n => negb (isQuickReplies n)) nodes)) st
    | None => st
    end in
  let st := addUserMessage suggestion text st in
  processMessage_begin suggestion st.

Definition sendQuickReply (suggestion : string) (outcome : RemoteOutcome)
    (st : App) : App :=
  processMessage_settle suggestion outcome
    (sendQuickReply_begin suggestion st).

(** [handleSuggestion] *)
Definition handleSuggestion (suggestion : string) (outcome : RemoteOutcome)
    (st : App) : completion App :=
  match textInput st with
  | Some _ => sendTextMessage outcome (set_textInput (Some suggestion) st)
  | None => Normal st
  end.

(** ** The notification feed *)

(** [addNotification]: the array allocated by the constructor is truthy,
    so the guard on [this.notifications] never replaces it. *)
Definition addNotification (message : string) (type : Severity) (st : App)
  : App :=
  let (now, st) := readClock st in
  let (stamp, st) := readClock st in
  let notification := Notification.mk now message type stamp false in
  let st := set_notifications (notification :: notifications st) st in
  addSystemMessage message type st.

(** [setupNotificationSystem] *)
Definition setupNotificationSystem (st : App) : App :=
  let st := addNotification "🎉 Advanced AI features activated!" success st in
  addNotification "📊 Real-time monitoring started" info st.

(** The recommendations stored by [setupBusinessIntelligence]. *)
Definition recommendations : list string :=
  [ "📈 Sales are projected to increase by 15% next quarter";
    "🎯 Customer satisfaction is at an all-time high of 96%";
    "💡 Recommend focusing on premium models for higher margins";
    "🚀 Voice assistant adoption increased customer engagement by 40%";
    "📊 Peak sales hours: 10 AM - 2 PM and 5 PM - 8 PM";
    "🏆 Top performing region: Maharashtra with 35% market share" ].

(** [setupBusinessIntelligence] *)
Definition setupBusinessIntelligence (st : App) : App :=
  let st := set_businessInsights (Some recommendations) st in
  addNotification "🧠 Business insights generated" info st.

(** ** Metrics refresh *)

(** [Math.floor(Math.random() * n)] *)
Definition drawBelow (n : Z) (st : App) : Z * App :=
  let (r, st) := random st in (Js.floor (r * inject_Z n), st).

Definition addConversations (d : Z) (m : Metrics) : Metrics :=
  mkMetrics (conversations m + d) (leads m) (revenue m) (satisfaction m).
Definition addLeads (d : Z) (m : Metrics) : Metrics :=
  mkMetrics (conversations m) (leads m + d) (revenue m) (satisfaction m).
Definition addRevenue (d : Z) (m : Metrics) : Metrics :=
  mkMetrics (conversations m) (leads m) (revenue m + d) (satisfaction m).

(** [updateSystemMetrics] draws three numbers; they go to the text of the
    metric cards, which the model does not keep. *)
Definition updateSystemMetrics (st : App) : App :=
  let (_, st) := random st in
  let (_, st) := random st in
  let (_, st) := random st in
  st.

(** The callback that [startRealTimeUpdates] runs every 30 seconds. *)
Definition startRealTimeUpdates_tick (st : App) : App :=
  let (d, st) := drawBelow 3 st in
  let st := set_realTimeData (addConversations d (realTimeData st)) st in
  let (d, st) := drawBelow 2 st in
  let st := set_realTimeData (addLeads d (realTimeData st)) st in
  let (d, st) := drawBelow 1000 st in
  let st := set_realTimeData (addRevenue d (realTimeData st)) st in
  if (currentSection st =? "dashboard")%string then updateSystemMetrics st
  else st.

(** [updateRealTimeMetrics], run every 30 seconds by
    [startRealTimeMonitoring] and by [refreshAllData]. *)
Definition updateRealTimeMetrics (st : App) : App :=
  let (d, st) := drawBelow 5 st in
  let st := set_realTimeData (addConversations d (realTimeData st)) st in
  let (d, st) := drawBelow 2 st in
  let st := set_realTimeData (addLeads d (realTimeData st)) st in
  let (d, st) := drawBelow 2000 st in
  set_realTimeData (addRevenue d (realTimeData st)) st.

(** ** Sections, theme and the other actions of the voice commands *)

Definition hasElement (name : string) (st : App) : bool :=
  existsb (String.eqb name) (elementIds st).

(** [loadAnalyticsSection], [loadCustomersSection] and
    [loadInventorySection] up to the [fetch] of their data. *)
Definition loadAnalyticsSection_begin (st : App) : App :=
  let st := addSystemMessage "📊 Loading real-time analytics data..." info st in
  set_requests (requests st ++ [CryptoRequest]) st.

Definition loadCustomersSection_begin (st : App) : App :=
  let st := addSystemMessage "👥 Loading real-time customer data..." info st in
  set_requests (requests st ++ [UsersRequest]) st.

Definition loadInventorySection_begin (st : App) : App :=
  let st := addSystemMessage "📦 Loading real-time inventory data..." info st in
  set_requests (requests st ++ [PostsRequest]) st.

(** [switchSection], for a section name that can stand in the attribute
    selector of its navigation lookup; with another name, a double quote
    in it for one, [querySelector] may throw before anything is done. The
    classes of the navigation items and of the sections are not kept. *)
Definition switchSection (sectionName : string) (st : App) : App :=
  let found :=
    hasElement sectionName st || hasElement (sectionName ++ "Section")%string st in
  let st :=
    if negb found && hasElement "assistant" st then
      addSystemMessage
        ("📋 " ++ sectionName
         ++ " section is under development. Showing AI Assistant instead.")%string
        info st
    else st in
  let st := set_currentSection sectionName st in
  let st :=
    if (sectionName =? "analytics")%string then loadAnalyticsSection_begin st
    else if (sectionName =? "customers")%string then
      loadCustomersSection_begin st
    else if (sectionName =? "inventory")%string then
      loadInventorySection_begin st
    else st in
  addSystemMessage ("📄 Switched to " ++ sectionName ++ " section")%string
    info st.

Definition toggleTheme (st : App) : App :=
  let st := set_isDarkMode (negb (isDarkMode st)) st in
  addNotification
    ("🎨 Switched to " ++ (if isDarkMode st then "dark" else "light")
     ++ " mode")%string info st.

(** [generateBusinessReport] at the call, and its timer callback, which
    reads [this.businessInsights.recommendations]. *)
Definition generateBusinessReport (st : App) : App :=
  let st :=
    addNotification "📋 Generating comprehensive business report..." info st in
  set_timers (timers st ++ [BusinessReportTimer]) st.

Definition generateBusinessReport_timer (st : App) : completion App :=
  let (_, st) := readClock st in
  match businessInsights st with
  | None => Thrown st
  | Some _ =>
      let (stamp, st) := readClock st in
      let st := set_downloads (downloads st ++ [JsonReport stamp]) st in
      Normal
        (addNotification "✅ Business report generated and downloaded!"
           success st)
  end.

Definition refreshAllData (st : App) : App :=
  let st := addNotification "🔄 Refreshing all data sources..." info st in
  if (currentSection st =? "analytics")%string then
    loadAnalyticsSection_begin st
  else if (currentSection st =? "customers")%string then
    loadCustomersSection_begin st
  else if (currentSection st =? "inventory")%string then
    loadInventorySection_begin st
  else updateRealTimeMetrics st.

Definition exportData (st : App) : App :=
  let (_, st) := readClock st in
  let (stamp, st) := readClock st in
  let st := set_downloads (downloads st ++ [JsonExport stamp]) st in
  addSystemMessage "Data exported successfully!" success st.

(** ** Voice commands *)

(** The functions stored in [this.voiceCommands]. *)
Inductive Action : Type :=
| SwitchSection (sectionName : string)
| GenerateBusinessReport
| RefreshAllData
| ToggleTheme
| ExportData
| ShowVoiceHelp.

(** [this.voiceCommands], in the order of its keys. *)
Definition voiceCommands : list (string * Action) :=
  [ ("show dashboard", SwitchSection "dashboard");
    ("open analytics", SwitchSection "analytics");
    ("show customers", SwitchSection "customers");
    ("check inventory", SwitchSection "inventory");
    ("generate report", GenerateBusinessReport);
    ("refresh data", RefreshAllData);
    ("dark mode", ToggleTheme);
    ("light mode", ToggleTheme);
    ("export data", ExportData);
    ("help me", ShowVoiceHelp) ].

Definition showVoiceHelp (st : App) : App :=
  let helpCommands := Js.join ", " (map fst voiceCommands) in
  addNotification ("🎤 Available voice commands: " ++ helpCommands)%string
    info st.

(** Calling [this.voiceCommands[command]()]. *)
Definition runAction (a : Action) (st : App) : App :=
  match a with
  | SwitchSection s => switchSection s st
  | GenerateBusinessReport => generateBusinessReport st
  | RefreshAllData => refreshAllData st
  | ToggleTheme => toggleTheme st
  | ExportData => exportData st
  | ShowVoiceHelp => showVoiceHelp st
  end.

(** The first key of [this.voiceCommands] that the transcript includes. *)
Definition findCommand (transcript : string) : option (string * Action) :=
  Js.find (fun cmd => Js.includes transcript (fst cmd)) voiceCommands.

(** The [onresult] handler installed by [setupVoiceCommands], up to the
    [fetch] of a forwarded utterance. The call of [executeVoiceCommand] is
    part of it: the command is a key of [this.voiceCommands], so that its
    function is found, run, and the execution notified. *)
Definition commandHandler (spokenText : string) (st : App) : App :=
  let transcript := Js.toLowerCase spokenText in
  match findCommand transcript with
  | Some (command, action) =>
      let st := runAction action st in
      addNotification
        ("✅ Executed: " ++ Js.dquote ++ command ++ Js.dquote)%string
        success st
  | None => handleVoiceInput_begin transcript st
  end.

(** ** Voice capture *)

(** [initSpeechRecognition], on a platform that has the recognition
    constructor or has not. *)
Definition initSpeechRecognition (supported : bool) (st : App) : App :=
  if supported then
    set_recognition (Some (mkRecognition "en-US" PlainHandler)) st
  else
    addSystemMessage "⚠️ Speech recognition not supported in this browser."
      warning st.

Definition setupVoiceCommands (st : App) : App :=
  match recognition st with
  | Some r => set_recognition (Some (mkRecognition (lang r) CommandHandler)) st
  | None => st
  end.

(** The events of the recognition object; without an object there is
    none. *)
Definition recognition_onstart (st : App) : App :=
  match recognition st with
  | Some _ =>
      addSystemMessage "🎤 Listening..." info (set_isListening true st)
  | None => st
  end.

Definition recognition_onresult (spokenText : string) (st : App) : App :=
  match recognition st with
  | Some r =>
      match onresult r with
      | PlainHandler => handleVoiceInput_begin spokenText st
      | CommandHandler => commandHandler spokenText st
      end
  | None => st
  end.

Definition recognition_onerror (st : App) : App :=
  match recognition st with
  | Some _ =>
      let st :=
        addSystemMessage "❌ Voice recognition error. Please try again."
          error st in
      set_isListening false st
  | None => st
  end.

Definition recognition_onend (st : App) : App :=
  match recognition st with
  | Some _ => set_isListening false st
  | None => st
  end.

(** What [recognition.start()] does when it is called. *)
Inductive StartResult : Type := Starts | StartThrows.

Definition startListening (start : StartResult) (st : App) : completion App :=
  match recognition st with
  | Some _ =>
      match start with
      | Starts => Normal st
      | StartThrows =>
          Normal
            (addSystemMessage "Could not start voice recognition." error st)
      end
  | None => Normal st
  end.

Definition stopListening (st : App) : App := st.

Definition toggleVoiceRecognition (start : StartResult) (st : App)
  : completion App :=
  if isListening st then Normal (stopListening st) else startListening start st.

(** ** Mock and live collections *)

(** [Array.from({length: n}, (_, i) => f i)], the calls made in index
    order. *)
Fixpoint arrayFromAux {A} (f : nat -> App -> A * App) (n i : nat) (st : App)
  : list A * App :=
  match n with
  | O => ([], st)
  | S n' =>
      let (x, st) := f i st in
      let (l, st) := arrayFromAux f n' (S i) st in
      (x :: l, st)
  end.

Definition arrayFrom {A} (n : nat) (f : nat -> App -> A * App) (st : App)
  : list A * App :=
  arrayFromAux f n 0%nat st.

(** [array.map((x, index) => f x index)] *)
Fixpoint mapAux {A B} (f : A -> nat -> App -> B * App) (l : list A) (i : nat)
    (st : App) : list B * App :=
  match l with
  | [] => ([], st)
  | x :: l' =>
      let (y, st) := f x i st in
      let (r, st) := mapAux f l' (S i) st in
      (y :: r, st)
  end.

Definition generateMockAnalytics (st : App) : AnalyticsData * App :=
  let (r, st) := random st in
  let growth := Js.toFixed1 (r * 20 + 5)%Q in
  let (d, st) := drawBelow 30 st in
  let acquisition := d + 20 in
  let (r, st) := random st in
  let increase := Js.toFixed1 (r * 25 + 10)%Q in
  let (q, st) := arrayFrom 4 (fun _ => drawBelow 100) st in
  let (m, st) := arrayFrom 12 (fun _ => drawBelow 80) st in
  let (s1, st) := drawBelow 200 st in
  let (s2, st) := drawBelow 150 st in
  let (s3, st) := drawBelow 120 st in
  (mkAnalyticsData growth acquisition increase q m
     [ mkTopModel "Honda Activa" (s1 + 100);
       mkTopModel "TVS Jupiter" (s2 + 80);
       mkTopModel "Bajaj Pulsar" (s3 + 60) ], st).

Definition brands : list string := ["Honda"; "TVS"; "Bajaj"; "Yamaha"; "Hero"].

Definition stockStatus (r : Q) : string :=
  if Qle_bool r (8 # 10) then "In Stock" else "Low Stock".

Definition generateMockInventory (st : App) : list InventoryItem * App :=
  arrayFrom 20 (fun i st =>
    let (stock, st) := drawBelow 50 st in
    let (price, st) := drawBelow 100000 st in
    let (r, st) := random st in
    let (now, st) := readClock st in
    (mkInventoryItem (Z.of_nat i + 1)
       ("Model " ++ Js.fromCharCode (65 + i mod 26)
        ++ Js.numToString (Z.of_nat i + 1))%string
       (Js.at_ brands (i mod List.length brands))
       (stock + 10) (price + 50000) (stockStatus r) now, st)) st.

Definition names : list string :=
  ["Rajesh Kumar"; "Priya Sharma"; "Amit Patel"; "Sneha Singh"; "Vikram Rao"].

Definition locations : list string :=
  ["Mumbai, Maharashtra"; "Delhi, Delhi"; "Bangalore, Karnataka"].

Definition statuses : list string := ["Prospect"; "Lead"; "Customer"; "VIP"].

(** Thirty days, in milliseconds. *)
Definition thirtyDays : Q := inject_Z (30 * 24 * 60 * 60 * 1000).

Definition generateMockCustomers (st : App) : list Customer * App :=
  arrayFrom 15 (fun i st =>
    let (phone, st) := drawBelow 9000000000 st in
    let (status, st) := drawBelow 4 st in
    let (now, st) := readClock st in
    let (r, st) := random st in
    let (purchases, st) := drawBelow 3 st in
    let (value, st) := drawBelow 500000 st in
    (mkCustomer (Z.of_nat i + 1)
       (Js.at_ names (i mod List.length names) ++ " "
        ++ Js.numToString (Z.of_nat i + 1))%string
       ("customer" ++ Js.numToString (Z.of_nat i + 1) ++ "@example.com")%string
       ("+91 " ++ Js.numToString (phone + 1000000000))%string
       (Js.at_ locations (i mod 3))
       ("https://api.dicebear.com/7.x/avataaars/svg?seed="
        ++ Js.numToString (Z.of_nat i))%string
       (Js.at_ statuses (Z.to_nat status))
       (inject_Z now - r * thirtyDays)%Q
       purchases (value + 50000), st)) st.

(** A user of the random-user source. *)
Record User : Type := mkUser {
  u_first : string;
  u_last : string;
  u_email : string;
  u_phone : string;
  u_city : string;
  u_state : string;
  u_picture : string
}.

(** The three fetchers, run to the end: the argument is what the source
    delivered, [None] when the request or the reading of its body failed. *)
Definition fetchAnalyticsData (rate : option Q) (st : App)
  : AnalyticsData * App :=
  let st := set_requests (requests st ++ [CryptoRequest]) st in
  match rate with
  | Some btcPrice =>
      let part (m : Z) := Js.floor (Js.rem btcPrice (inject_Z m)) in
      (mkAnalyticsData
         (Js.toFixed1 (Js.rem btcPrice 100))
         (part 50 + 20)
         (Js.toFixed1 (Js.rem btcPrice 30))
         (map (fun i => part (100 + Z.of_nat i * 10)) (seq 0 4))
         (map (fun i => part (80 + Z.of_nat i * 5)) (seq 0 12))
         [ mkTopModel "Honda Activa" (part 200 + 100);
           mkTopModel "TVS Jupiter" (part 150 + 80);
           mkTopModel "Bajaj Pulsar" (part 120 + 60) ], st)
  | None => generateMockAnalytics st
  end.

Definition fetchInventoryData (posts : option (list Z)) (st : App)
  : list InventoryItem * App :=
  let st := set_requests (requests st ++ [PostsRequest]) st in
  match posts with
  | Some ids =>
      mapAux (fun post index st =>
        let (stock, st) := drawBelow 50 st in
        let (price, st) := drawBelow 100000 st in
        let (r, st) := random st in
        let (now, st) := readClock st in
        (mkInventoryItem post
           ("Model " ++ Js.fromCharCode (65 + index mod 26)
            ++ Js.numToString post)%string
           (Js.at_ brands (index mod 5))
           (stock + 10) (price + 50000) (stockStatus r) now, st)) ids 0%nat st
  | None => generateMockInventory st
  end.

Definition fetchCustomersData (users : option (list User)) (st : App)
  : list Customer * App :=
  let st := set_requests (requests st ++ [UsersRequest]) st in
  match users with
  | Some results =>
      mapAux (fun user index st =>
        let (status, st) := drawBelow 4 st in
        let (now, st) := readClock st in
        let (r, st) := random st in
        let (purchases, st) := drawBelow 3 st in
        let (value, st) := drawBelow 500000 st in
        (mkCustomer (Z.of_nat index + 1)
           (u_first user ++ " " ++ u_last user)%string
           (u_email user) (u_phone user)
           (u_city user ++ ", " ++ u_state user)%string
           (u_picture user)
           (Js.at_ statuses (Z.to_nat status))
           (inject_Z now - r * thirtyDays)%Q
           purchases (value + 50000), st)) results 0%nat st
  | None => generateMockCustomers st
  end.

(** ** Report compilation *)

(** The document under construction: the pages closed by [addPage] and the
    page being drawn. *)
Record Pdf : Type := mkPdf {
  donePages : list (list PdfItem);
  page : list PdfItem
}.

Definition newPdf : Pdf := mkPdf [] [].
Definition addPage (pdf : Pdf) : Pdf := mkPdf (donePages pdf ++ [page pdf]) [].
Definition draw (x : PdfItem) (pdf : Pdf) : Pdf :=
  mkPdf (donePages pdf) (page pdf ++ [x]).
Definition pagesOf (pdf : Pdf) : list (list PdfItem) :=
  donePages pdf ++ [page pdf].

Inductive Stage : Type :=
| CoverStage | AnalyticsStage | CustomersStage | InventoryStage
| InsightsStage | SaveStage.

(** What the platform does during one compilation: whether the document
    library is loaded, what the three sources deliver, whether the drawing
    calls of each stage succeed (a stage that fails throws at its first
    call), and whether the capture of each chart succeeds. *)
Record ReportEnv : Type := mkReportEnv {
  jspdfLoaded : bool;
  cryptoRate : option Q;
  postIds : option (list Z);
  userResults : option (list User);
  stageDraws : Stage -> bool;
  captures : string -> bool
}.

Definition showReportProgress (st : App) : App :=
  set_reportProgress (reportProgress st ++ [0]) st.

(** [getElementById('progressBar')] is the bar of the first panel. *)
Definition updateReportProgress (percent : Z) (st : App) : App :=
  match reportProgress st with
  | _ :: rest => set_reportProgress (percent :: rest) st
  | [] => st
  end.

Definition hideReportProgress (st : App) : App :=
  set_reportProgress (tl (reportProgress st)) st.

Definition addCoverPage (env : ReportEnv) (pdf : Pdf) (st : App)
  : completion (Pdf * App) :=
  if stageDraws env CoverStage then
    let (now, st) := readClock st in
    Normal (draw (CoverPage now (realTimeData st)) pdf, st)
  else Thrown (pdf, st).

Definition charts : list string :=
  ["salesChart"; "modelsChart"; "quarterlyChart"; "revenueChart"].

(** The slots visited by the two nested loops of [addAnalyticsPage]: the
    chart, and where its image goes. *)
Definition chartSlots : list (string * Z * Z) :=
  flat_map (fun row =>
    map (fun j =>
      (Js.at_ charts (2 * row + j),
       if (j =? 0)%nat then 20 else 110,
       40 + 70 * Z.of_nat row)) [0; 1]%nat) [0; 1]%nat.

(** One pass of the inner loop: a chart with no element is skipped; a
    capture that fails is caught inside the loop and leaves no image. *)
Definition captureChart (env : ReportEnv) (st : App) (pdf : Pdf)
    (slot : string * Z * Z) : Pdf :=
  let '(chart, xPos, yPos) := slot in
  if hasElement chart st then
    if captures env chart then draw (ChartImage chart xPos yPos) pdf
    else pdf
  else pdf.

Definition addAnalyticsPage (env : ReportEnv) (data : AnalyticsData)
    (pdf : Pdf) (st : App) : completion (Pdf * App) :=
  if stageDraws env AnalyticsStage then
    let pdf := draw AnalyticsHeading pdf in
    let pdf := fold_left (captureChart env st) chartSlots pdf in
    match topModels data with
    | _ :: _ => Normal (draw (AnalyticsIndicators data) pdf, st)
    | [] => Thrown (pdf, st)
    end
  else Thrown (pdf, st).

Definition addCustomersPage (env : ReportEnv) (customers : list Customer)
    (pdf : Pdf) (st : App) : completion (Pdf * App) :=
  if stageDraws env CustomersStage then
    Normal (draw (CustomersPage customers) pdf, st)
  else Thrown (pdf, st).

Definition addInventoryPage (env : ReportEnv) (inventory : list InventoryItem)
    (pdf : Pdf) (st : App) : completion (Pdf * App) :=
  if stageDraws env InventoryStage then
    Normal (draw (InventoryPage inventory) pdf, st)
  else Thrown (pdf, st).

Definition addInsightsPage (env : ReportEnv) (pdf : Pdf) (st : App)
  : completion (Pdf * App) :=
  if stageDraws env InsightsStage then
    match businessInsights st with
    | Some recommendations =>
        Normal (draw (InsightsPage recommendations) pdf, st)
    | None => Thrown (pdf, st)
    end
  else Thrown (pdf, st).

(** [pdf.save(fileName)], the file name being dated first. *)
Definition savePdf (env : ReportEnv) (pdf : Pdf) (st : App)
  : completion (Pdf * App) :=
  let (stamp, st) := readClock st in
  if stageDraws env SaveStage then
    Normal (pdf, set_downloads (downloads st ++ [PdfReport stamp (pagesOf pdf)]) st)
  else Thrown (pdf, st).

Definition andThen (c : completion (Pdf * App))
    (f : Pdf -> App -> completion (Pdf * App)) : completion (Pdf * App) :=
  match c with
  | Normal (pdf, st) => f pdf st
  | Thrown s => Thrown s
  end.

Notation "c >>= f" := (andThen c f) (at level 50, left associativity).

(** The [try] block of [generateAdvancedPDFReport]. *)
Definition compileReport (env : ReportEnv) (st : App)
  : completion (Pdf * App) :=
  if jspdfLoaded env then
    let pdf := newPdf in
    let (analyticsData, st) := fetchAnalyticsData (cryptoRate env) st in
    let (customersData, st) := fetchCustomersData (userResults env) st in
    let (inventoryData, st) := fetchInventoryData (postIds env) st in
    let st := updateReportProgress 20 st in
    addCoverPage env pdf st
    >>= (fun pdf st =>
      let st := updateReportProgress 30 st in
      addAnalyticsPage env analyticsData (addPage pdf) st)
    >>= (fun pdf st =>
      let st := updateReportProgress 50 st in
      addCustomersPage env customersData (addPage pdf) st)
    >>= (fun pdf st =>
      let st := updateReportProgress 70 st in
      addInventoryPage env inventoryData (addPage pdf) st)
    >>= (fun pdf st =>
      let st := updateReportProgress 85 st in
      addInsightsPage env (addPage pdf) st)
    >>= (fun pdf st =>
      let st := updateReportProgress 95 st in
      savePdf env pdf st)
    >>= (fun pdf st =>
      let st := updateReportProgress 100 st in
      Normal (pdf, set_timers (timers st ++ [ReportDoneTimer]) st))
  else Thrown (newPdf, st).

(** [generateAdvancedPDFReport], until its promise settles. *)
Definition generateAdvancedPDFReport (env : ReportEnv) (st : App) : App :=
  let st := showReportProgress st in
  match compileReport env st with
  | Normal (_, st) => st
  | Thrown (_, st) =>
      let st := hideReportProgress st in
      addNotification "❌ PDF generation failed. Please try again." error st
  end.

(** The callback of the timer set after a successful [save]. *)
Definition generateAdvancedPDFReport_timer (st : App) : App :=
  let st := hideReportProgress st in
  addNotification
    "📊 Advanced PDF report with charts generated successfully!" success st.

(** A compilation followed to its end: with the timer callback when the
    [try] block completed and set the timer. *)
Definition generateAdvancedPDFReport_settled (env : ReportEnv) (st : App)
  : App :=
  let st' := generateAdvancedPDFReport env st in
  if isNormal (compileReport env (showReportProgress st)) then
    generateAdvancedPDFReport_timer st'
  else st'.

End Platform.

(** ** Observations *)

Definition chatNodes (st : App) : list ChatNode :=
  match chatMessages st with
  | Some nodes => nodes
  | None => []
  end.

Definition isUserMessage (n : ChatNode) : bool :=
  match n with UserMessage _ _ _ => true | _ => false end.

Definition isAIMessage (n : ChatNode) : bool :=
  match n with AIMessage _ _ _ => true | _ => false end.

(** The entries of the transcript by speaker. *)
Definition countUser (st : App) : nat :=
  List.length (filter isUserMessage (chatNodes st)).

Definition countAI (st : App) : nat :=
  List.length (filter isAIMessage (chatNodes st)).

(** The text of the last assistant entry. *)
Definition lastReplyOf (nodes : list ChatNode) : option string :=
  fold_left (fun acc n =>
    match n with
    | AIMessage message _ _ => Some message
    | _ => acc
    end) nodes None.

Definition lastReply (st : App) : option string := lastReplyOf (chatNodes st).

(** The user entries, oldest first. *)
Definition userTexts (st : App) : list string :=
  flat_map (fun n =>
    match n with
    | UserMessage message _ _ => [message]
    | _ => []
    end) (chatNodes st).

Definition quickRepliesShown (st : App) : nat :=
  List.length (filter isQuickReplies (chatNodes st)).

(** The notifications of a given severity in the feed. *)
Definition countNotifications (sev : Severity) (st : App) : nat :=
  List.length
    (filter (fun n => Severity_eqb (Notification.type n) sev)
       (notifications st)).

(** The system messages of a given severity in the chat element. *)
Definition countSystemMessages (sev : Severity) (st : App) : nat :=
  List.length
    (filter (fun n =>
       match n with
       | SystemMessage _ type _ => Severity_eqb type sev
       | _ => false
       end) (chatNodes st)).

(** The messages sent to the chat service, oldest first. *)
Definition dispatched (st : App) : list string :=
  flat_map (fun r =>
    match r with
    | ChatRequest message _ _ => [message]
    | _ => []
    end) (requests st).

Definition pdfDownloads (st : App) : nat :=
  List.length
    (filter (fun d => match d with PdfReport _ _ => true | _ => false end)
       (downloads st)).

(** Whether a message mentions a keyword, whatever the case of its
    letters. *)
Definition mentions (message keyword : string) : bool :=
  Js.includes (Js.toLowerCase message) keyword.

(** ** Sample platforms *)

(** A clock that advances by a millisecond at each reading, a clock read
    many times within one millisecond, and a sequence of draws. *)
Definition clockTick (k : nat) : Z := 1700000000000 + Z.of_nat k.
Definition clockStill (k : nat) : Z := 1700000000000.
Definition draws (k : nat) : Q := Z.of_nat (k mod 13) # 13.

(** A page with a chat element, an empty text input and the sections of
    the dashboard. *)
Definition samplePage : App :=
  construct true (Some []) ["dashboard"; "assistant"] (Some EmptyString).

(** ** Sequences of operations *)

(** Posting notifications one after the other. *)
Definition postAll (dateNow : nat -> Z) (posts : list (string * Severity))
    (st : App) : App :=
  fold_left (fun st p => addNotification dateNow (fst p) (snd p) st) posts st.

(** What was posted, as the feed shows it. *)
Definition feedContent (st : App) : list (string * Severity) :=
  map (fun n => (Notification.message n, Notification.type n))
    (notifications st).

(** The ids of a feed are readings of the clock, each entry read before
    the entries above it, and all before the reading [bound]. *)
Inductive feedFrom (dateNow : nat -> Z) : nat -> list Notification.t -> Prop :=
| feedFrom_nil : forall bound, feedFrom dateNow bound []
| feedFrom_cons : forall bound k n feed,
    (k < bound)%nat ->
    Notification.id n = dateNow k ->
    feedFrom dateNow k feed ->
    feedFrom dateNow bound (n :: feed).

(** The two periodic refreshes of the metrics: the callback of
    [startRealTimeUpdates] and [updateRealTimeMetrics]. *)
Inductive Refresh : Type := StatsTick | MonitorTick.

Definition refresh (mathRandom : nat -> Q) (tick : Refresh) (st : App) : App :=
  match tick with
  | StatsTick => startRealTimeUpdates_tick mathRandom st
  | MonitorTick => updateRealTimeMetrics mathRandom st
  end.

(** No field of the snapshot is negative and the satisfaction is a
    percentage. *)
Definition metricsOk (m : Metrics) : Prop :=
  0 <= conversations m /\ 0 <= leads m /\ 0 <= revenue m
  /\ 0 <= satisfaction m <= 100.

(** An operation is quiet when it sends nothing to the chat service and
    appends no user entry to the transcript. *)
Definition quiet (st st' : App) : Prop :=
  dispatched st' = dispatched st /\ userTexts st' = userTexts st.

(** The controller once [init] has run [initSpeechRecognition] and
    [setupVoiceCommands] on a platform with speech recognition. *)
Definition listeningPage (dateNow : nat -> Z) : App :=
  setupVoiceCommands (initSpeechRecognition dateNow true samplePage).

(** The analytics section once rendered: the four chart canvases are in
    the document and the business insights are set. *)
Definition analyticsPage (dateNow : nat -> Z) : App :=
  setupBusinessIntelligence dateNow
    (construct true (Some [])
       ["dashboard"; "assistant"; "analytics"; "salesChart"; "modelsChart";
        "quarterlyChart"; "revenueChart"] (Some EmptyString)).

(** A platform on which every source is unreachable, the document
    library is loaded, every stage draws and every chart is captured; and
    the same with the capture of one chart failing, or one stage failing. *)
Definition goodEnv : ReportEnv :=
  mkReportEnv true None None None (fun _ => true) (fun _ => true).

Definition captureFails (chart : string) : ReportEnv :=
  mkReportEnv true None None None (fun _ => true)
    (fun c => negb (c =? chart)%string).

Definition Stage_eqb (a b : Stage) : bool :=
  match a, b with
  | CoverStage, CoverStage | AnalyticsStage, AnalyticsStage
  | CustomersStage, CustomersStage | InventoryStage, InventoryStage
  | InsightsStage, InsightsStage | SaveStage, SaveStage => true
  | _, _ => false
  end.

Definition stageFails (stage : Stage) : ReportEnv :=
  mkReportEnv true None None None (fun s => negb (Stage_eqb s stage))
    (fun _ => true).

Definition isSome {A} (o : option A) : bool :=
  match o with Some _ => true | None => false end.

(** Whether everything outside the capture of the charts succeeds: the
    document library is loaded, the drawing calls of every stage succeed
    and the business insights are set. *)
Definition stagesSucceed (env : ReportEnv) (st : App) : bool :=
  jspdfLoaded env
  && stageDraws env CoverStage
  && stageDraws env AnalyticsStage
  && stageDraws env CustomersStage
  && stageDraws env InventoryStage
  && stageDraws env InsightsStage
  && isSome (businessInsights st)
  && stageDraws env SaveStage.

(** A chart capture fails during the compilation: the canvas of one of
    the four charts is in the document and its capture throws. *)
Definition chartCaptureFails (env : ReportEnv) (st : App) : Prop :=
  exists chart, In chart charts /\ hasElement chart st = true
                /\ captures env chart = false.

(** What a step of the compilation leaves alone: the downloads, the feed,
    the progress panels other than the first, and the insights. *)
Definition reportFrame (st st' : App) : Prop :=
  downloads st' = downloads st
  /\ notifications st' = notifications st
  /\ tl (reportProgress st') = tl (reportProgress st)
  /\ businessInsights st' = businessInsights st.

(** The part of the state that a compilation may change only at its end. *)
Definition reportView (st : App) :=
  (downloads st, notifications st, tl (reportProgress st), businessInsights st).

(** A stage either completes or throws, as [ok] tells, and leaves the
    view of the state [st] it started from. *)
Definition stageSpec (c : completion (Pdf * App)) (ok : bool) (st : App)
  : Prop :=
  match c with
  | Normal (_, st') => ok = true /\ reportView st' = reportView st
  | Thrown (_, st') => ok = false /\ reportView st' = reportView st
  end.

(** The whole [try] block either completes, having handed one document
    to the browser, or throws and leaves the view as it was. *)
Definition compileSpec (c : completion (Pdf * App)) (ok : bool) (st : App)
  : Prop :=
  match c with
  | Normal (pdf, st') =>
      ok = true
      /\ (exists stamp,
            downloads st' = downloads st ++ [PdfReport stamp (pagesOf pdf)])
      /\ notifications st' = notifications st
      /\ tl (reportProgress st') = tl (reportProgress st)
  | Thrown (_, st') => ok = false /\ reportView st' = reportView st
  end.

Definition failureNotice : string * Severity :=
  ("❌ PDF generation failed. Please try again.", error).

Definition successNotice : string * Severity :=
  ("📊 Advanced PDF report with charts generated successfully!", success).

(** ** The fixed part of the mock collections *)

(** The fields of a mock item that do not come from [Math.random] or the
    clock. *)
Definition inventoryFixed (x : InventoryItem) : Z * string * string :=
  (i_id x, i_model x, i_brand x).

Definition customerFixed (c : Customer)
  : Z * string * string * string * string :=
  (c_id c, c_name c, c_email c, c_location c, c_avatar c).

Definition analyticsShape (a : AnalyticsData) : list string * nat * nat :=
  (map tm_name (topModels a), List.length (quarterly a),
   List.length (monthly a)).

(** Two invocations that receive the same draws and the same clock
    readings: what the one platform delivers from the state [st] on is what
    the other delivers from the state [st'] on. *)
Definition sameReadings (dateNow dateNow' : nat -> Z)
    (mathRandom mathRandom' : nat -> Q) (st st' : App) : Prop :=
  (forall k, mathRandom' (k + randomReads st')%nat
             = mathRandom (k + randomReads st)%nat)
  /\ (forall k, dateNow' (k + clockReads st')%nat
                = dateNow (k + clockReads st)%nat).

(** The posts that the inventory source numbers from 1 to 20. *)
Definition twentyPosts : list Z := map Z.of_nat (seq 1 20).

(** ** Further observations *)

Definition isTyping (n : ChatNode) : bool :=
  match n with TypingIndicator => true | _ => false end.

(** The typing indicators shown in the chat element. *)
Definition typingShown (st : App) : nat :=
  List.length (filter isTyping (chatNodes st)).

(** A string made of blanks only. *)
Fixpoint allBlank (s : string) : bool :=
  match s with
  | EmptyString => true
  | String c s' => Js.isBlank c && allBlank s'
  end.

(** The text of an assistant entry. *)
Definition aiText (n : ChatNode) : list string :=
  match n with
  | AIMessage message _ _ => [message]
  | _ => []
  end.

(** The assistant entries, oldest first. *)
Definition replyTexts (st : App) : list string :=
  flat_map aiText (chatNodes st).

(** The replies that a settled [processMessage] appends to a chat
    element, oldest first: the fallback of the message when the call is
    rejected or the body is [null]; the [response] of the body when it is
    a non-empty string; the fallback instead of the response when the
    entry of the response cannot be built; the fallback after the response
    when its quick replies cannot be built. *)
Definition repliesOf (message : string) (outcome : RemoteOutcome)
  : list string :=
  match outcome with
  | Rejected => [getDemoResponse message]
  | Resolved data =>
      match d_response data with
      | Some response => if Js.truthy response then [response] else []
      | None => []
      end
  | Unusable NullBody => [getDemoResponse message]
  | Unusable (IntentNotString response) =>
      if Js.truthy response then [getDemoResponse message] else []
  | Unusable (SuggestionsNotArray response _ _) =>
      if Js.truthy response then [response; getDemoResponse message] else []
  end.

(** Whether a settled [processMessage] hides a typing indicator twice on
    a page with a chat element, the only one that shows indicators: in its
    [try] block, and again in its [catch] block. *)
Definition hidesTwice (outcome : RemoteOutcome) : bool :=
  match outcome with
  | Rejected | Resolved _ => false
  | Unusable NullBody => true
  | Unusable (IntentNotString response)
  | Unusable (SuggestionsNotArray response _ _) => Js.truthy response
  end.

(** The text that a settled [processMessage] hands to the speech
    synthesis, on a page with a chat element or without one. *)
Definition spokenOf (message : string) (outcome : RemoteOutcome)
    (withChat : bool) : option string :=
  match outcome with
  | Rejected | Unusable NullBody => Some (getDemoResponse message)
  | Resolved data =>
      match d_response data with
      | Some response => if Js.truthy response then Some response else None
      | None => None
      end
  | Unusable (IntentNotString response)
  | Unusable (SuggestionsNotArray response _ _) =>
      if Js.truthy response then
        Some (if withChat then getDemoResponse message else response)
      else None
  end.

(** The system messages of the chat element, oldest first. *)
Definition systemTexts (st : App) : list string :=
  flat_map (fun n =>
    match n with
    | SystemMessage message _ _ => [message]
    | _ => []
    end) (chatNodes st).

(** A section name that can stand between the double quotes of the
    attribute selector that [switchSection] builds for its navigation
    lookup: it holds no double quote, no backslash and no control
    character. *)
Definition selectorChar (c : ascii) : bool :=
  let n := nat_of_ascii c in
  (32 <=? n)%nat && negb (n =? 34)%nat && negb (n =? 92)%nat
  && negb (n =? 127)%nat.

Fixpoint selectorSafe (name : string) : bool :=
  match name with
  | EmptyString => true
  | String c rest => selectorChar c && selectorSafe rest
  end.

(** The notices that [switchSection] shows in the chat, oldest first. *)
Definition sectionMessages (sectionName : string) (st : App) : list string :=
  (if negb (hasElement sectionName st
            || hasElement (sectionName ++ "Section")%string st)
      && hasElement "assistant" st
   then [("📋 " ++ sectionName
          ++ " section is under development. Showing AI Assistant instead.")%string]
   else [])
  ++ (if (sectionName =? "analytics")%string
      then ["📊 Loading real-time analytics data..."]
      else if (sectionName =? "customers")%string
      then ["👥 Loading real-time customer data..."]
      else if (sectionName =? "inventory")%string
      then ["📦 Loading real-time inventory data..."]
      else [])
  ++ [("📄 Switched to " ++ sectionName ++ " section")%string].

(** ** Further operations *)

Section MoreOperations.

Variable dateNow : nat -> Z.
Variable mathRandom : nat -> Q.

(** [handleQuickAction] *)
Definition handleQuickAction (action : string) (st : App) : App :=
  if (action =? "start-conversation")%string then
    addSystemMessage dateNow
      "🎤 Ready to start a new conversation! Click the microphone or type your message."
      success (switchSection dateNow "assistant" st)
  else if (action =? "view-analytics")%string then
    addSystemMessage dateNow "📊 Loading analytics dashboard..." info
      (switchSection dateNow "analytics" st)
  else if (action =? "manage-customers")%string then
    addSystemMessage dateNow "👥 Customer management loaded successfully." info
      (switchSection dateNow "customers" st)
  else if (action =? "inventory-check")%string then
    addSystemMessage dateNow "🏍️ Inventory dashboard loaded." info
      (switchSection dateNow "inventory" st)
  else if (action =? "generate-report")%string then
    addSystemMessage dateNow "📋 Reports section opened." info
      (switchSection dateNow "reports" st)
  else if (action =? "system-settings")%string then
    addSystemMessage dateNow "⚙️ System settings loaded." info
      (switchSection dateNow "settings" st)
  else if (action =? "export-data")%string then exportData dateNow st
  else
    addSystemMessage dateNow
      ("Action " ++ Js.dquote ++ action ++ Js.dquote
       ++ " is not yet implemented.")%string warning st.

(** [checkInventoryAlerts], run to the end: the argument is what the
    inventory source delivered. *)
Definition checkInventoryAlerts (posts : option (list Z)) (st : App) : App :=
  let (inventory, st) := fetchInventoryData dateNow mathRandom posts st in
  let lowStockItems := filter (fun item => i_stock item <? 15) inventory in
  match lowStockItems with
  | _ :: _ =>
      addNotification dateNow
        ("🚨 " ++ Js.numToString (Z.of_nat (List.length lowStockItems))
         ++ " items are running low on stock!")%string warning st
  | [] => st
  end.

(** What happens to the voice capture: the calls of the page and the
    events of the recognition object. *)
Inductive CaptureEvent : Type :=
| CallStart (start : StartResult)
| CallStop
| CallToggle (start : StartResult)
| EventStart
| EventResult (spokenText : string)
| EventError
| EventEnd.

Definition captureStep (event : CaptureEvent) (st : App) : App :=
  match event with
  | CallStart start => stateOf (startListening dateNow start st)
  | CallStop => stopListening st
  | CallToggle start => stateOf (toggleVoiceRecognition dateNow start st)
  | EventStart => recognition_onstart dateNow st
  | EventResult spokenText =>
      recognition_onresult dateNow mathRandom spokenText st
  | EventError => recognition_onerror dateNow st
  | EventEnd => recognition_onend st
  end.

End MoreOperations.

(** The capture state and the recognition object are the same in two
    states. *)
Definition sameCapture (st st' : App) : Prop :=
  isListening st' = isListening st /\ recognition st' = recognition st.

(** The notice that [toggleTheme] posts when it switches to a theme. *)
Definition themeNotice (dark : bool) : string * Severity :=
  (("🎨 Switched to " ++ (if dark then "dark" else "light") ++ " mode")%string,
   info).

(** The request that opening a section starts, if any. *)
Definition sectionRequest (sectionName : string) : list Request :=
  if (sectionName =? "analytics")%string then [CryptoRequest]
  else if (sectionName =? "customers")%string then [UsersRequest]
  else if (sectionName =? "inventory")%string then [PostsRequest]
  else [].

(** The notices of [refreshAllData] and [generateBusinessReport]. *)
Definition refreshNotice : string * Severity :=
  ("🔄 Refreshing all data sources...", info).

Definition reportStartNotice : string * Severity :=
  ("📋 Generating comprehensive business report...", info).

Definition reportDoneNotice : string * Severity :=
  ("✅ Business report generated and downloaded!", success).

(** The capture state agrees with the platform: it is listening only if
    there is a recognition object. *)
Definition captureOk (st : App) : Prop :=
  recognition st = None -> isListening st = false.

(** The notice that the command handler posts for an executed command. *)
Definition executedNotice (command : string) : string * Severity :=
  (("✅ Executed: " ++ Js.dquote ++ command ++ Js.dquote)%string, success).

(** The section that a quick action opens, if it opens one. *)
Definition quickActionSection (action : string) : option string :=
  if (action =? "start-conversation")%string then Some "assistant"
  else if (action =? "view-analytics")%string then Some "analytics"
  else if (action =? "manage-customers")%string then Some "customers"
  else if (action =? "inventory-check")%string then Some "inventory"
  else if (action =? "generate-report")%string then Some "reports"
  else if (action =? "system-settings")%string then Some "settings"
  else None.

(** ** Ranges of the generated collections *)

(** What every generated inventory item satisfies, and every generated
    customer. *)
Definition inventoryItemOk (x : InventoryItem) : Prop :=
  10 <= i_stock x < 60
  /\ 50000 <= i_price x < 150000
  /\ (i_status x = "In Stock" \/ i_status x = "Low Stock").

Definition customerOk (c : Customer) : Prop :=
  50000 <= c_value c < 550000
  /\ 0 <= c_purchaseHistory c < 3
  /\ In (c_status c) statuses.

(** The three top models with their sales within the range of each. *)
Definition salesOk (a : AnalyticsData) : Prop :=
  match topModels a with
  | [honda; tvs; bajaj] =>
      tm_name honda = "Honda Activa" /\ 100 <= tm_sales honda < 300
      /\ tm_name tvs = "TVS Jupiter" /\ 80 <= tm_sales tvs < 230
      /\ tm_name bajaj = "Bajaj Pulsar" /\ 60 <= tm_sales bajaj < 180
  | _ => False
  end.

Definition mockAnalyticsOk (a : AnalyticsData) : Prop :=
  20 <= customerAcquisition a < 50
  /\ Forall (fun x => 0 <= x < 100) (quarterly a)
  /\ Forall (fun x => 0 <= x < 80) (monthly a)
  /\ salesOk a.

(** Whether an item of the analytics page is drawn: the image of a chart
    needs the canvas of the chart in the document and a capture that
    succeeds. *)
Definition drawn (env : ReportEnv) (st : App) (x : PdfItem) : bool :=
  match x with
  | ChartImage chart _ _ => hasElement chart st && captures env chart
  | _ => true
  end.

(** The items with fewer than fifteen units in stock. *)
Definition lowStock (inventory : list InventoryItem) : list InventoryItem :=
  filter (fun item => i_stock item <? 15) inventory.

Definition lowStockNotice (n : nat) : string * Severity :=
  ("🚨 " ++ Js.numToString (Z.of_nat n)
   ++ " items are running low on stock!", warning)%string.

(** ** The table of the customers page *)

(** [Array.prototype.sort] with a comparison function: the sort is stable,
    an element [x] that comes before [y] stays before it unless
    [compare x y] is positive. *)
Fixpoint insertSorted {A} (compare : A -> A -> Z) (x : A) (l : list A)
  : list A :=
  match l with
  | [] => [x]
  | y :: l' =>
      if compare x y <=? 0 then x :: l else y :: insertSorted compare x l'
  end.

Definition arraySort {A} (compare : A -> A -> Z) (l : list A) : list A :=
  fold_right (insertSorted compare) [] l.

(** [Array.prototype.slice] between two indices that are not negative. *)
Definition arraySlice {A} (first last : nat) (l : list A) : list A :=
  firstn (last - first) (skipn first l).

(** The rows of the table drawn by [addCustomersPage]. *)
Definition topCustomers (customers : list Customer) : list Customer :=
  arraySlice 0 10 (arraySort (fun a b => c_value b - c_value a) customers).

(** * The service worker of [frontend/sw.js]

    The cache storage of the origin is the list of its caches, in the
    order of their creation, each with its name; a cache is the list of
    its entries, in the order of their insertion, each the URL of a [GET]
    request with the response stored for it. A request is told from
    another by its method and its URL; a URL is written as in the worker,
    relative to the origin, and a response names no request header that
    it varies on. What [fetch] delivers is [Some] response, or [None]
    when its promise is rejected. The claims of the worker on its clients
    ([skipWaiting], [clients.claim]) are not part of the storage and are
    left out. *)

Module Sw.

Definition CACHE_NAME : string := "voicebot-enterprise-v1.0.0".

Definition CACHE_URLS : list string :=
  ["/"; "/index.html"; "/styles.css"; "/script.js"; "/manifest.json"].

Inductive ResponseType : Type :=
| basic | cors | default | error | opaque | opaqueredirect.

Record Response : Type := mkResponse {
  status : Z;
  type : ResponseType;
  body : string
}.

Record Request : Type := mkRequest {
  method : string;
  url : string
}.

Definition Cache : Type := list (string * Response).
Definition CacheStorage : Type := list (string * Cache).

(** The request that a URL stands for. *)
Definition get (u : string) : Request := mkRequest "GET" u.

Definition isBasic (t : ResponseType) : bool :=
  match t with basic => true | _ => false end.

(** The entry of a cache for a URL. *)
Definition lookup (u : string) (cache : Cache) : option Response :=
  option_map snd (find (fun e => (fst e =? u)%string) cache).

(** [cache.match(request)]: only a [GET] request matches. *)
Definition cacheMatch (request : Request) (cache : Cache) : option Response :=
  if (method request =? "GET")%string then lookup (url request) cache
  else None.

(** [caches.match(request)]: the first match, in the order of the
    caches. *)
Fixpoint cachesMatch (request : Request) (caches : CacheStorage)
  : option Response :=
  match caches with
  | [] => None
  | (_, cache) :: rest =>
      match cacheMatch request cache with
      | Some response => Some response
      | None => cachesMatch request rest
      end
  end.

Definition named (name : string) (c : string * Cache) : bool :=
  (fst c =? name)%string.

(** [caches.open(name)] creates the cache when there is none of that
    name. *)
Definition cachesOpen (name : string) (caches : CacheStorage) : CacheStorage :=
  if existsb (named name) caches then caches else caches ++ [(name, [])].

(** [cache.put] of a [GET] request: the entry replaces the one of the
    same URL. *)
Definition cachePut (u : string) (response : Response) (cache : Cache)
  : Cache :=
  filter (fun e => negb (fst e =? u)%string) cache ++ [(u, response)].

(** [cache.put] on the cache of a name. *)
Definition putIn (name u : string) (response : Response)
    (caches : CacheStorage) : CacheStorage :=
  map (fun c => if named name c then (fst c, cachePut u response (snd c))
                else c) caches.

(** [caches.delete(name)] *)
Definition cachesDelete (name : string) (caches : CacheStorage)
  : CacheStorage :=
  filter (fun c => negb (named name c)) caches.

(** [caches.keys()] *)
Definition keys (caches : CacheStorage) : list string := map fst caches.

(** A status from 200 to 299. *)
Definition ok (response : Response) : bool :=
  (200 <=? status response) && (status response <=? 299).

(** What [cache.addAll] stores for a URL: the response fetched for it,
    unless the fetch fails, or the status is not an ok status, or is
    206. *)
Definition addable (network : Request -> option Response) (u : string)
  : option (string * Response) :=
  match network (get u) with
  | Some response =>
      if ok response && negb (status response =? 206) then Some (u, response)
      else None
  | None => None
  end.

Fixpoint allSome {A} (l : list (option A)) : option (list A) :=
  match l with
  | [] => Some []
  | Some x :: l' => option_map (cons x) (allSome l')
  | None :: _ => None
  end.

(** [cache.addAll(urls)] on the cache of a name: every URL is fetched, and
    either all the responses are stored or none is. *)
Definition addAll (network : Request -> option Response) (urls : list string)
    (name : string) (caches : CacheStorage) : completion CacheStorage :=
  match allSome (map (addable network) urls) with
  | Some entries =>
      Normal (fold_left (fun cs e => putIn name (fst e) (snd e) cs)
                entries caches)
  | None => Thrown caches
  end.

(** The [install] handler, until the promise given to [waitUntil]
    settles. *)
Definition install (network : Request -> option Response)
    (caches : CacheStorage) : completion CacheStorage :=
  addAll network CACHE_URLS CACHE_NAME (cachesOpen CACHE_NAME caches).

(** The [activate] handler: every cache of another name is deleted. *)
Definition activate (caches : CacheStorage) : CacheStorage :=
  fold_left (fun cs cacheName =>
    if negb (cacheName =? CACHE_NAME)%string then cachesDelete cacheName cs
    else cs) (keys caches) caches.

(** The [fetch] handler, run to the end: what [respondWith] receives,
    [None] for [undefined], and the storage left. [fetched] is what the
    network delivers if it is asked. *)
Definition onfetch (request : Request) (fetched : option Response)
    (caches : CacheStorage) : option Response * CacheStorage :=
  match cachesMatch request caches with
  | Some response => (Some response, caches)
  | None =>
      match fetched with
      | Some response =>
          if negb (status response =? 200) || negb (isBasic (type response))
          then (Some response, caches)
          else
            let caches := cachesOpen CACHE_NAME caches in
            (Some response,
             if (method request =? "GET")%string
             then putIn CACHE_NAME (url request) response caches
             else caches)
      | None => (cachesMatch (get "/") caches, caches)
      end
  end.

End Sw.

(** A batch of [put]s, on one cache. *)
Definition putAll (entries : list (string * Sw.Response)) (cache : Sw.Cache)
  : Sw.Cache :=
  fold_left (fun c e => Sw.cachePut (fst e) (snd e) c) entries cache.

(** A network that serves the resources of the application and nothing
    else, and the storage left by an earlier version of the worker. *)
Definition appNetwork (request : Sw.Request) : option Sw.Response :=
  if existsb (String.eqb (Sw.url request)) Sw.CACHE_URLS
  then Some (Sw.mkResponse 200 Sw.basic ("v1 " ++ Sw.url request)%string)
  else None.

Definition oldStorage : Sw.CacheStorage :=
  [("voicebot-enterprise-v0.9.0",
    [("/", Sw.mkResponse 200 Sw.basic "v0 /")])].

(** Why a response is not stored by [addAll]. *)
Definition notAddable (fetched : option Sw.Response) : Prop :=
  match fetched with
  | Some response => Sw.ok response = false \/ Sw.status response = 206
  | None => True
  end.

(** The events that the worker handles on the caches, and the storage
    that handling them leaves. *)
Inductive WorkerEvent : Type :=
| InstallEvent (network : Sw.Request -> option Sw.Response)
| ActivateEvent
| FetchEvent (request : Sw.Request) (fetched : option Sw.Response).

Definition handle (event : WorkerEvent) (caches : Sw.CacheStorage)
  : Sw.CacheStorage :=
  match event with
  | InstallEvent network => stateOf (Sw.install network caches)
  | ActivateEvent => Sw.activate caches
  | FetchEvent request fetched => snd (Sw.onfetch request fetched caches)
  end.

Definition handleAll (events : list WorkerEvent) (caches : Sw.CacheStorage)
  : Sw.CacheStorage :=
  fold_left (fun cs event => handle event cs) events caches.

(** A cache of the current name holds the root page. *)
Definition rootCached (caches : Sw.CacheStorage) : Prop :=
  exists c, In c caches /\ Sw.named Sw.CACHE_NAME c = true
            /\ Sw.lookup "/" (snd c) <> None.

(** * Properties *)

(** ** Facts about the chat element *)

Section ChatFacts.

Variable dateNow : nat -> Z.
Variable mathRandom : nat -> Q.

Lemma filter_removeFirstTyping (p : ChatNode -> bool) (nodes : list ChatNode) :
  p TypingIndicator = false ->
  filter p (removeFirstTyping nodes) = filter p nodes.
Proof.
  intro Hp. induction nodes as [|n rest IH]; [reflexivity|].
  destruct n; simpl; rewrite ?IH, ?Hp; reflexivity.
Qed.

Lemma lastReplyOf_app (nodes : list ChatNode) message metadata time :
  lastReplyOf (nodes ++ [AIMessage message metadata time]) = Some message.
Proof. unfold lastReplyOf. rewrite fold_left_app. reflexivity. Qed.

Lemma chat_processMessage_begin (message : string) (st : App) :
  chatMessages (processMessage_begin dateNow mathRandom message st)
  = option_map (fun nodes => nodes ++ [TypingIndicator]) (chatMessages st).
Proof.
  unfold processMessage_begin, showTypingIndicator.
  destruct (chatMessages st) eqn:Hc, (userId st) eqn:Hu; cbn; rewrite ?Hu; cbn;
    try rewrite Hc; reflexivity.
Qed.

Lemma chat_processMessage_rejected (message : string) (st : App) nodes :
  chatMessages st = Some nodes ->
  exists time,
    chatMessages (processMessage dateNow mathRandom message Rejected st)
    = Some (removeFirstTyping (nodes ++ [TypingIndicator])
            ++ [AIMessage (getDemoResponse message) noMetadata time]).
Proof.
  intro Hc.
  unfold processMessage, processMessage_settle, processMessage_try,
    processMessage_catch.
  pose proof (chat_processMessage_begin message st) as Hb.
  rewrite Hc in Hb; simpl in Hb.
  set (st1 := processMessage_begin dateNow mathRandom message st) in *.
  unfold hideTypingIndicator; rewrite Hb.
  unfold addAIMessage, speakResponse; cbn.
  destruct (synthesis st1); cbn; eexists; reflexivity.
Qed.

Lemma chat_processMessage_answered (message : string) (st : App) nodes data
    response :
  chatMessages st = Some nodes ->
  d_response data = Some response ->
  Js.truthy response = true ->
  exists time tail,
    chatMessages (processMessage dateNow mathRandom message (Resolved data) st)
    = Some (removeFirstTyping (nodes ++ [TypingIndicator])
            ++ AIMessage response
                 (mkMetadata (d_intent data) (d_confidence data)
                    (d_suggestions data)) time :: tail)
    /\ filter isAIMessage tail = [] /\ filter isUserMessage tail = [].
Proof.
  intros Hc Hr Ht.
  unfold processMessage, processMessage_settle, processMessage_try.
  pose proof (chat_processMessage_begin message st) as Hb.
  rewrite Hc in Hb; simpl in Hb.
  set (st1 := processMessage_begin dateNow mathRandom message st) in *.
  rewrite Hr, Ht.
  unfold hideTypingIndicator; rewrite Hb.
  unfold addAIMessage, addQuickReplies, speakResponse; cbn.
  destruct (d_suggestions data) as [[|s l]|]; cbn;
    destruct (synthesis st1); cbn; eexists; eexists;
    (split; [rewrite <- ?app_assoc; cbn; reflexivity | split; reflexivity]).
Qed.

(** When the remote call fails, or answers with a non-empty [response],
    [processMessage] appends one assistant entry and no user entry. *)
Lemma processMessage_replies_once (message : string) (outcome : RemoteOutcome)
    (st : App) :
  chatMessages st <> None ->
  outcome = Rejected
  \/ (exists data response,
        outcome = Resolved data /\ d_response data = Some response
        /\ Js.truthy response = true) ->
  countAI (processMessage dateNow mathRandom message outcome st)
  = S (countAI st)
  /\ countUser (processMessage dateNow mathRandom message outcome st)
     = countUser st.
Proof.
  intros Hc Ho. destruct (chatMessages st) as [nodes|] eqn:E; [|congruence].
  unfold countAI, countUser, chatNodes. rewrite E.
  destruct Ho as [-> | (data & response & -> & Hr & Ht)].
  - destruct (chat_processMessage_rejected message st nodes E) as [t ->].
    rewrite !filter_app, !filter_removeFirstTyping, !filter_app by reflexivity.
    simpl. rewrite !app_nil_r, length_app. simpl. lia.
  - destruct (chat_processMessage_answered message st nodes data response
                E Hr Ht) as (t & tail & -> & Ha & Hu).
    rewrite !filter_app, !filter_removeFirstTyping, !filter_app by reflexivity.
    simpl. rewrite Ha, Hu, !app_nil_r, length_app. simpl. lia.
Qed.

(** A reply whose [response] is absent appends nothing to the chat
    element. *)
Lemma processMessage_unanswered (message : string) (st : App) i c s :
  chatNodes
    (processMessage dateNow mathRandom message
       (Resolved (mkChatData None i c s)) st)
  = removeFirstTyping (chatNodes (showTypingIndicator st)).
Proof.
  unfold processMessage, processMessage_settle, processMessage_try; cbn.
  pose proof (chat_processMessage_begin message st) as Hb.
  unfold chatNodes, hideTypingIndicator, showTypingIndicator.
  destruct (chatMessages st) as [nodes|] eqn:E; cbn in Hb;
    repeat (rewrite Hb; cbn); rewrite ?E; reflexivity.
Qed.

(** [sendQuickReply] leaves no quick replies in the chat element. *)
Lemma sendQuickReply_clears (suggestion : string) (st : App) :
  quickRepliesShown (sendQuickReply_begin dateNow mathRandom suggestion st)
  = 0%nat.
Proof.
  unfold quickRepliesShown, chatNodes, sendQuickReply_begin.
  rewrite chat_processMessage_begin.
  unfold addUserMessage.
  destruct (chatMessages st) as [nodes|] eqn:E; cbn;
    [|repeat (rewrite E; cbn); reflexivity].
  rewrite !filter_app; cbn. rewrite !app_nil_r.
  clear E. induction nodes as [|n rest IH]; [reflexivity|].
  destruct n; cbn; auto.
Qed.

End ChatFacts.

(** ** The message dispatcher *)

(** C1 (defect of the code). The claim asks for one assistant entry per
    user entry whatever the remote call does. When the call succeeds with a
    body that has no [response] field, [processMessage] removes the typing
    indicator and appends nothing: after the user typed hello and the
    service answered with an empty object, the transcript holds one user
    entry and no assistant entry, although the message was dispatched. *)
Theorem missing_response_leaves_turn_unanswered :
  let st :=
    stateOf
      (sendTextMessage clockTick draws
         (Resolved (mkChatData None None None None))
         (set_textInput (Some "hello") samplePage)) in
  countUser st = 1%nat /\ countAI st = 0%nat /\ dispatched st = ["hello"]
  /\ chatNodes st = [UserMessage "hello" text 1700000000000].
Proof. vm_compute. repeat split. Qed.

(** C2, as stated, fails: a message that contains book and also a keyword
    of the first rule gets the reply of the first rule. *)
Lemma booking_keyword_is_shadowed_by_bike_rule :
  ~ (forall message : string,
       mentions message "test ride" || mentions message "book" = true ->
       getDemoResponse message = testRideResponse).
Proof.
  intro H. specialize (H "Can I BOOK a bike?" eq_refl).
  vm_compute in H. discriminate H.
Qed.

(** C2 (amended). When the remote call fails, the reply appended to the
    transcript is [getDemoResponse] of the message, whatever the state and
    the platform, so two failed dispatches of one message get the same
    text; and for a message that mentions test ride or book and none of
    bike, under and lakh, that text is the fixed test-ride message. *)
Theorem fallback_reply_is_rule_table_reply :
  forall (dateNow dateNow' : nat -> Z) (mathRandom mathRandom' : nat -> Q)
         (message : string) (st st' : App),
    chatMessages st <> None ->
    chatMessages st' <> None ->
    lastReply (processMessage dateNow mathRandom message Rejected st)
    = Some (getDemoResponse message)
    /\ lastReply (processMessage dateNow' mathRandom' message Rejected st')
       = lastReply (processMessage dateNow mathRandom message Rejected st)
    /\ (mentions message "test ride" || mentions message "book" = true ->
        mentions message "bike" || mentions message "under"
        || mentions message "lakh" = false ->
        getDemoResponse message = testRideResponse).
Proof.
  intros dn dn' mr mr' message st st' Hc Hc'.
  assert (Hlast : forall d r s, chatMessages s <> None ->
            lastReply (processMessage d r message Rejected s)
            = Some (getDemoResponse message)).
  { intros d r s Hs. destruct (chatMessages s) as [nodes|] eqn:E; [|congruence].
    destruct (chat_processMessage_rejected d r message s nodes E) as [t Ht].
    unfold lastReply, chatNodes. rewrite Ht. apply lastReplyOf_app. }
  split; [now apply Hlast|]. split.
  - rewrite !Hlast by assumption. reflexivity.
  - unfold mentions, getDemoResponse. intros Hbook Hbike.
    rewrite Hbike, Hbook. reflexivity.
Qed.

Lemma fallback_reply_is_rule_table_reply_witness :
  lastReply
    (processMessage clockTick draws "I want to book a test ride" Rejected
       samplePage)
  = Some testRideResponse
  /\ lastReply
       (processMessage clockStill draws "I want to book a test ride" Rejected
          (processMessage clockTick draws "I want to book a test ride"
             Rejected samplePage))
     = Some testRideResponse.
Proof.
  destruct (fallback_reply_is_rule_table_reply clockTick clockStill draws draws
              "I want to book a test ride" samplePage
              (processMessage clockTick draws "I want to book a test ride"
                 Rejected samplePage))
    as (H1 & H2 & H3).
  - discriminate.
  - vm_compute. discriminate.
  - rewrite H2, H1, H3 by reflexivity. split; reflexivity.
Defined.

(** C8 (defect of the code). The claim asks that the quick replies of an
    assistant turn be gone when the next user entry is appended, also when
    that entry is typed. [sendQuickReply] removes them, [sendTextMessage]
    and [handleVoiceInput] do not: after a reply that carried two
    suggestions, typing a new message appends the user entry and leaves the
    suggestions in the chat element, also once the new turn is answered. *)
Theorem typed_message_keeps_stale_quick_replies :
  let answered :=
    stateOf
      (sendTextMessage clockTick draws
         (Resolved
            (mkChatData (Some "Sure, which brand?") None None
               (Some ["Honda"; "TVS"])))
         (set_textInput (Some "hi") samplePage)) in
  let typed :=
    stateOf
      (sendTextMessage_begin clockTick draws
         (set_textInput (Some "show me scooters") answered)) in
  let settled :=
    stateOf
      (sendTextMessage clockTick draws Rejected
         (set_textInput (Some "show me scooters") answered)) in
  quickRepliesShown answered = 1%nat
  /\ userTexts typed = ["hi"; "show me scooters"]
  /\ quickRepliesShown typed = 1%nat
  /\ quickRepliesShown settled = 1%nat
  /\ quickRepliesShown
       (handleVoiceInput_begin clockTick draws "show me scooters" answered)
     = 1%nat
  /\ quickRepliesShown
       (sendQuickReply_begin clockTick draws "Honda" answered) = 0%nat.
Proof. vm_compute. repeat split. Qed.

(** ** The notification feed *)

Section FeedFacts.

Variable dateNow : nat -> Z.

Lemma addNotification_feed (message : string) (type : Severity) (st : App) :
  notifications (addNotification dateNow message type st)
  = Notification.mk (dateNow (clockReads st)) message type
      (dateNow (S (clockReads st))) false :: notifications st.
Proof.
  unfold addNotification, addSystemMessage; cbn.
  destruct (chatMessages st); reflexivity.
Qed.

Lemma addNotification_clock (message : string) (type : Severity) (st : App) :
  (clockReads st < clockReads (addNotification dateNow message type st))%nat.
Proof.
  unfold addNotification, addSystemMessage; cbn.
  destruct (chatMessages st); cbn; lia.
Qed.

Lemma feedFrom_weaken bound bound' feed :
  feedFrom dateNow bound feed -> (bound <= bound')%nat ->
  feedFrom dateNow bound' feed.
Proof.
  intros H Hle. destruct H; econstructor; eauto. lia.
Qed.

Lemma addNotification_feedFrom (message : string) (type : Severity) (st : App) :
  feedFrom dateNow (clockReads st) (notifications st) ->
  feedFrom dateNow
    (clockReads (addNotification dateNow message type st))
    (notifications (addNotification dateNow message type st)).
Proof.
  intro H. rewrite addNotification_feed.
  apply feedFrom_cons with (k := clockReads st);
    [apply addNotification_clock | reflexivity | exact H].
Qed.

Lemma postAll_feedFrom (posts : list (string * Severity)) (st : App) :
  feedFrom dateNow (clockReads st) (notifications st) ->
  feedFrom dateNow (clockReads (postAll dateNow posts st))
    (notifications (postAll dateNow posts st)).
Proof.
  revert st. induction posts as [|p posts IH]; intros st H; [exact H|].
  apply IH. now apply addNotification_feedFrom.
Qed.

Lemma postAll_content (posts : list (string * Severity)) (st : App) :
  feedContent (postAll dateNow posts st) = rev posts ++ feedContent st.
Proof.
  revert st. induction posts as [|[m t] posts IH]; intro st; [reflexivity|].
  simpl. rewrite IH. unfold feedContent at 1.
  rewrite addNotification_feed. simpl. rewrite <- app_assoc. reflexivity.
Qed.

(** Every entry below another one carries a reading made earlier. *)
Lemma feedFrom_older bound feed :
  feedFrom dateNow bound feed ->
  Forall (fun n => exists k, (k < bound)%nat /\ Notification.id n = dateNow k)
    feed.
Proof.
  induction 1 as [|bound k n feed Hk Hid _ IH]; constructor.
  - exists k. auto.
  - eapply Forall_impl; [|exact IH].
    intros m (k' & Hk' & Hm). exists k'. split; [lia | exact Hm].
Qed.

Lemma feedFrom_sorted (R : Z -> Z -> Prop) bound feed :
  (forall i j, (i < j)%nat -> R (dateNow i) (dateNow j)) ->
  feedFrom dateNow bound feed ->
  StronglySorted
    (fun newer older => R (Notification.id older) (Notification.id newer))
    feed.
Proof.
  intros HR. induction 1 as [|bound k n feed Hk Hid Hfeed IH]; constructor.
  - exact IH.
  - eapply Forall_impl; [|exact (feedFrom_older _ _ Hfeed)].
    intros m (k' & Hk' & Hm). cbn. rewrite Hm, Hid. now apply HR.
Qed.

Lemma isDarkMode_addNotification (message : string) (type : Severity)
    (st : App) :
  isDarkMode (addNotification dateNow message type st) = isDarkMode st.
Proof.
  unfold addNotification, addSystemMessage; cbn.
  destruct (chatMessages st); reflexivity.
Qed.

Lemma addNotification_frame (message : string) (type : Severity) (st : App) :
  downloads (addNotification dateNow message type st) = downloads st
  /\ reportProgress (addNotification dateNow message type st)
     = reportProgress st.
Proof.
  unfold addNotification, addSystemMessage; cbn.
  destruct (chatMessages st); split; reflexivity.
Qed.

Lemma feedContent_addNotification (message : string) (type : Severity)
    (st : App) :
  feedContent (addNotification dateNow message type st)
  = (message, type) :: feedContent st.
Proof. unfold feedContent. rewrite addNotification_feed. reflexivity. Qed.

Lemma StronglySorted_first_two {A} (R : A -> A -> Prop) (a b : A) l :
  StronglySorted R (a :: b :: l) -> R a b.
Proof.
  intro H. apply StronglySorted_inv in H. destruct H as [_ Hall].
  now apply Forall_inv in Hall.
Qed.

Lemma StronglySorted_map {A B} (f : A -> B) (R : B -> B -> Prop) l :
  StronglySorted (fun a b => R (f a) (f b)) l -> StronglySorted R (map f l).
Proof.
  induction 1 as [|a l Hs IH Hall]; simpl; constructor; [exact IH|].
  rewrite Forall_map. exact Hall.
Qed.

End FeedFacts.

(** C4, as stated, fails: the id of a notification is the reading of the
    clock, and two notifications posted within one millisecond, as the two
    of [setupNotificationSystem] can be, carry the same id. *)
Lemma notification_ids_can_coincide :
  ~ (forall dateNow : nat -> Z,
       (forall i j, (i <= j)%nat -> dateNow i <= dateNow j) ->
       StronglySorted
         (fun newer older => Notification.id older < Notification.id newer)
         (notifications (setupNotificationSystem dateNow samplePage))).
Proof.
  intro H. specialize (H clockStill (fun _ _ _ => Z.le_refl _)).
  apply (StronglySorted_map Notification.id (fun newer older => older < newer))
    in H.
  assert (E : map Notification.id
                (notifications (setupNotificationSystem clockStill samplePage))
              = [1700000000000; 1700000000000])
    by (vm_compute; reflexivity).
  rewrite E in H. apply StronglySorted_first_two in H. lia.
Qed.

(** C4 (amended). With a clock that never goes back, posting N
    notifications to an empty feed yields them in reverse post order, and
    the id of every notification is at least the id of every notification
    posted before it; the ids are strictly increasing in post order when
    every reading of the clock is later than the one before. *)
Theorem feed_is_newest_first_with_ordered_ids :
  forall (dateNow : nat -> Z) (posts : list (string * Severity)) (st : App),
    notifications st = [] ->
    (forall i j, (i <= j)%nat -> dateNow i <= dateNow j) ->
    let st' := postAll dateNow posts st in
    feedContent st' = rev posts
    /\ List.length (notifications st') = List.length posts
    /\ StronglySorted
         (fun newer older => Notification.id older <= Notification.id newer)
         (notifications st')
    /\ ((forall i j, (i < j)%nat -> dateNow i < dateNow j) ->
        StronglySorted
          (fun newer older => Notification.id older < Notification.id newer)
          (notifications st')).
Proof.
  intros dn posts st Hempty Hmono st'.
  assert (Hfrom : feedFrom dn (clockReads st') (notifications st')).
  { apply postAll_feedFrom. rewrite Hempty. constructor. }
  assert (Hcontent : feedContent st' = rev posts).
  { unfold st'. rewrite postAll_content. unfold feedContent.
    rewrite Hempty. apply app_nil_r. }
  split; [exact Hcontent|]. split.
  - transitivity (List.length (feedContent st')).
    + unfold feedContent. now rewrite length_map.
    + now rewrite Hcontent, length_rev.
  - split.
    + eapply feedFrom_sorted with (R := Z.le); [|exact Hfrom].
      intros i j Hij. apply Hmono. lia.
    + intro Hstrict. eapply feedFrom_sorted with (R := Z.lt); eauto.
Qed.

Lemma feed_is_newest_first_with_ordered_ids_witness :
  feedContent
    (postAll clockTick [("first", info); ("second", warning); ("third", error)]
       samplePage)
  = [("third", error); ("second", warning); ("first", info)]
  /\ map Notification.id
       (notifications
          (postAll clockTick
             [("first", info); ("second", warning); ("third", error)]
             samplePage))
     = [1700000000006; 1700000000003; 1700000000000].
Proof.
  pose proof (feed_is_newest_first_with_ordered_ids clockTick
                [("first", info); ("second", warning); ("third", error)]
                samplePage eq_refl) as H.
  assert (Hmono : forall i j, (i <= j)%nat -> clockTick i <= clockTick j)
    by (intros i j Hij; unfold clockTick; lia).
  destruct (H Hmono) as (Hcontent & _).
  split; [exact Hcontent | vm_compute; reflexivity].
Defined.

(** ** Metrics refresh *)

Section MetricsFacts.

Variable mathRandom : nat -> Q.
Hypothesis mathRandom_range : forall k, (0 <= mathRandom k /\ mathRandom k < 1)%Q.

Lemma floor_scaled_draw (k : nat) (n : Z) :
  0 < n -> 0 <= Js.floor (mathRandom k * inject_Z n) < n.
Proof.
  intro Hn. destruct (mathRandom_range k) as [H0 H1]. unfold Js.floor.
  assert (Hnq : (inject_Z 0 < inject_Z n)%Q) by (rewrite <- Zlt_Qlt; exact Hn).
  change (inject_Z 0) with 0%Q in Hnq.
  split.
  - change 0 with (Qfloor 0). apply Qfloor_resp_le.
    apply Qmult_le_0_compat; [exact H0 | now apply Qlt_le_weak].
  - apply Z.lt_nge. intro Hge.
    assert (Hle : (inject_Z n <= mathRandom k * inject_Z n)%Q).
    { eapply Qle_trans; [|apply Qfloor_le]. rewrite <- Zle_Qle. exact Hge. }
    assert (Hlt : (mathRandom k * inject_Z n < 1 * inject_Z n)%Q)
      by (apply Qmult_lt_compat_r; assumption).
    rewrite Qmult_1_l in Hlt.
    exact (Qlt_irrefl _ (Qle_lt_trans _ _ _ Hle Hlt)).
Qed.

Lemma drawBelow_range (n : Z) (st : App) :
  0 < n -> 0 <= fst (drawBelow mathRandom n st) < n.
Proof. intro Hn. cbn. now apply floor_scaled_draw. Qed.

Lemma realTimeData_startRealTimeUpdates_tick (st : App) :
  realTimeData (startRealTimeUpdates_tick mathRandom st)
  = addRevenue (Js.floor (mathRandom (S (S (randomReads st))) * inject_Z 1000))
      (addLeads (Js.floor (mathRandom (S (randomReads st)) * inject_Z 2))
         (addConversations (Js.floor (mathRandom (randomReads st) * inject_Z 3))
            (realTimeData st))).
Proof.
  unfold startRealTimeUpdates_tick, updateSystemMetrics, drawBelow, random.
  cbv beta iota zeta.
  match goal with |- context [if ?b then _ else _] => destruct b end;
    reflexivity.
Qed.

Lemma realTimeData_updateRealTimeMetrics (st : App) :
  realTimeData (updateRealTimeMetrics mathRandom st)
  = addRevenue (Js.floor (mathRandom (S (S (randomReads st))) * inject_Z 2000))
      (addLeads (Js.floor (mathRandom (S (randomReads st)) * inject_Z 2))
         (addConversations (Js.floor (mathRandom (randomReads st) * inject_Z 5))
            (realTimeData st))).
Proof. reflexivity. Qed.

Lemma refresh_step (tick : Refresh) (st : App) :
  let m := realTimeData st in
  let m' := realTimeData (refresh mathRandom tick st) in
  conversations m <= conversations m' < conversations m + 5
  /\ leads m <= leads m' < leads m + 2
  /\ revenue m <= revenue m' < revenue m + 2000
  /\ satisfaction m' = satisfaction m.
Proof.
  pose proof (floor_scaled_draw (randomReads st) 3).
  pose proof (floor_scaled_draw (randomReads st) 5).
  pose proof (floor_scaled_draw (S (randomReads st)) 2).
  pose proof (floor_scaled_draw (S (S (randomReads st))) 1000).
  pose proof (floor_scaled_draw (S (S (randomReads st))) 2000).
  cbv zeta. destruct tick; unfold refresh;
    [rewrite realTimeData_startRealTimeUpdates_tick
    |rewrite realTimeData_updateRealTimeMetrics];
    unfold addRevenue, addLeads, addConversations;
    cbn [conversations leads revenue satisfaction]; lia.
Qed.

End MetricsFacts.

(** C3. The snapshot set by the constructor has no negative field and a
    satisfaction within 0..100, and each refresh, of either kind and with
    draws of [Math.random] in the interval from 0 to 1, keeps it so: the
    conversations and the leads after the refresh are at least what they
    were before, and the satisfaction is unchanged. *)
Theorem refresh_never_decreases_counters :
  forall (mathRandom : nat -> Q),
    (forall k, (0 <= mathRandom k /\ mathRandom k < 1)%Q) ->
    metricsOk initialMetrics
    /\ forall (tick : Refresh) (st : App),
         metricsOk (realTimeData st) ->
         let m := realTimeData st in
         let m' := realTimeData (refresh mathRandom tick st) in
         conversations m <= conversations m'
         /\ leads m <= leads m'
         /\ 0 <= satisfaction m' <= 100
         /\ metricsOk m'.
Proof.
  intros mr Hmr. split; [unfold metricsOk; cbn; lia|].
  intros tick st Hok.
  pose proof (refresh_step mr Hmr tick st) as Hstep.
  cbv zeta in *. unfold metricsOk in *. lia.
Qed.

Lemma refresh_never_decreases_counters_witness :
  let st := refresh draws MonitorTick (refresh draws StatsTick samplePage) in
  let st' := refresh draws StatsTick st in
  conversations (realTimeData st) <= conversations (realTimeData st')
  /\ leads (realTimeData st) <= leads (realTimeData st')
  /\ 0 <= satisfaction (realTimeData st') <= 100.
Proof.
  assert (Hdraws : forall k, (0 <= draws k /\ draws k < 1)%Q).
  { intro k. pose proof (Nat.mod_upper_bound k 13 ltac:(discriminate)) as Hk.
    unfold draws, Qle, Qlt. cbn [Qnum Qden]. lia. }
  destruct (refresh_never_decreases_counters draws Hdraws) as [_ Hstep].
  intros st st'.
  assert (Hok : metricsOk (realTimeData st))
    by (vm_compute; repeat split; discriminate).
  destruct (Hstep StatsTick st Hok) as (Hc & Hl & Hs & _).
  repeat split; first [exact Hc | exact Hl | apply Hs].
Defined.

(** ** Voice capture and voice commands *)

Section VoiceFacts.

Variable dateNow : nat -> Z.
Variable mathRandom : nat -> Q.

Lemma quiet_refl (st : App) : quiet st st.
Proof. split; reflexivity. Qed.

Lemma quiet_trans (st st' st'' : App) :
  quiet st st' -> quiet st' st'' -> quiet st st''.
Proof. intros [H1 H2] [H3 H4]. split; congruence. Qed.

Lemma quiet_frame (st st' : App) :
  requests st' = requests st -> chatMessages st' = chatMessages st ->
  quiet st st'.
Proof.
  intros Hr Hc. unfold quiet, dispatched, userTexts, chatNodes.
  now rewrite Hr, Hc.
Qed.

Lemma quiet_addSystemMessage message type (st : App) :
  quiet st (addSystemMessage dateNow message type st).
Proof.
  unfold quiet, dispatched, userTexts, chatNodes, addSystemMessage.
  destruct (chatMessages st) as [nodes|] eqn:E; cbn; rewrite ?E; auto.
  rewrite flat_map_app; cbn. rewrite app_nil_r. auto.
Qed.

Lemma quiet_addNotification message type (st : App) :
  quiet st (addNotification dateNow message type st).
Proof.
  unfold addNotification; cbn.
  eapply quiet_trans; [|apply quiet_addSystemMessage].
  apply quiet_frame; reflexivity.
Qed.

Lemma quiet_request (r : Request) (st : App) :
  match r with ChatRequest _ _ _ => False | _ => True end ->
  quiet st (set_requests (requests st ++ [r]) st).
Proof.
  intro Hr. unfold quiet, dispatched, userTexts, chatNodes; cbn.
  rewrite flat_map_app. destruct r; [contradiction| | |];
    cbn; rewrite app_nil_r; auto.
Qed.

Lemma quiet_updateRealTimeMetrics (st : App) :
  quiet st (updateRealTimeMetrics mathRandom st).
Proof. apply quiet_frame; reflexivity. Qed.

(** Peels the outermost operation off the state reached. *)
Ltac quiet_step :=
  lazymatch goal with
  | |- quiet ?s ?s => apply quiet_refl
  | |- quiet _ (if ?b then _ else _) => destruct b
  | |- quiet _ (addSystemMessage _ _ _ ?x) =>
      apply (quiet_trans _ x); [|apply quiet_addSystemMessage]
  | |- quiet _ (addNotification _ _ _ ?x) =>
      apply (quiet_trans _ x); [|apply quiet_addNotification]
  | |- quiet _ (updateRealTimeMetrics _ ?x) =>
      apply (quiet_trans _ x); [|apply quiet_updateRealTimeMetrics]
  | |- quiet _ (set_requests (requests ?x ++ [_]) ?x) =>
      apply (quiet_trans _ x); [|apply quiet_request; exact I]
  | |- quiet _ (set_currentSection _ ?x) =>
      apply (quiet_trans _ x); [|apply quiet_frame; reflexivity]
  | |- quiet _ (set_isDarkMode _ ?x) =>
      apply (quiet_trans _ x); [|apply quiet_frame; reflexivity]
  | |- quiet _ (set_timers _ ?x) =>
      apply (quiet_trans _ x); [|apply quiet_frame; reflexivity]
  | |- quiet _ (set_downloads _ ?x) =>
      apply (quiet_trans _ x); [|apply quiet_frame; reflexivity]
  | |- quiet _ (set_clockReads _ ?x) =>
      apply (quiet_trans _ x); [|apply quiet_frame; reflexivity]
  end.

Lemma quiet_runAction (a : Action) (st : App) :
  quiet st (runAction dateNow mathRandom a st).
Proof.
  destruct a; unfold runAction, switchSection, generateBusinessReport,
    refreshAllData, toggleTheme, exportData, showVoiceHelp,
    loadAnalyticsSection_begin, loadCustomersSection_begin,
    loadInventorySection_begin, readClock; cbv zeta; cbv beta iota;
    repeat quiet_step.
Qed.

(** [Array.prototype.find] returns the first element that satisfies the
    test. *)
Lemma find_first {A} (p : A -> bool) (l : list A) (x : A) :
  Js.find p l = Some x ->
  exists before after,
    l = before ++ x :: after /\ p x = true
    /\ forallb (fun y => negb (p y)) before = true.
Proof.
  induction l as [|y l IH]; [discriminate|]. simpl.
  destruct (p y) eqn:E.
  - intros [= ->]. exists [], l. auto.
  - intro H. destruct (IH H) as (before & after & -> & Hx & Hb).
    exists (y :: before), after. simpl. rewrite E. auto.
Qed.

(** What the command handler does with an utterance: the first trigger,
    in the order of [voiceCommands], that the lower-cased utterance
    includes has its action run and a success notification posted on top
    of the feed, and nothing is sent to the dispatcher; with no such
    trigger the lower-cased utterance is handed to the dispatcher. *)
Lemma commandHandler_matched (spokenText command : string) (a : Action)
    (st : App) :
  findCommand (Js.toLowerCase spokenText) = Some (command, a) ->
  (exists before after,
     voiceCommands = before ++ (command, a) :: after
     /\ Js.includes (Js.toLowerCase spokenText) command = true
     /\ forallb
          (fun c => negb (Js.includes (Js.toLowerCase spokenText) (fst c)))
          before = true)
  /\ quiet st (commandHandler dateNow mathRandom spokenText st)
  /\ exists n rest,
       notifications (commandHandler dateNow mathRandom spokenText st)
       = n :: rest
       /\ Notification.type n = success
       /\ Notification.message n
          = ("✅ Executed: " ++ Js.dquote ++ command ++ Js.dquote)%string
       /\ rest = notifications (runAction dateNow mathRandom a st).
Proof.
  intro Hfind. split; [|split].
  - destruct (find_first _ _ _ Hfind) as (before & after & Hl & Hp & Hb).
    exists before, after. auto.
  - unfold commandHandler. rewrite Hfind.
    eapply quiet_trans; [apply quiet_runAction | apply quiet_addNotification].
  - unfold commandHandler. rewrite Hfind. rewrite addNotification_feed.
    eexists; eexists. repeat split.
Qed.

Lemma commandHandler_unmatched (spokenText : string) (st : App) :
  findCommand (Js.toLowerCase spokenText) = None ->
  commandHandler dateNow mathRandom spokenText st
  = handleVoiceInput_begin dateNow mathRandom (Js.toLowerCase spokenText) st.
Proof. intro Hfind. unfold commandHandler. now rewrite Hfind. Qed.

Lemma dispatched_handleVoiceInput_begin (transcript : string) (st : App) :
  dispatched (handleVoiceInput_begin dateNow mathRandom transcript st)
  = dispatched st ++ [transcript].
Proof.
  unfold handleVoiceInput_begin, processMessage_begin, showTypingIndicator,
    addUserMessage, dispatched.
  destruct (chatMessages st) eqn:Hc, (userId st) eqn:Hu; cbn;
    rewrite ?Hc; cbn; rewrite ?Hu; cbn;
    rewrite flat_map_app; reflexivity.
Qed.

End VoiceFacts.

(** C5, as stated, fails: without a recognition object [startListening]
    does nothing, so it adds no warning to the notification feed (nor to
    the chat). *)
Lemma startListening_posts_no_warning :
  ~ (forall (start : StartResult) (st : App),
       recognition st = None ->
       countNotifications warning
         (stateOf (startListening clockTick start st))
       = S (countNotifications warning st)).
Proof.
  intro H.
  specialize (H Starts (initSpeechRecognition clockTick false samplePage)
                eq_refl).
  vm_compute in H. discriminate H.
Qed.

(** C5 (amended). On a platform without speech recognition,
    [initSpeechRecognition] leaves the recognition object absent, the
    capture state and the notification feed as they were, and shows one
    warning as a system message of the chat; after it, [startListening]
    completes normally and changes nothing: the capture state stays idle and
    no notification or message is produced. *)
Theorem startListening_without_capture_is_silent :
  forall (dateNow : nat -> Z) (start : StartResult) (st : App),
    recognition st = None ->
    isListening st = false ->
    let st0 := initSpeechRecognition dateNow false st in
    recognition st0 = None
    /\ isListening st0 = false
    /\ notifications st0 = notifications st
    /\ (chatMessages st <> None ->
        countSystemMessages warning st0 = S (countSystemMessages warning st))
    /\ startListening dateNow start st0 = Normal st0.
Proof.
  intros dn start st Hrec Hidle st0.
  assert (H0 : recognition st0 = None /\ isListening st0 = false
               /\ notifications st0 = notifications st).
  { unfold st0, initSpeechRecognition, addSystemMessage.
    destruct (chatMessages st); cbn; auto. }
  destruct H0 as (Hr0 & Hi0 & Hn0). repeat split; try assumption.
  - intro Hchat. unfold st0, initSpeechRecognition, addSystemMessage,
      countSystemMessages, chatNodes.
    destruct (chatMessages st) as [nodes|]; [|congruence]. cbn.
    rewrite filter_app, length_app. cbn. lia.
  - unfold startListening. now rewrite Hr0.
Qed.

Lemma startListening_without_capture_is_silent_witness :
  let st0 := initSpeechRecognition clockTick false samplePage in
  countSystemMessages warning st0 = 1%nat
  /\ countNotifications warning st0 = 0%nat
  /\ startListening clockTick Starts st0 = Normal st0.
Proof.
  destruct (startListening_without_capture_is_silent clockTick Starts
              samplePage eq_refl eq_refl) as (_ & _ & Hn & Hw & Hs).
  cbv zeta. split; [|split].
  - rewrite Hw by discriminate. reflexivity.
  - unfold countNotifications. rewrite Hn. reflexivity.
  - exact Hs.
Defined.

(** The voice-command example of the specification: the action bound to
    show dashboard runs, a success notification names it, and nothing is
    sent to the dispatcher. *)
Example show_dashboard_command :
  let st :=
    recognition_onresult clockTick draws "Please show dashboard now"
      (set_currentSection "assistant" (listeningPage clockTick)) in
  currentSection st = "dashboard"
  /\ dispatched st = [] /\ userTexts st = []
  /\ feedContent st
     = [(("✅ Executed: " ++ Js.dquote ++ "show dashboard" ++ Js.dquote)%string,
         success)].
Proof. vm_compute. repeat split. Qed.

(** C6 (defect of the code). The claim asks that an utterance matching no
    trigger reach the dispatcher unchanged, as the handler of
    [initSpeechRecognition] forwards it. The handler that
    [setupVoiceCommands] installs in its place forwards the lower-cased
    transcript: the utterance Book a Test Ride is shown and dispatched in
    lower case. *)
Theorem unmatched_utterance_is_forwarded_in_lower_case :
  let spokenText := "Book a Test Ride" in
  let plain :=
    recognition_onresult clockTick draws spokenText
      (initSpeechRecognition clockTick true samplePage) in
  let commands :=
    recognition_onresult clockTick draws spokenText (listeningPage clockTick) in
  findCommand (Js.toLowerCase spokenText) = None
  /\ dispatched plain = ["Book a Test Ride"]
  /\ userTexts plain = ["Book a Test Ride"]
  /\ dispatched commands = ["book a test ride"]
  /\ userTexts commands = ["book a test ride"].
Proof. vm_compute. repeat split. Qed.

(** C10. The triggers dark mode and light mode are both bound to the
    toggle: an utterance whose first matching trigger is either of them
    flips [isDarkMode], whatever it was; in particular light mode said in
    light mode switches to dark mode, and the feed reports the switch to
    dark mode below the notification of the executed command. *)
Theorem light_and_dark_mode_both_toggle :
  forall (dateNow : nat -> Z) (mathRandom : nat -> Q) (st : App),
    findCommand "dark mode" = Some ("dark mode", ToggleTheme)
    /\ findCommand "light mode" = Some ("light mode", ToggleTheme)
    /\ (forall spokenText command,
          findCommand (Js.toLowerCase spokenText) = Some (command, ToggleTheme) ->
          isDarkMode (commandHandler dateNow mathRandom spokenText st)
          = negb (isDarkMode st))
    /\ (isDarkMode st = false ->
        isDarkMode (commandHandler dateNow mathRandom "light mode" st) = true
        /\ exists n m rest,
             notifications (commandHandler dateNow mathRandom "light mode" st)
             = n :: m :: rest
             /\ Notification.message m = "🎨 Switched to dark mode").
Proof.
  intros dn mr st.
  assert (Hflip : forall spokenText command,
            findCommand (Js.toLowerCase spokenText)
            = Some (command, ToggleTheme) ->
            isDarkMode (commandHandler dn mr spokenText st)
            = negb (isDarkMode st)).
  { intros u c Hfind. unfold commandHandler. rewrite Hfind.
    unfold runAction, toggleTheme. now rewrite !isDarkMode_addNotification. }
  split; [reflexivity|]. split; [reflexivity|]. split; [exact Hflip|].
  intro Hlight. split.
  - rewrite (Hflip "light mode" "light mode") by reflexivity.
    now rewrite Hlight.
  - unfold commandHandler.
    change (findCommand (Js.toLowerCase "light mode"))
      with (Some ("light mode", ToggleTheme)).
    cbv iota. rewrite addNotification_feed.
    unfold runAction, toggleTheme. rewrite addNotification_feed.
    cbn [isDarkMode set_isDarkMode]. rewrite Hlight.
    eexists; eexists; eexists. split; reflexivity.
Qed.

Lemma light_and_dark_mode_both_toggle_witness :
  isDarkMode
    (recognition_onresult clockTick draws "Light mode"
       (listeningPage clockTick)) = true
  /\ isDarkMode
       (commandHandler clockTick draws "switch to dark mode please"
          (commandHandler clockTick draws "Light mode"
             (listeningPage clockTick))) = false.
Proof.
  destruct (light_and_dark_mode_both_toggle clockTick draws
              (listeningPage clockTick)) as (_ & _ & Hflip & _).
  destruct (light_and_dark_mode_both_toggle clockTick draws
              (commandHandler clockTick draws "Light mode"
                 (listeningPage clockTick))) as (_ & _ & Hflip' & _).
  split.
  - change (recognition_onresult clockTick draws "Light mode"
              (listeningPage clockTick))
      with (commandHandler clockTick draws "Light mode"
              (listeningPage clockTick)).
    rewrite (Hflip "Light mode" "light mode") by reflexivity. reflexivity.
  - rewrite (Hflip' "switch to dark mode please" "dark mode") by reflexivity.
    rewrite (Hflip "Light mode" "light mode") by reflexivity. reflexivity.
Defined.

(** ** Report compilation *)

Section ReportFacts.

Variable dateNow : nat -> Z.
Variable mathRandom : nat -> Q.

Lemma reportView_updateReportProgress (percent : Z) (st : App) :
  reportView (updateReportProgress percent st) = reportView st.
Proof.
  unfold updateReportProgress, reportView.
  destruct (reportProgress st) eqn:E; cbn; rewrite ?E; reflexivity.
Qed.

Lemma arrayFromAux_view {A} (f : nat -> App -> A * App) :
  (forall i st, reportView (snd (f i st)) = reportView st) ->
  forall n i st, reportView (snd (arrayFromAux f n i st)) = reportView st.
Proof.
  intros Hf n. induction n as [|n IH]; intros i st; [reflexivity|].
  simpl. pose proof (Hf i st) as H1. destruct (f i st) as [x st1].
  pose proof (IH (S i) st1) as H2.
  destruct (arrayFromAux f n (S i) st1) as [l st2].
  simpl in *. congruence.
Qed.

Lemma mapAux_view {A B} (f : A -> nat -> App -> B * App) :
  (forall x i st, reportView (snd (f x i st)) = reportView st) ->
  forall l i st, reportView (snd (mapAux f l i st)) = reportView st.
Proof.
  intros Hf l. induction l as [|x l IH]; intros i st; [reflexivity|].
  simpl. pose proof (Hf x i st) as H1. destruct (f x i st) as [y st1].
  pose proof (IH (S i) st1) as H2.
  destruct (mapAux f l (S i) st1) as [r st2].
  simpl in *. congruence.
Qed.

Lemma reportView_drawBelow (n : Z) (st : App) :
  reportView (snd (drawBelow mathRandom n st)) = reportView st.
Proof. reflexivity. Qed.

Lemma reportView_generateMockAnalytics (st : App) :
  reportView (snd (generateMockAnalytics mathRandom st)) = reportView st
  /\ topModels (fst (generateMockAnalytics mathRandom st)) <> [].
Proof.
  unfold generateMockAnalytics, arrayFrom.
  cbn [random drawBelow].
  match goal with
  | |- context [arrayFromAux ?f 4 0%nat ?s] =>
      pose proof (arrayFromAux_view f (fun _ => reportView_drawBelow 100)
                    4 0 s)%nat as Hq;
      destruct (arrayFromAux f 4 0%nat s) as [q st1]
  end.
  match goal with
  | |- context [arrayFromAux ?f 12 0%nat ?s] =>
      pose proof (arrayFromAux_view f (fun _ => reportView_drawBelow 80)
                    12 0 s)%nat as Hm;
      destruct (arrayFromAux f 12 0%nat s) as [m st2]
  end.
  cbn in *. split; [|discriminate].
  transitivity (reportView st2); [reflexivity|].
  rewrite Hm, Hq. reflexivity.
Qed.

Lemma reportView_generateMockInventory (st : App) :
  reportView (snd (generateMockInventory dateNow mathRandom st))
  = reportView st.
Proof.
  unfold generateMockInventory, arrayFrom. apply arrayFromAux_view.
  intros i s. reflexivity.
Qed.

Lemma reportView_generateMockCustomers (st : App) :
  reportView (snd (generateMockCustomers dateNow mathRandom st))
  = reportView st.
Proof.
  unfold generateMockCustomers, arrayFrom. apply arrayFromAux_view.
  intros i s. reflexivity.
Qed.

Lemma reportView_fetchAnalyticsData (rate : option Q) (st : App) :
  reportView (snd (fetchAnalyticsData mathRandom rate st)) = reportView st
  /\ topModels (fst (fetchAnalyticsData mathRandom rate st)) <> [].
Proof.
  unfold fetchAnalyticsData. destruct rate as [btcPrice|].
  - split; [reflexivity | discriminate].
  - match goal with
    | |- context [generateMockAnalytics _ ?s] =>
        destruct (reportView_generateMockAnalytics s) as [Hv Ht]
    end.
    split; [rewrite Hv; reflexivity | exact Ht].
Qed.

Lemma reportView_fetchInventoryData (posts : option (list Z)) (st : App) :
  reportView (snd (fetchInventoryData dateNow mathRandom posts st))
  = reportView st.
Proof.
  unfold fetchInventoryData. destruct posts as [ids|].
  - rewrite mapAux_view; [reflexivity|]. intros x i s. reflexivity.
  - rewrite reportView_generateMockInventory. reflexivity.
Qed.

Lemma reportView_fetchCustomersData (users : option (list User)) (st : App) :
  reportView (snd (fetchCustomersData dateNow mathRandom users st))
  = reportView st.
Proof.
  unfold fetchCustomersData. destruct users as [results|].
  - rewrite mapAux_view; [reflexivity|]. intros x i s. reflexivity.
  - rewrite reportView_generateMockCustomers. reflexivity.
Qed.

Lemma stageSpec_rebase c ok (st st0 : App) :
  stageSpec c ok st -> reportView st = reportView st0 -> stageSpec c ok st0.
Proof.
  unfold stageSpec. destruct c as [[pdf st']|[pdf st']];
    intros [Hok Hv] H0; split; congruence.
Qed.

Lemma stageSpec_andThen c f ok1 ok2 (st : App) :
  stageSpec c ok1 st ->
  (forall pdf st', reportView st' = reportView st ->
                   stageSpec (f pdf st') ok2 st) ->
  stageSpec (andThen c f) (ok1 && ok2) st.
Proof.
  unfold andThen. destruct c as [[pdf st']|[pdf st']]; intros [Hok Hv] Hf.
  - rewrite Hok. simpl. now apply Hf.
  - rewrite Hok. simpl. split; [reflexivity | exact Hv].
Qed.

Lemma compileSpec_andThen c f ok1 ok2 (st : App) :
  stageSpec c ok1 st ->
  (forall pdf st', reportView st' = reportView st ->
                   compileSpec (f pdf st') ok2 st) ->
  compileSpec (andThen c f) (ok1 && ok2) st.
Proof.
  unfold andThen. destruct c as [[pdf st']|[pdf st']]; intros [Hok Hv] Hf.
  - rewrite Hok. simpl. now apply Hf.
  - rewrite Hok. simpl. split; [reflexivity | exact Hv].
Qed.

Lemma stageSpec_addCoverPage env pdf (st : App) :
  stageSpec (addCoverPage dateNow env pdf st) (stageDraws env CoverStage) st.
Proof.
  unfold addCoverPage, stageSpec.
  destruct (stageDraws env CoverStage); cbn; auto.
Qed.

Lemma stageSpec_addAnalyticsPage env data pdf (st : App) :
  topModels data <> [] ->
  stageSpec (addAnalyticsPage env data pdf st)
    (stageDraws env AnalyticsStage) st.
Proof.
  intro Hdata. unfold addAnalyticsPage, stageSpec.
  destruct (stageDraws env AnalyticsStage); [|auto].
  destruct (topModels data); [congruence | auto].
Qed.

Lemma stageSpec_addCustomersPage env customers pdf (st : App) :
  stageSpec (addCustomersPage env customers pdf st)
    (stageDraws env CustomersStage) st.
Proof.
  unfold addCustomersPage, stageSpec.
  destruct (stageDraws env CustomersStage); auto.
Qed.

Lemma stageSpec_addInventoryPage env inventory pdf (st : App) :
  stageSpec (addInventoryPage env inventory pdf st)
    (stageDraws env InventoryStage) st.
Proof.
  unfold addInventoryPage, stageSpec.
  destruct (stageDraws env InventoryStage); auto.
Qed.

Lemma stageSpec_addInsightsPage env pdf (st : App) :
  stageSpec (addInsightsPage env pdf st)
    (stageDraws env InsightsStage && isSome (businessInsights st)) st.
Proof.
  unfold addInsightsPage, stageSpec.
  destruct (stageDraws env InsightsStage); [|auto].
  destruct (businessInsights st); auto.
Qed.

Lemma businessInsights_of_view (st st' : App) :
  reportView st' = reportView st -> businessInsights st' = businessInsights st.
Proof. unfold reportView. congruence. Qed.

(** The save, and what follows it. *)
Lemma compileSpec_savePdf env pdf (st st0 : App) :
  reportView st = reportView st0 ->
  compileSpec (savePdf dateNow env pdf st) (stageDraws env SaveStage) st0.
Proof.
  intro Hv. unfold savePdf, compileSpec, readClock.
  destruct (stageDraws env SaveStage); cbn.
  - unfold reportView in Hv.
    assert (Hd : downloads st = downloads st0) by congruence.
    assert (Hn : notifications st = notifications st0) by congruence.
    assert (Hp : tl (reportProgress st) = tl (reportProgress st0))
      by congruence.
    rewrite <- Hd, <- Hn, <- Hp.
    split; [reflexivity|]. split; [eexists; reflexivity|]. split; reflexivity.
  - split; [reflexivity | exact Hv].
Qed.

Lemma compileSpec_finish c ok (st0 : App) :
  compileSpec c ok st0 ->
  compileSpec
    (andThen c
       (fun pdf st =>
          let st := updateReportProgress 100 st in
          Normal (pdf, set_timers (timers st ++ [ReportDoneTimer]) st)))
    ok st0.
Proof.
  unfold andThen, compileSpec. destruct c as [[pdf st]|[pdf st]]; [|auto].
  intros (Hok & Hd & Hn & Hp). unfold updateReportProgress.
  destruct (reportProgress st) eqn:E; cbn; rewrite ?E; auto.
Qed.

(** The [try] block completes exactly when every stage outside the
    capture of the charts succeeds. *)
Lemma compileReport_spec env (st : App) :
  compileSpec (compileReport dateNow mathRandom env st)
    (stagesSucceed env st) st.
Proof.
  unfold compileReport, stagesSucceed.
  destruct (jspdfLoaded env); [|split; reflexivity].
  destruct (reportView_fetchAnalyticsData (cryptoRate env) st)
    as [V1 Hdata].
  destruct (fetchAnalyticsData mathRandom (cryptoRate env) st) as [a st1].
  pose proof (reportView_fetchCustomersData (userResults env) st1) as V2.
  destruct (fetchCustomersData dateNow mathRandom (userResults env) st1)
    as [c st2].
  pose proof (reportView_fetchInventoryData (postIds env) st2) as V3.
  destruct (fetchInventoryData dateNow mathRandom (postIds env) st2)
    as [i st3].
  cbn [fst snd] in *.
  assert (V : reportView st3 = reportView st) by congruence.
  rewrite <- (businessInsights_of_view _ _ V).
  cut (compileSpec
         (andThen
            (andThen
               (andThen
                  (andThen
                     (andThen
                        (andThen
                           (addCoverPage dateNow env newPdf
                              (updateReportProgress 20 st3))
                           (fun pdf st =>
                              addAnalyticsPage env a (addPage pdf)
                                (updateReportProgress 30 st)))
                        (fun pdf st =>
                           addCustomersPage env c (addPage pdf)
                             (updateReportProgress 50 st)))
                     (fun pdf st =>
                        addInventoryPage env i (addPage pdf)
                          (updateReportProgress 70 st)))
                  (fun pdf st =>
                     addInsightsPage env (addPage pdf)
                       (updateReportProgress 85 st)))
               (fun pdf st =>
                  savePdf dateNow env pdf (updateReportProgress 95 st)))
            (fun pdf st =>
               let st := updateReportProgress 100 st in
               Normal (pdf, set_timers (timers st ++ [ReportDoneTimer]) st)))
         (stageDraws env CoverStage && stageDraws env AnalyticsStage
          && stageDraws env CustomersStage && stageDraws env InventoryStage
          && (stageDraws env InsightsStage && isSome (businessInsights st3))
          && stageDraws env SaveStage) st3).
  - intro H.
    assert (Hc : forall x ok ok', compileSpec x ok st3 -> ok = ok' ->
                                  compileSpec x ok' st)
      by (intros x ok ok' Hx <-; unfold compileSpec in *;
          destruct x as [[p s']|[p s']]; unfold reportView in V; intuition
            (try congruence);
          match goal with
          | H : exists _, _ |- _ =>
              destruct H as [stamp Hs]; exists stamp; congruence
          end).
    eapply Hc; [exact H|].
    destruct (stageDraws env CoverStage), (stageDraws env AnalyticsStage),
      (stageDraws env CustomersStage), (stageDraws env InventoryStage),
      (stageDraws env InsightsStage), (isSome (businessInsights st3)),
      (stageDraws env SaveStage); reflexivity.
  - apply compileSpec_finish.
    apply compileSpec_andThen; [repeat apply stageSpec_andThen|].
    + eapply stageSpec_rebase; [apply stageSpec_addCoverPage|].
      apply reportView_updateReportProgress.
    + intros pdf st' Hv.
      eapply stageSpec_rebase;
        [apply stageSpec_addAnalyticsPage; exact Hdata|].
      rewrite reportView_updateReportProgress. exact Hv.
    + intros pdf st' Hv.
      eapply stageSpec_rebase; [apply stageSpec_addCustomersPage|].
      rewrite reportView_updateReportProgress. exact Hv.
    + intros pdf st' Hv.
      eapply stageSpec_rebase; [apply stageSpec_addInventoryPage|].
      rewrite reportView_updateReportProgress. exact Hv.
    + intros pdf st' Hv.
      assert (Hv' : reportView (updateReportProgress 85 st') = reportView st3)
        by (rewrite reportView_updateReportProgress; exact Hv).
      rewrite <- (businessInsights_of_view _ _ Hv').
      eapply stageSpec_rebase; [apply stageSpec_addInsightsPage | exact Hv'].
    + intros pdf st' Hv. apply compileSpec_savePdf.
      rewrite reportView_updateReportProgress. exact Hv.
Qed.

End ReportFacts.

(** C7, as stated, fails for the capture of a chart: that failure is
    caught inside [addAnalyticsPage], the compilation goes on without the
    image, the document is downloaded and no error is notified. *)
Lemma failed_chart_capture_still_emits_report :
  ~ (forall (env : ReportEnv) (st : App),
       chartCaptureFails env st ->
       let st' := generateAdvancedPDFReport_settled clockTick draws env st in
       pdfDownloads st' = pdfDownloads st
       /\ countNotifications error st' = S (countNotifications error st)).
Proof.
  intro H.
  assert (Hfails : chartCaptureFails (captureFails "salesChart")
                     (analyticsPage clockTick)).
  { exists "salesChart".
    split; [left; reflexivity | split; vm_compute; reflexivity]. }
  destruct (H _ _ Hfails) as [Hd _].
  vm_compute in Hd. discriminate Hd.
Qed.

(** C7 (amended). A compilation followed to its end removes the progress
    panel it showed and adds exactly one entry on top of the feed. When the
    document library is missing, the drawing of a stage or the save fails,
    or the insights are not set, nothing is downloaded and the entry is the
    error notification; otherwise, whether the captures of the charts
    succeed or not, exactly one document is downloaded and the entry is the
    success notification. This holds from every state, so also for a
    compilation that follows a failed one. *)
Theorem report_compilation_outcome :
  forall (dateNow : nat -> Z) (mathRandom : nat -> Q) (env : ReportEnv)
         (st : App),
    let st' := generateAdvancedPDFReport_settled dateNow mathRandom env st in
    reportProgress st' = tl (reportProgress st ++ [0])
    /\ if stagesSucceed env st then
         (exists stamp pages,
            downloads st' = downloads st ++ [PdfReport stamp pages])
         /\ feedContent st' = successNotice :: feedContent st
       else
         downloads st' = downloads st
         /\ feedContent st' = failureNotice :: feedContent st.
Proof.
  intros dn mr env st.
  unfold generateAdvancedPDFReport_settled, generateAdvancedPDFReport.
  pose proof (compileReport_spec dn mr env (showReportProgress st)) as H.
  change (stagesSucceed env (showReportProgress st))
    with (stagesSucceed env st) in H.
  destruct (compileReport dn mr env (showReportProgress st))
    as [[pdf s1]|[pdf s1]]; unfold compileSpec in H; cbn [isNormal].
  - destruct H as (Hok & [stamp Hd] & Hn & Hp). rewrite Hok.
    unfold generateAdvancedPDFReport_timer.
    destruct (addNotification_frame dn (fst successNotice) (snd successNotice)
                (hideReportProgress s1)) as [Fd Fp].
    cbn [fst snd successNotice] in Fd, Fp.
    split; [rewrite Fp; cbn; exact Hp|]. split.
    + exists stamp, (pagesOf pdf). rewrite Fd. cbn. exact Hd.
    + rewrite feedContent_addNotification. unfold feedContent; cbn.
      rewrite Hn. reflexivity.
  - destruct H as (Hok & Hv). rewrite Hok.
    destruct (addNotification_frame dn (fst failureNotice) (snd failureNotice)
                (hideReportProgress s1)) as [Fd Fp].
    cbn [fst snd failureNotice] in Fd, Fp.
    unfold reportView in Hv.
    assert (Hd : downloads s1 = downloads st) by (cbn in Hv; congruence).
    assert (Hn : notifications s1 = notifications st)
      by (cbn in Hv; congruence).
    assert (Hp : tl (reportProgress s1) = tl (reportProgress st ++ [0]))
      by (cbn in Hv; congruence).
    split; [rewrite Fp; cbn; exact Hp|]. split.
    + rewrite Fd. cbn. exact Hd.
    + rewrite feedContent_addNotification. unfold feedContent; cbn.
      rewrite Hn. reflexivity.
Qed.

(** The scenario of the specification: a compilation whose customers
    stage fails downloads nothing and notifies one error; the compilation
    that follows it succeeds, downloads one document and notifies one
    success. *)
Example failed_then_successful_compilation :
  let failed :=
    generateAdvancedPDFReport_settled clockTick draws
      (stageFails CustomersStage) (analyticsPage clockTick) in
  let retried :=
    generateAdvancedPDFReport_settled clockTick draws goodEnv failed in
  pdfDownloads failed = 0%nat
  /\ countNotifications error failed = 1%nat
  /\ reportProgress failed = []
  /\ pdfDownloads retried = 1%nat
  /\ countNotifications success retried = 1%nat
  /\ countNotifications error retried = 1%nat
  /\ reportProgress retried = [].
Proof. vm_compute. repeat split. Qed.

(** ** Mock collections *)

Section MockFacts.

Variable dateNow : nat -> Z.
Variable mathRandom : nat -> Q.

Lemma arrayFromAux_map {A B} (f : nat -> App -> A * App) (g : A -> B)
    (h : nat -> B) :
  (forall i st, g (fst (f i st)) = h i) ->
  forall n i st, map g (fst (arrayFromAux f n i st)) = map h (seq i n).
Proof.
  intros Hf n. induction n as [|n IH]; intros i st; [reflexivity|].
  simpl. pose proof (Hf i st) as H1. destruct (f i st) as [x st1].
  pose proof (IH (S i) st1) as H2.
  destruct (arrayFromAux f n (S i) st1) as [l st2].
  simpl in *. congruence.
Qed.

Lemma arrayFromAux_length {A} (f : nat -> App -> A * App) n i st :
  List.length (fst (arrayFromAux f n i st)) = n.
Proof.
  revert i st. induction n as [|n IH]; intros i st; [reflexivity|].
  simpl. destruct (f i st) as [x st1]. pose proof (IH (S i) st1) as H.
  destruct (arrayFromAux f n (S i) st1) as [l st2]. simpl in *. congruence.
Qed.

Lemma mapAux_map {A B C} (f : A -> nat -> App -> B * App) (g : B -> C)
    (h : A -> nat -> C) :
  (forall x i st, g (fst (f x i st)) = h x i) ->
  forall l i st,
    map g (fst (mapAux f l i st))
    = map (fun p => h (fst p) (snd p)) (combine l (seq i (List.length l))).
Proof.
  intros Hf l. induction l as [|x l IH]; intros i st; [reflexivity|].
  simpl. pose proof (Hf x i st) as H1. destruct (f x i st) as [y st1].
  pose proof (IH (S i) st1) as H2.
  destruct (mapAux f l (S i) st1) as [r st2].
  simpl in *. congruence.
Qed.

Lemma generateMockInventory_fixed (st : App) :
  map inventoryFixed (fst (generateMockInventory dateNow mathRandom st))
  = map (fun i =>
           (Z.of_nat i + 1,
            ("Model " ++ Js.fromCharCode (65 + i mod 26)
             ++ Js.numToString (Z.of_nat i + 1))%string,
            Js.at_ brands (i mod 5))) (seq 0 20).
Proof.
  unfold generateMockInventory, arrayFrom. apply arrayFromAux_map.
  intros i s. reflexivity.
Qed.

Lemma generateMockCustomers_fixed (st : App) :
  map customerFixed (fst (generateMockCustomers dateNow mathRandom st))
  = map (fun i =>
           (Z.of_nat i + 1,
            (Js.at_ names (i mod 5) ++ " "
             ++ Js.numToString (Z.of_nat i + 1))%string,
            ("customer" ++ Js.numToString (Z.of_nat i + 1)
             ++ "@example.com")%string,
            Js.at_ locations (i mod 3),
            ("https://api.dicebear.com/7.x/avataaars/svg?seed="
             ++ Js.numToString (Z.of_nat i))%string)) (seq 0 15).
Proof.
  unfold generateMockCustomers, arrayFrom. apply arrayFromAux_map.
  intros i s. reflexivity.
Qed.

Lemma generateMockAnalytics_shape (st : App) :
  analyticsShape (fst (generateMockAnalytics mathRandom st))
  = (["Honda Activa"; "TVS Jupiter"; "Bajaj Pulsar"], 4%nat, 12%nat).
Proof.
  unfold generateMockAnalytics, arrayFrom.
  cbn [random drawBelow].
  lazymatch goal with
  | |- context [arrayFromAux ?f 4 0%nat ?s] =>
      pose proof (arrayFromAux_length f 4 0%nat s) as Hq;
      destruct (arrayFromAux f 4 0%nat s) as [q st1]
  end.
  lazymatch goal with
  | |- context [arrayFromAux ?f 12 0%nat ?s] =>
      pose proof (arrayFromAux_length f 12 0%nat s) as Hm;
      destruct (arrayFromAux f 12 0%nat s) as [m st2]
  end.
  cbn [fst snd] in *. unfold analyticsShape.
  cbn [fst topModels quarterly monthly map tm_name]. now rewrite Hq, Hm.
Qed.

Lemma fetchInventoryData_fixed (ids : list Z) (st : App) :
  map inventoryFixed
    (fst (fetchInventoryData dateNow mathRandom (Some ids) st))
  = map (fun p =>
           (fst p,
            ("Model " ++ Js.fromCharCode (65 + snd p mod 26)
             ++ Js.numToString (fst p))%string,
            Js.at_ brands (snd p mod 5)))
      (combine ids (seq 0 (List.length ids))).
Proof.
  unfold fetchInventoryData.
  apply (mapAux_map _ inventoryFixed
           (fun post index =>
              (post,
               ("Model " ++ Js.fromCharCode (65 + index mod 26)
                ++ Js.numToString post)%string,
               Js.at_ brands (index mod 5)))).
  intros x i s. reflexivity.
Qed.

Lemma fetchCustomersData_ids (users : list User) (st : App) :
  map c_id (fst (fetchCustomersData dateNow mathRandom (Some users) st))
  = map (fun i => Z.of_nat i + 1) (seq 0 (List.length users)).
Proof.
  unfold fetchCustomersData.
  rewrite (mapAux_map _ c_id (fun _ index => Z.of_nat index + 1));
    [|intros x i s; reflexivity].
  generalize 0%nat. induction users as [|u users IH]; intro i;
    [reflexivity|].
  cbn. now rewrite IH.
Qed.

Lemma fetchAnalyticsData_shape (btcPrice : Q) (st : App) :
  analyticsShape (fst (fetchAnalyticsData mathRandom (Some btcPrice) st))
  = (["Honda Activa"; "TVS Jupiter"; "Bajaj Pulsar"], 4%nat, 12%nat).
Proof.
  unfold fetchAnalyticsData, analyticsShape.
  cbn [fst topModels quarterly monthly map tm_name].
  now rewrite !length_map.
Qed.

End MockFacts.

(** What two invocations that receive the same readings have in common. *)
Section ReadingsFacts.

Variables dateNow dateNow' : nat -> Z.
Variables mathRandom mathRandom' : nat -> Q.

Let same := sameReadings dateNow dateNow' mathRandom mathRandom'.

Lemma same_random (st st' : App) :
  same st st' ->
  fst (random mathRandom st) = fst (random mathRandom' st')
  /\ same (snd (random mathRandom st)) (snd (random mathRandom' st')).
Proof.
  intros [Hr Hc]. unfold random. cbn [fst snd]. split.
  - symmetry. exact (Hr 0%nat).
  - split; intro k; cbn [randomReads clockReads set_randomReads].
    + rewrite !Nat.add_succ_r. exact (Hr (S k)).
    + exact (Hc k).
Qed.

Lemma same_drawBelow (n : Z) (st st' : App) :
  same st st' ->
  fst (drawBelow mathRandom n st) = fst (drawBelow mathRandom' n st')
  /\ same (snd (drawBelow mathRandom n st))
          (snd (drawBelow mathRandom' n st')).
Proof.
  intro H. destruct (same_random st st' H) as [E H1]. unfold drawBelow.
  destruct (random mathRandom st) as [r s], (random mathRandom' st')
    as [r' s'].
  cbn [fst snd] in *. now subst r'.
Qed.

Lemma same_readClock (st st' : App) :
  same st st' ->
  fst (readClock dateNow st) = fst (readClock dateNow' st')
  /\ same (snd (readClock dateNow st)) (snd (readClock dateNow' st')).
Proof.
  intros [Hr Hc]. unfold readClock. cbn [fst snd]. split.
  - symmetry. exact (Hc 0%nat).
  - split; intro k; cbn [randomReads clockReads set_clockReads].
    + exact (Hr k).
    + rewrite !Nat.add_succ_r. exact (Hc (S k)).
Qed.

Lemma arrayFromAux_same {A} (f f' : nat -> App -> A * App) :
  (forall i st st', same st st' ->
     fst (f i st) = fst (f' i st')
     /\ same (snd (f i st)) (snd (f' i st'))) ->
  forall n i st st', same st st' ->
    fst (arrayFromAux f n i st) = fst (arrayFromAux f' n i st')
    /\ same (snd (arrayFromAux f n i st)) (snd (arrayFromAux f' n i st')).
Proof.
  intros Hf n. induction n as [|n IH]; intros i st st' Hs; [now split|].
  simpl. destruct (Hf i st st' Hs) as [H1 H2].
  destruct (f i st) as [x st1], (f' i st') as [x' st1']. simpl in H1, H2.
  destruct (IH (S i) st1 st1' H2) as [H3 H4].
  destruct (arrayFromAux f n (S i) st1) as [l st2],
           (arrayFromAux f' n (S i) st1') as [l' st2'].
  simpl in *. split; [congruence | exact H4].
Qed.

(** One reading made on both sides. *)
Ltac same_step H :=
  let E := fresh "E" in
  let H' := fresh "H" in
  lazymatch goal with
  | |- context [drawBelow mathRandom ?n ?s] =>
      lazymatch goal with
      | |- context [drawBelow mathRandom' n ?s'] =>
          destruct (same_drawBelow n s s' H) as [E H'];
          destruct (drawBelow mathRandom n s) as [? ?],
                   (drawBelow mathRandom' n s') as [? ?]
      end
  | |- context [random mathRandom ?s] =>
      lazymatch goal with
      | |- context [random mathRandom' ?s'] =>
          destruct (same_random s s' H) as [E H'];
          destruct (random mathRandom s) as [? ?],
                   (random mathRandom' s') as [? ?]
      end
  | |- context [readClock dateNow ?s] =>
      lazymatch goal with
      | |- context [readClock dateNow' ?s'] =>
          destruct (same_readClock s s' H) as [E H'];
          destruct (readClock dateNow s) as [? ?],
                   (readClock dateNow' s') as [? ?]
      end
  end;
  cbn [fst snd] in E, H'; subst; clear H.

Lemma generateMockInventory_same (st st' : App) :
  same st st' ->
  fst (generateMockInventory dateNow mathRandom st)
  = fst (generateMockInventory dateNow' mathRandom' st').
Proof.
  intro Hs. unfold generateMockInventory, arrayFrom.
  apply arrayFromAux_same; [|exact Hs].
  clear st st' Hs. intros i st st' H.
  same_step H. same_step H0. same_step H. same_step H0.
  cbn [fst snd]. split; [reflexivity | assumption].
Qed.

Lemma generateMockCustomers_same (st st' : App) :
  same st st' ->
  fst (generateMockCustomers dateNow mathRandom st)
  = fst (generateMockCustomers dateNow' mathRandom' st').
Proof.
  intro Hs. unfold generateMockCustomers, arrayFrom.
  apply arrayFromAux_same; [|exact Hs].
  clear st st' Hs. intros i st st' H.
  same_step H. same_step H0. same_step H. same_step H0. same_step H.
  same_step H0.
  cbn [fst snd]. split; [reflexivity | assumption].
Qed.

Lemma generateMockAnalytics_same (st st' : App) :
  same st st' ->
  fst (generateMockAnalytics mathRandom st)
  = fst (generateMockAnalytics mathRandom' st').
Proof.
  intro H. unfold generateMockAnalytics, arrayFrom.
  same_step H. same_step H0. same_step H.
  lazymatch goal with
  | |- context [arrayFromAux (fun _ => drawBelow mathRandom 100) 4 0%nat ?s] =>
      lazymatch goal with
      | |- context [arrayFromAux (fun _ => drawBelow mathRandom' 100) 4 0%nat
                      ?s'] =>
          destruct (arrayFromAux_same (fun _ => drawBelow mathRandom 100)
                      (fun _ => drawBelow mathRandom' 100)
                      (fun _ => same_drawBelow 100) 4 0%nat s s' H0)
            as [Eq Hq];
          destruct (arrayFromAux (fun _ => drawBelow mathRandom 100) 4 0%nat s)
            as [q s1],
            (arrayFromAux (fun _ => drawBelow mathRandom' 100) 4 0%nat s')
            as [q' s1']
      end
  end.
  cbn [fst snd] in Eq, Hq. subst q'.
  destruct (arrayFromAux_same (fun _ => drawBelow mathRandom 80)
              (fun _ => drawBelow mathRandom' 80)
              (fun _ => same_drawBelow 80) 12 0%nat s1 s1' Hq) as [Em Hm].
  destruct (arrayFromAux (fun _ => drawBelow mathRandom 80) 12 0%nat s1)
    as [m s2],
    (arrayFromAux (fun _ => drawBelow mathRandom' 80) 12 0%nat s1')
    as [m' s2'].
  cbn [fst snd] in Em, Hm. subst m'.
  same_step Hm. same_step H. same_step H1.
  reflexivity.
Qed.

Lemma mapAux_seq {A B} (f : A -> nat -> App -> B * App) (g : nat -> A)
    (n i : nat) (st : App) :
  mapAux f (map g (seq i n)) i st = arrayFromAux (fun j => f (g j) j) n i st.
Proof.
  revert i st. induction n as [|n IH]; intros i st; [reflexivity|].
  cbn [seq map mapAux arrayFromAux]. destruct (f (g i) i st) as [y st1].
  now rewrite IH.
Qed.

(** With the same readings, the mock inventory is item for item what the
    live mapping builds from the posts numbered 1 to 20. *)
Lemma generateMockInventory_live (st st' : App) :
  same st st' ->
  fst (generateMockInventory dateNow mathRandom st)
  = fst (fetchInventoryData dateNow' mathRandom' (Some twentyPosts) st').
Proof.
  intro Hs. unfold fetchInventoryData, twentyPosts.
  rewrite <- seq_shift, !map_map, mapAux_seq.
  unfold generateMockInventory, arrayFrom.
  apply arrayFromAux_same; [|exact Hs].
  clear st st' Hs. intros i st st' H.
  same_step H. same_step H0. same_step H. same_step H0.
  cbn [fst snd List.length brands]. rewrite Nat2Z.inj_succ. unfold Z.succ.
  split; [reflexivity | assumption].
Qed.

End ReadingsFacts.

(** C9, as stated, fails: each generator draws from [Math.random], and
    the invocation that follows another one in a session gets other draws
    and yields other data. *)
Lemma mock_collections_differ_between_invocations :
  fst (generateMockInventory clockTick draws samplePage)
  <> fst (generateMockInventory clockTick draws
            (snd (generateMockInventory clockTick draws samplePage)))
  /\ fst (generateMockCustomers clockTick draws samplePage)
     <> fst (generateMockCustomers clockTick draws
               (snd (generateMockCustomers clockTick draws samplePage)))
  /\ fst (generateMockAnalytics draws samplePage)
     <> fst (generateMockAnalytics draws
               (snd (generateMockAnalytics draws samplePage))).
Proof.
  split; [|split]; intro H.
  - apply (f_equal (map i_stock)) in H. vm_compute in H. discriminate H.
  - apply (f_equal (map c_value)) in H. vm_compute in H. discriminate H.
  - apply (f_equal customerAcquisition) in H. vm_compute in H. discriminate H.
Qed.

(** C9 (amended). When a source is unreachable the mock collection has
    the shape of the live one, and is not deterministic. Every invocation
    of [generateMockInventory] yields twenty items with the same ids,
    models and brands, those that [fetchInventoryData] builds from posts
    numbered 1 to 20; every invocation of [generateMockCustomers] yields
    fifteen customers with the same ids, names, e-mails, locations and
    avatars, the ids being those that [fetchCustomersData] gives to fifteen
    users; [generateMockAnalytics] yields the model names Honda Activa,
    TVS Jupiter and Bajaj Pulsar with four quarterly and twelve monthly
    figures, as [fetchAnalyticsData] does for every price. The other
    fields come from [Math.random] and the clock: two invocations, in any
    states and on any platforms, yield identical data when they receive the
    same draws and the same clock readings, and the mock inventory is then,
    item for item, what the live source yields for the twenty posts. *)
Theorem mock_collections_share_shape :
  forall (dateNow dateNow' : nat -> Z) (mathRandom mathRandom' : nat -> Q)
         (st st' : App),
    let inventory := fst (generateMockInventory dateNow mathRandom st) in
    let customers := fst (generateMockCustomers dateNow mathRandom st) in
    let analytics := fst (generateMockAnalytics mathRandom st) in
    (List.length inventory = 20%nat
     /\ map inventoryFixed inventory
        = map inventoryFixed
            (fst (generateMockInventory dateNow' mathRandom' st'))
     /\ map inventoryFixed inventory
        = map inventoryFixed
            (fst (fetchInventoryData dateNow' mathRandom' (Some twentyPosts)
                    st')))
    /\ (List.length customers = 15%nat
        /\ map customerFixed customers
           = map customerFixed
               (fst (generateMockCustomers dateNow' mathRandom' st'))
        /\ forall users : list User,
             List.length users = 15%nat ->
             map c_id customers
             = map c_id
                 (fst (fetchCustomersData dateNow' mathRandom' (Some users)
                         st')))
    /\ (analyticsShape analytics
        = (["Honda Activa"; "TVS Jupiter"; "Bajaj Pulsar"], 4%nat, 12%nat)
        /\ forall btcPrice : Q,
             analyticsShape analytics
             = analyticsShape
                 (fst (fetchAnalyticsData mathRandom' (Some btcPrice) st')))
    /\ (sameReadings dateNow dateNow' mathRandom mathRandom' st st' ->
        inventory = fst (generateMockInventory dateNow' mathRandom' st')
        /\ customers = fst (generateMockCustomers dateNow' mathRandom' st')
        /\ analytics = fst (generateMockAnalytics mathRandom' st')
        /\ inventory
           = fst (fetchInventoryData dateNow' mathRandom' (Some twentyPosts)
                    st')).
Proof.
  intros dn dn' mr mr' st st'. cbv zeta. split; [|split; [|split]].
  - split; [unfold generateMockInventory, arrayFrom;
            apply arrayFromAux_length|].
    split; [now rewrite !generateMockInventory_fixed|].
    rewrite generateMockInventory_fixed, fetchInventoryData_fixed.
    reflexivity.
  - split; [unfold generateMockCustomers, arrayFrom;
            apply arrayFromAux_length|].
    split; [now rewrite !generateMockCustomers_fixed|].
    intros users Hu. rewrite fetchCustomersData_ids, Hu.
    rewrite <- (map_map customerFixed (fun x => fst (fst (fst (fst x))))).
    rewrite generateMockCustomers_fixed, map_map. reflexivity.
  - rewrite generateMockAnalytics_shape. split; [reflexivity|].
    intro btcPrice. now rewrite fetchAnalyticsData_shape.
  - intro Hs. split; [|split; [|split]].
    + now apply generateMockInventory_same.
    + now apply generateMockCustomers_same.
    + now apply (generateMockAnalytics_same dn dn').
    + now apply generateMockInventory_live.
Qed.

Lemma mock_collections_share_shape_witness :
  fst (generateMockInventory clockTick draws samplePage)
  = fst (generateMockInventory clockTick draws
           (set_currentSection "inventory" samplePage))
  /\ fst (generateMockCustomers clockTick draws samplePage)
     = fst (generateMockCustomers clockTick draws
              (set_currentSection "inventory" samplePage))
  /\ fst (generateMockAnalytics draws samplePage)
     = fst (generateMockAnalytics draws
              (set_currentSection "inventory" samplePage))
  /\ fst (generateMockInventory clockTick draws samplePage)
     = fst (fetchInventoryData clockTick draws (Some twentyPosts)
              (set_currentSection "inventory" samplePage)).
Proof.
  apply (mock_collections_share_shape clockTick clockTick draws draws
           samplePage (set_currentSection "inventory" samplePage)).
  split; intro k; reflexivity.
Defined.

(** * Further properties *)

(** ** The dispatcher, turn by turn *)

Section DispatcherFacts.

Variable dateNow : nat -> Z.
Variable mathRandom : nat -> Q.

Lemma typing_removeFirstTyping (nodes : list ChatNode) :
  List.length (filter isTyping (removeFirstTyping nodes))
  = pred (List.length (filter isTyping nodes)).
Proof.
  induction nodes as [|n rest IH]; [reflexivity|].
  destruct n; simpl; auto.
Qed.

Lemma removeFirstTyping_none (nodes : list ChatNode) :
  filter isTyping nodes = [] -> removeFirstTyping nodes = nodes.
Proof.
  induction nodes as [|n rest IH]; [reflexivity|].
  destruct n; cbn; intro H; try discriminate; now rewrite IH.
Qed.

Lemma removeFirstTyping_app (nodes tail : list ChatNode) :
  filter isTyping tail = [] ->
  removeFirstTyping (nodes ++ tail) = removeFirstTyping nodes ++ tail.
Proof.
  intro Ht. induction nodes as [|n rest IH].
  - now apply removeFirstTyping_none.
  - destruct n; cbn; now rewrite ?IH.
Qed.

Lemma aiText_removeFirstTyping (nodes : list ChatNode) :
  flat_map aiText (removeFirstTyping nodes) = flat_map aiText nodes.
Proof.
  induction nodes as [|n rest IH]; [reflexivity|].
  destruct n; cbn; now rewrite ?IH.
Qed.

(** The cases of an outcome. *)
Ltac outcome_cases outcome :=
  let data := fresh "data" in
  let r := fresh "r" in
  destruct outcome as [|data|[|r|r ? ?]];
  [ | destruct (d_response data) as [r|];
      [destruct (Js.truthy r)|];
      destruct (d_suggestions data) as [[|? ?]|]
    | | destruct (Js.truthy r) | destruct (Js.truthy r) ].

(** What [processMessage_settle] does to a chat element: it removes the
    first typing indicator, and the next one when it hides twice, and
    appends the replies of the outcome, with the quick replies of the
    response if any. *)
Lemma chat_processMessage_settle (message : string) (outcome : RemoteOutcome)
    (st : App) nodes :
  chatMessages st = Some nodes ->
  exists tail,
    chatMessages (processMessage_settle dateNow message outcome st)
    = Some ((if hidesTwice outcome
             then removeFirstTyping (removeFirstTyping nodes)
             else removeFirstTyping nodes) ++ tail)
    /\ filter isTyping tail = []
    /\ filter isUserMessage tail = []
    /\ flat_map aiText tail = repliesOf message outcome
    /\ lastReplyOf tail = spokenOf message outcome true.
Proof.
  intro Hc.
  unfold processMessage_settle, processMessage_try, processMessage_catch,
    repliesOf, spokenOf, hidesTwice, hideTypingIndicator.
  unfold addAIMessage, addQuickReplies, speakResponse, readClock.
  outcome_cases outcome; cbn; repeat (rewrite ?Hc; cbn);
    rewrite ?(removeFirstTyping_app _ [AIMessage _ _ _]) by reflexivity;
    destruct (synthesis st) eqn:Hs; cbn; rewrite ?Hs; cbn;
    first [ exists []; rewrite app_nil_r; repeat split; reflexivity
          | eexists; (split; [rewrite <- ?app_assoc; cbn; reflexivity|]);
            repeat split; reflexivity ].
Qed.


Lemma frame_processMessage_settle (message : string) (outcome : RemoteOutcome)
    (st : App) :
  userId (processMessage_settle dateNow message outcome st) = userId st
  /\ requests (processMessage_settle dateNow message outcome st) = requests st
  /\ synthesis (processMessage_settle dateNow message outcome st)
     = synthesis st.
Proof.
  unfold processMessage_settle, processMessage_try, processMessage_catch,
    hideTypingIndicator, addAIMessage, addQuickReplies, speakResponse,
    readClock.
  outcome_cases outcome;
    destruct (chatMessages st) eqn:Hc, (synthesis st) eqn:Hs; cbn;
    repeat (rewrite ?Hc, ?Hs; cbn); auto.
Qed.


Lemma frame_processMessage_begin (message : string) (st : App) :
  synthesis (processMessage_begin dateNow mathRandom message st) = synthesis st
  /\ spoken (processMessage_begin dateNow mathRandom message st) = spoken st
  /\ exists user now,
       userId (processMessage_begin dateNow mathRandom message st) = Some user
       /\ requests (processMessage_begin dateNow mathRandom message st)
          = requests st ++ [ChatRequest message user now]
       /\ (forall known, userId st = Some known -> user = known).
Proof.
  unfold processMessage_begin, showTypingIndicator.
  destruct (chatMessages st) eqn:Hc, (userId st) eqn:Hu; simpl;
    rewrite ?Hu; simpl; (split; [reflexivity|]); (split; [reflexivity|]);
    eexists; eexists; (split; [first [exact Hu | reflexivity]|]);
    (split; [reflexivity|]); intros known Hk; congruence.
Qed.

Lemma dispatched_processMessage_begin (message : string) (st : App) :
  dispatched (processMessage_begin dateNow mathRandom message st)
  = dispatched st ++ [message].
Proof.
  destruct (frame_processMessage_begin message st)
    as (_ & _ & user & now & _ & Hr & _).
  unfold dispatched. rewrite Hr, flat_map_app. reflexivity.
Qed.

Lemma chat_none_processMessage (message : string) (outcome : RemoteOutcome)
    (st : App) :
  chatMessages st = None ->
  chatMessages (processMessage dateNow mathRandom message outcome st) = None.
Proof.
  intro Hc. unfold processMessage.
  pose proof (chat_processMessage_begin dateNow mathRandom message st) as Hb.
  rewrite Hc in Hb. simpl in Hb.
  set (st1 := processMessage_begin dateNow mathRandom message st) in *.
  unfold processMessage_settle, processMessage_try, processMessage_catch,
    hideTypingIndicator, addAIMessage, addQuickReplies, speakResponse.
  outcome_cases outcome;
    destruct (synthesis st1) eqn:Hs; cbn;
    repeat (rewrite ?Hb, ?Hs; cbn); auto.
Qed.

Lemma trimStart_allBlank (s : string) :
  allBlank s = true -> Js.trimStart s = EmptyString.
Proof.
  induction s as [|c s IH]; [reflexivity|]. simpl.
  destruct (Js.isBlank c); [exact IH | discriminate].
Qed.

Lemma allBlank_append (s t : string) :
  allBlank (s ++ t)%string = allBlank s && allBlank t.
Proof.
  induction s as [|c s IH]; [reflexivity|]. simpl.
  rewrite IH. apply andb_assoc.
Qed.

End DispatcherFacts.

(** X1. On a page with a chat element, a call of [processMessage] that
    has settled has appended no user entry, and the assistant entries it
    has appended are these. When the call is rejected or the body is
    [null]: the fallback. When the body is an object whose fields are a
    string [response], a string [intent], a number [confidence] and a list
    of strings [suggestions], each present or not: the response when it is
    not empty, and nothing otherwise. When the response is a non-empty
    string and the [try] block throws while it renders the body: the
    fallback alone if the intent is not a string, so that the entry of the
    response cannot be built; the response and then the fallback if the
    suggestions are not a list, so that the quick replies cannot be
    built. *)
Theorem turn_gets_the_replies_of_its_outcome :
  forall (dateNow : nat -> Z) (mathRandom : nat -> Q) (message : string)
         (outcome : RemoteOutcome) (st : App),
    chatMessages st <> None ->
    let st' := processMessage dateNow mathRandom message outcome st in
    countUser st' = countUser st
    /\ replyTexts st' = replyTexts st ++ repliesOf message outcome.
Proof.
  intros dn mr message outcome st Hc st'.
  destruct (chatMessages st) as [nodes|] eqn:E; [|congruence].
  pose proof (chat_processMessage_begin dn mr message st) as Hb.
  rewrite E in Hb. simpl in Hb.
  destruct (chat_processMessage_settle dn message outcome _ _ Hb)
    as (tail & Ht & _ & Hu & Hl & _).
  fold (processMessage dn mr message outcome st) in Ht. fold st' in Ht.
  unfold countUser, replyTexts, chatNodes. rewrite Ht, E. split.
  - rewrite filter_app, Hu, app_nil_r.
    destruct (hidesTwice outcome);
      rewrite !filter_removeFirstTyping, filter_app by reflexivity;
      cbn; now rewrite app_nil_r.
  - rewrite flat_map_app, Hl. f_equal.
    destruct (hidesTwice outcome);
      rewrite !aiText_removeFirstTyping, flat_map_app; cbn;
      now rewrite app_nil_r.
Qed.

Lemma turn_gets_the_replies_of_its_outcome_witness :
  let st' :=
    processMessage clockTick draws "any offers?"
      (Unusable (SuggestionsNotArray "Hi" None None)) samplePage in
  countUser st' = 0%nat /\ replyTexts st' = ["Hi"; genericResponse].
Proof.
  destruct (turn_gets_the_replies_of_its_outcome clockTick draws "any offers?"
              (Unusable (SuggestionsNotArray "Hi" None None)) samplePage)
    as [Hu Ha].
  - discriminate.
  - cbv zeta. rewrite Hu, Ha. split; reflexivity.
Defined.

(** X2. The typing indicators left by a call of [processMessage] that has
    settled. The chat holds as many of them as before the call when the
    call is rejected or the body is an object with well-typed fields, also
    when it has no [response] and the turn stays unanswered. It holds one
    fewer, if there was one, when the [try] block throws after it has
    hidden an indicator (the body is [null]; or the response is a
    non-empty string and the intent is not a string, or the suggestions
    are not a list): the [catch] block hides an indicator again, that of
    another call which has not settled. *)
Theorem typing_indicators_after_a_settled_call :
  forall (dateNow : nat -> Z) (mathRandom : nat -> Q) (message : string)
         (outcome : RemoteOutcome) (st : App),
    typingShown (processMessage dateNow mathRandom message outcome st)
    = if hidesTwice outcome then pred (typingShown st) else typingShown st.
Proof.
  intros dn mr message outcome st. unfold typingShown, chatNodes.
  destruct (chatMessages st) as [nodes|] eqn:E.
  - pose proof (chat_processMessage_begin dn mr message st) as Hb.
    rewrite E in Hb. simpl in Hb.
    destruct (chat_processMessage_settle dn message outcome _ _ Hb)
      as (tail & Ht & Hty & _).
    fold (processMessage dn mr message outcome st) in Ht. rewrite Ht.
    rewrite filter_app, Hty, app_nil_r.
    destruct (hidesTwice outcome);
      rewrite !typing_removeFirstTyping, filter_app, length_app; simpl; lia.
  - rewrite chat_none_processMessage by exact E.
    now destruct (hidesTwice outcome).
Qed.

(** X3. The session identity is created by the first dispatch and reused
    by the following ones: two consecutive dispatches send requests that
    carry the same user id, which is the one the session already had if it
    had one. *)
Theorem session_identity_is_created_once :
  forall (dateNow : nat -> Z) (mathRandom : nat -> Q)
         (first second : string) (outcome : RemoteOutcome) (st : App),
    exists user sent sent',
      requests
        (processMessage_begin dateNow mathRandom second
           (processMessage dateNow mathRandom first outcome st))
      = requests st
        ++ [ChatRequest first user sent; ChatRequest second user sent']
      /\ (forall known, userId st = Some known -> user = known).
Proof.
  intros dn mr first second outcome st.
  destruct (frame_processMessage_begin dn mr first st)
    as (_ & _ & user & sent & Hu & Hr & Hknown).
  destruct (frame_processMessage_settle dn first outcome
              (processMessage_begin dn mr first st)) as (Hu1 & Hr1 & _).
  fold (processMessage dn mr first outcome st) in Hu1, Hr1.
  destruct (frame_processMessage_begin dn mr second
              (processMessage dn mr first outcome st))
    as (_ & _ & user' & sent' & _ & Hr2 & Hknown').
  assert (Hsame : user' = user) by (apply Hknown'; congruence).
  exists user, sent, sent'. split; [|exact Hknown].
  rewrite Hr2, Hr1, Hr, Hsame, <- app_assoc. reflexivity.
Qed.



(** X5. A call of [sendQuickReply] removes every quick-reply group from
    the chat, appends the suggestion as a user entry and dispatches it as
    it is. This is the method alone: the buttons that
    [addQuickReplies] renders name it through [voiceBotApp], which the
    script does not define. *)
Theorem sendQuickReply_clears_and_dispatches :
  forall (dateNow : nat -> Z) (mathRandom : nat -> Q) (suggestion : string)
         (st : App),
    let st' := sendQuickReply_begin dateNow mathRandom suggestion st in
    quickRepliesShown st' = 0%nat
    /\ dispatched st' = dispatched st ++ [suggestion]
    /\ userTexts st'
       = userTexts st
         ++ match chatMessages st with Some _ => [suggestion] | None => [] end.
Proof.
  intros dn mr suggestion st st'. split; [apply sendQuickReply_clears|].
  unfold st', sendQuickReply_begin. split.
  - rewrite dispatched_processMessage_begin. f_equal.
    unfold dispatched, addUserMessage.
    destruct (chatMessages st) eqn:E; cbn; rewrite ?E; reflexivity.
  - unfold userTexts, chatNodes. rewrite chat_processMessage_begin.
    unfold addUserMessage.
    destruct (chatMessages st) as [nodes|] eqn:E; cbn;
      [|repeat (rewrite E; cbn); reflexivity].
    rewrite !flat_map_app. cbn. rewrite !app_nil_r. f_equal.
    clear E. induction nodes as [|n rest IH]; [reflexivity|].
    destruct n; cbn; rewrite ?IH; reflexivity.
Qed.

Lemma textInput_processMessage_begin (dateNow : nat -> Z)
    (mathRandom : nat -> Q) (message : string) (st : App) :
  textInput (processMessage_begin dateNow mathRandom message st)
  = textInput st.
Proof.
  unfold processMessage_begin, showTypingIndicator.
  destruct (chatMessages st) eqn:Hc, (userId st) eqn:Hu; simpl;
    rewrite ?Hu; reflexivity.
Qed.

Lemma userTexts_addUserMessage (dateNow : nat -> Z) (message : string)
    (type : InputType) (st : App) :
  userTexts (addUserMessage dateNow message type st)
  = userTexts st
    ++ match chatMessages st with Some _ => [message] | None => [] end.
Proof.
  unfold userTexts, chatNodes, addUserMessage.
  destruct (chatMessages st) as [nodes|] eqn:E; cbn; rewrite ?E.
  - now rewrite flat_map_app.
  - reflexivity.
Qed.

Lemma userTexts_processMessage_begin (dateNow : nat -> Z)
    (mathRandom : nat -> Q) (message : string) (st : App) :
  userTexts (processMessage_begin dateNow mathRandom message st)
  = userTexts st.
Proof.
  unfold userTexts, chatNodes. rewrite chat_processMessage_begin.
  destruct (chatMessages st) as [nodes|]; cbn; [|reflexivity].
  rewrite flat_map_app. cbn. apply app_nil_r.
Qed.

Lemma textInput_addUserMessage (dateNow : nat -> Z) (message : string)
    (type : InputType) (st : App) :
  textInput (addUserMessage dateNow message type st) = textInput st.
Proof. unfold addUserMessage. destruct (chatMessages st); reflexivity. Qed.

(** X6. Sending a text input that holds blanks only does nothing: no user
    entry, no request, the input is not even cleared. *)
Theorem blank_input_is_not_sent :
  forall (dateNow : nat -> Z) (mathRandom : nat -> Q)
         (outcome : RemoteOutcome) (st : App) (value : string),
    textInput st = Some value ->
    allBlank value = true ->
    sendTextMessage dateNow mathRandom outcome st = Normal st.
Proof.
  intros dn mr outcome st value Hv Hb. unfold sendTextMessage.
  rewrite Hv. unfold Js.trim. rewrite (trimStart_allBlank _ Hb). reflexivity.
Qed.

Lemma blank_input_is_not_sent_witness :
  sendTextMessage clockTick draws Rejected
    (set_textInput (Some "   ") samplePage)
  = Normal (set_textInput (Some "   ") samplePage).
Proof.
  apply (blank_input_is_not_sent clockTick draws Rejected
           (set_textInput (Some "   ") samplePage) "   "); reflexivity.
Defined.

(** X7. Sending a text input whose trimmed value is not empty clears the
    input, appends the trimmed value as a typed user entry and dispatches
    the trimmed value, not the raw one. *)
Theorem typed_message_is_trimmed_and_dispatched :
  forall (dateNow : nat -> Z) (mathRandom : nat -> Q) (st : App)
         (value : string),
    textInput st = Some value ->
    Js.trim value <> EmptyString ->
    exists st',
      sendTextMessage_begin dateNow mathRandom st = Normal st'
      /\ textInput st' = Some EmptyString
      /\ dispatched st' = dispatched st ++ [Js.trim value]
      /\ userTexts st'
         = userTexts st
           ++ match chatMessages st with
              | Some _ => [Js.trim value]
              | None => []
              end.
Proof.
  intros dn mr st value Hv Hne. unfold sendTextMessage_begin. rewrite Hv.
  assert (Ht : Js.truthy (Js.trim value) = true).
  { unfold Js.truthy. apply negb_true_iff. now apply String.eqb_neq. }
  rewrite Ht. eexists. split; [reflexivity|]. split; [|split].
  - rewrite textInput_processMessage_begin, textInput_addUserMessage.
    reflexivity.
  - rewrite dispatched_processMessage_begin. f_equal.
    unfold dispatched, addUserMessage.
    destruct (chatMessages st) eqn:E; cbn; rewrite ?E; reflexivity.
  - rewrite userTexts_processMessage_begin, userTexts_addUserMessage.
    reflexivity.
Qed.

Lemma typed_message_is_trimmed_and_dispatched_witness :
  exists st',
    sendTextMessage_begin clockTick draws
      (set_textInput (Some "  book a ride  ") samplePage) = Normal st'
    /\ textInput st' = Some EmptyString
    /\ dispatched st' = ["book a ride"]
    /\ userTexts st' = ["book a ride"].
Proof.
  apply (typed_message_is_trimmed_and_dispatched clockTick draws
           (set_textInput (Some "  book a ride  ") samplePage)
           "  book a ride  "); [reflexivity | discriminate].
Defined.

(** ** Frames *)

(** The fields that [addSystemMessage] and [addNotification] leave as
    they are. *)
Section Frames.

Variable dateNow : nat -> Z.

Lemma isListening_addSystemMessage (message : string) (type : Severity) (st : App) :
  isListening (addSystemMessage dateNow message type st) = isListening st.
Proof. unfold addSystemMessage. destruct (chatMessages st); reflexivity. Qed.

Lemma recognition_addSystemMessage (message : string) (type : Severity) (st : App) :
  recognition (addSystemMessage dateNow message type st) = recognition st.
Proof. unfold addSystemMessage. destruct (chatMessages st); reflexivity. Qed.

Lemma currentSection_addSystemMessage (message : string) (type : Severity) (st : App) :
  currentSection (addSystemMessage dateNow message type st) = currentSection st.
Proof. unfold addSystemMessage. destruct (chatMessages st); reflexivity. Qed.

Lemma realTimeData_addSystemMessage (message : string) (type : Severity) (st : App) :
  realTimeData (addSystemMessage dateNow message type st) = realTimeData st.
Proof. unfold addSystemMessage. destruct (chatMessages st); reflexivity. Qed.

Lemma notifications_addSystemMessage (message : string) (type : Severity) (st : App) :
  notifications (addSystemMessage dateNow message type st) = notifications st.
Proof. unfold addSystemMessage. destruct (chatMessages st); reflexivity. Qed.

Lemma isDarkMode_addSystemMessage (message : string) (type : Severity) (st : App) :
  isDarkMode (addSystemMessage dateNow message type st) = isDarkMode st.
Proof. unfold addSystemMessage. destruct (chatMessages st); reflexivity. Qed.

Lemma businessInsights_addSystemMessage (message : string) (type : Severity) (st : App) :
  businessInsights (addSystemMessage dateNow message type st) = businessInsights st.
Proof. unfold addSystemMessage. destruct (chatMessages st); reflexivity. Qed.

Lemma requests_addSystemMessage (message : string) (type : Severity) (st : App) :
  requests (addSystemMessage dateNow message type st) = requests st.
Proof. unfold addSystemMessage. destruct (chatMessages st); reflexivity. Qed.

Lemma timers_addSystemMessage (message : string) (type : Severity) (st : App) :
  timers (addSystemMessage dateNow message type st) = timers st.
Proof. unfold addSystemMessage. destruct (chatMessages st); reflexivity. Qed.

Lemma downloads_addSystemMessage (message : string) (type : Severity) (st : App) :
  downloads (addSystemMessage dateNow message type st) = downloads st.
Proof. unfold addSystemMessage. destruct (chatMessages st); reflexivity. Qed.

Lemma randomReads_addSystemMessage (message : string) (type : Severity) (st : App) :
  randomReads (addSystemMessage dateNow message type st) = randomReads st.
Proof. unfold addSystemMessage. destruct (chatMessages st); reflexivity. Qed.

Lemma textInput_addSystemMessage (message : string) (type : Severity) (st : App) :
  textInput (addSystemMessage dateNow message type st) = textInput st.
Proof. unfold addSystemMessage. destruct (chatMessages st); reflexivity. Qed.

Lemma isListening_addNotification (message : string) (type : Severity) (st : App) :
  isListening (addNotification dateNow message type st) = isListening st.
Proof.
  unfold addNotification, addSystemMessage; cbn.
  destruct (chatMessages st); reflexivity.
Qed.

Lemma recognition_addNotification (message : string) (type : Severity) (st : App) :
  recognition (addNotification dateNow message type st) = recognition st.
Proof.
  unfold addNotification, addSystemMessage; cbn.
  destruct (chatMessages st); reflexivity.
Qed.

Lemma currentSection_addNotification (message : string) (type : Severity) (st : App) :
  currentSection (addNotification dateNow message type st) = currentSection st.
Proof.
  unfold addNotification, addSystemMessage; cbn.
  destruct (chatMessages st); reflexivity.
Qed.

Lemma realTimeData_addNotification (message : string) (type : Severity) (st : App) :
  realTimeData (addNotification dateNow message type st) = realTimeData st.
Proof.
  unfold addNotification, addSystemMessage; cbn.
  destruct (chatMessages st); reflexivity.
Qed.

Lemma businessInsights_addNotification (message : string) (type : Severity) (st : App) :
  businessInsights (addNotification dateNow message type st) = businessInsights st.
Proof.
  unfold addNotification, addSystemMessage; cbn.
  destruct (chatMessages st); reflexivity.
Qed.

Lemma requests_addNotification (message : string) (type : Severity) (st : App) :
  requests (addNotification dateNow message type st) = requests st.
Proof.
  unfold addNotification, addSystemMessage; cbn.
  destruct (chatMessages st); reflexivity.
Qed.

Lemma timers_addNotification (message : string) (type : Severity) (st : App) :
  timers (addNotification dateNow message type st) = timers st.
Proof.
  unfold addNotification, addSystemMessage; cbn.
  destruct (chatMessages st); reflexivity.
Qed.

Lemma randomReads_addNotification (message : string) (type : Severity) (st : App) :
  randomReads (addNotification dateNow message type st) = randomReads st.
Proof.
  unfold addNotification, addSystemMessage; cbn.
  destruct (chatMessages st); reflexivity.
Qed.

Lemma textInput_addNotification (message : string) (type : Severity) (st : App) :
  textInput (addNotification dateNow message type st) = textInput st.
Proof.
  unfold addNotification, addSystemMessage; cbn.
  destruct (chatMessages st); reflexivity.
Qed.

Lemma downloads_addNotification (message : string) (type : Severity)
    (st : App) :
  downloads (addNotification dateNow message type st) = downloads st.
Proof. now destruct (addNotification_frame dateNow message type st). Qed.

End Frames.

Create Rewrite HintDb frame.

#[local] Hint Rewrite
  isListening_addSystemMessage
  recognition_addSystemMessage
  currentSection_addSystemMessage
  realTimeData_addSystemMessage
  notifications_addSystemMessage
  isDarkMode_addSystemMessage
  businessInsights_addSystemMessage
  requests_addSystemMessage
  timers_addSystemMessage
  downloads_addSystemMessage
  randomReads_addSystemMessage
  textInput_addSystemMessage
  isListening_addNotification
  recognition_addNotification
  currentSection_addNotification
  realTimeData_addNotification
  businessInsights_addNotification
  requests_addNotification
  timers_addNotification
  randomReads_addNotification
  textInput_addNotification
  isDarkMode_addNotification : frame.

(** ** Sections, theme and reports *)

(** X8. Toggling the theme twice restores it, and each toggle posts the
    notice of the theme it switches to: the feed gains the notice of the
    other theme, then on top of it the notice of the original one. *)
Theorem toggling_twice_restores_the_theme :
  forall (dateNow : nat -> Z) (st : App),
    let st' := toggleTheme dateNow (toggleTheme dateNow st) in
    isDarkMode st' = isDarkMode st
    /\ feedContent st'
       = themeNotice (isDarkMode st) :: themeNotice (negb (isDarkMode st))
         :: feedContent st.
Proof.
  intros dn st st'. unfold st', toggleTheme. cbv zeta.
  repeat (rewrite ?feedContent_addNotification;
          change (feedContent (set_isDarkMode ?b ?x)) with (feedContent x)).
  repeat (rewrite ?isDarkMode_addNotification;
          cbn [isDarkMode set_isDarkMode]).
  rewrite negb_involutive. split; reflexivity.
Qed.

Lemma switchSection_fields (dateNow : nat -> Z) (sectionName : string)
    (st : App) :
  currentSection (switchSection dateNow sectionName st) = sectionName
  /\ requests (switchSection dateNow sectionName st)
     = requests st ++ sectionRequest sectionName
  /\ notifications (switchSection dateNow sectionName st) = notifications st
  /\ realTimeData (switchSection dateNow sectionName st) = realTimeData st.
Proof.
  revert dateNow sectionName st. intros dn name st.
  unfold switchSection, sectionRequest, loadAnalyticsSection_begin,
    loadCustomersSection_begin, loadInventorySection_begin. cbv zeta.
  destruct (negb (hasElement name st || hasElement (name ++ "Section") st)
            && hasElement "assistant" st);
    destruct (name =? "analytics")%string;
    [| destruct (name =? "customers")%string;
       [| destruct (name =? "inventory")%string]
     | | destruct (name =? "customers")%string;
       [| destruct (name =? "inventory")%string]];
    repeat (autorewrite with frame;
            cbn [currentSection requests notifications realTimeData
                 set_requests set_currentSection]);
    rewrite ?app_nil_r; repeat split; reflexivity.
Qed.

Lemma systemTexts_addSystemMessage (dateNow : nat -> Z) (message : string)
    (type : Severity) (st : App) :
  systemTexts (addSystemMessage dateNow message type st)
  = systemTexts st
    ++ match chatMessages st with Some _ => [message] | None => [] end.
Proof.
  unfold systemTexts, chatNodes, addSystemMessage.
  destruct (chatMessages st) as [nodes|] eqn:E; cbn; rewrite ?E;
    rewrite ?flat_map_app; reflexivity.
Qed.

Lemma chat_isSome_addSystemMessage (dateNow : nat -> Z) (message : string)
    (type : Severity) (st : App) :
  isSome (chatMessages (addSystemMessage dateNow message type st))
  = isSome (chatMessages st).
Proof.
  unfold addSystemMessage.
  destruct (chatMessages st) eqn:E; cbn; rewrite ?E; reflexivity.
Qed.

Lemma switchSection_systemTexts (dateNow : nat -> Z) (sectionName : string)
    (st : App) :
  systemTexts (switchSection dateNow sectionName st)
  = systemTexts st
    ++ match chatMessages st with
       | Some _ => sectionMessages sectionName st
       | None => []
       end.
Proof.
  unfold switchSection, sectionMessages, loadAnalyticsSection_begin,
    loadCustomersSection_begin, loadInventorySection_begin. cbv zeta.
  assert (Hadd : forall m t s,
            systemTexts (addSystemMessage dateNow m t s)
            = systemTexts s ++ (if isSome (chatMessages s) then [m] else []))
    by (intros; rewrite systemTexts_addSystemMessage;
        now destruct (chatMessages s)).
  assert (Hset : forall v s,
            systemTexts (set_currentSection v s) = systemTexts s
            /\ isSome (chatMessages (set_currentSection v s))
               = isSome (chatMessages s)) by (intros; split; reflexivity).
  assert (Hreq : forall v s,
            systemTexts (set_requests v s) = systemTexts s
            /\ isSome (chatMessages (set_requests v s))
               = isSome (chatMessages s)) by (intros; split; reflexivity).
  destruct (negb (hasElement sectionName st
                  || hasElement (sectionName ++ "Section") st)
            && hasElement "assistant" st);
    destruct (sectionName =? "analytics")%string;
    [| destruct (sectionName =? "customers")%string;
       [| destruct (sectionName =? "inventory")%string]
     | | destruct (sectionName =? "customers")%string;
       [| destruct (sectionName =? "inventory")%string]];
    repeat (rewrite ?Hadd, ?chat_isSome_addSystemMessage,
              ?(proj1 (Hset _ _)), ?(proj2 (Hset _ _)),
              ?(proj1 (Hreq _ _)), ?(proj2 (Hreq _ _)));
    destruct (chatMessages st); cbn [isSome app];
    rewrite <- ?app_assoc, ?app_nil_r; reflexivity.
Qed.

(** X9. Opening a section whose name can stand in the attribute selector
    of the navigation lookup (no double quote, no backslash, no control
    character) makes it the current one, starts the fetch of its data when
    it is the analytics, customers or inventory section and no fetch
    otherwise, and tells it in the chat only. When the call returns, on a
    page with a chat element, the chat has gained these system messages,
    in this order: the placeholder notice when the section has no element
    and the assistant section has one, the loading notice of a section
    with data, and the notice of the switch. The notification feed and the
    metrics are left as they were. *)
Theorem switching_section_starts_the_fetch_of_its_data :
  forall (dateNow : nat -> Z) (sectionName : string) (st : App),
    selectorSafe sectionName = true ->
    let st' := switchSection dateNow sectionName st in
    currentSection st' = sectionName
    /\ requests st' = requests st ++ sectionRequest sectionName
    /\ systemTexts st'
       = systemTexts st
         ++ match chatMessages st with
            | Some _ => sectionMessages sectionName st
            | None => []
            end
    /\ notifications st' = notifications st
    /\ realTimeData st' = realTimeData st.
Proof.
  intros dn name st _ st'.
  destruct (switchSection_fields dn name st) as (Hc & Hr & Hn & Hm).
  split; [exact Hc|]. split; [exact Hr|].
  split; [apply switchSection_systemTexts|]. split; assumption.
Qed.

Lemma switching_section_starts_the_fetch_of_its_data_witness :
  let st' := switchSection clockTick "analytics" samplePage in
  currentSection st' = "analytics"
  /\ requests st' = [CryptoRequest]
  /\ systemTexts st'
     = [ "📋 analytics section is under development. Showing AI Assistant instead.";
         "📊 Loading real-time analytics data...";
         "📄 Switched to analytics section" ].
Proof.
  destruct (switching_section_starts_the_fetch_of_its_data clockTick
              "analytics" samplePage) as (Hc & Hr & Hs & _);
    [reflexivity|].
  split; [exact Hc|]. split; [exact Hr | exact Hs].
Defined.

(** X10. [refreshAllData] posts one notice; in the analytics, customers
    and inventory sections it starts the fetch of the section and leaves the
    metrics alone, in every other section it starts no fetch and advances
    the metrics as one refresh tick does. *)
Theorem refresh_all_data_follows_the_current_section :
  forall (dateNow : nat -> Z) (mathRandom : nat -> Q) (st : App),
    let st' := refreshAllData dateNow mathRandom st in
    feedContent st' = refreshNotice :: feedContent st
    /\ requests st' = requests st ++ sectionRequest (currentSection st)
    /\ realTimeData st'
       = match sectionRequest (currentSection st) with
         | [] => realTimeData (updateRealTimeMetrics mathRandom st)
         | _ :: _ => realTimeData st
         end.
Proof.
  intros dn mr st st'.
  unfold st', refreshAllData, sectionRequest, loadAnalyticsSection_begin,
    loadCustomersSection_begin, loadInventorySection_begin. cbv zeta.
  autorewrite with frame.
  destruct (currentSection st =? "analytics")%string;
    [| destruct (currentSection st =? "customers")%string;
       [| destruct (currentSection st =? "inventory")%string]].
  4:{ rewrite !realTimeData_updateRealTimeMetrics. autorewrite with frame.
      unfold feedContent.
      change (notifications (updateRealTimeMetrics mr ?x))
        with (notifications x).
      change (requests (updateRealTimeMetrics mr ?x)) with (requests x).
      autorewrite with frame. rewrite addNotification_feed, app_nil_r.
      repeat split; reflexivity. }
  all: unfold feedContent;
    repeat (autorewrite with frame;
            cbn [requests notifications realTimeData set_requests]);
    rewrite addNotification_feed; repeat split; reflexivity.
Qed.

(** X11. The business report: the call posts the start notice and sets a
    timer; when the timer fires with the business insights set, exactly one
    report is downloaded and the done notice is posted on top; with the
    insights unset the callback throws, nothing is downloaded and no
    notice is added. *)
Theorem business_report_needs_the_insights :
  forall (dateNow : nat -> Z) (st : App),
    let started := generateBusinessReport dateNow st in
    feedContent started = reportStartNotice :: feedContent st
    /\ timers started = timers st ++ [BusinessReportTimer]
    /\ downloads started = downloads st
    /\ match businessInsights st with
       | Some _ =>
           exists st' stamp,
             generateBusinessReport_timer dateNow started = Normal st'
             /\ downloads st' = downloads st ++ [JsonReport stamp]
             /\ feedContent st'
                = reportDoneNotice :: reportStartNotice :: feedContent st
       | None =>
           exists st',
             generateBusinessReport_timer dateNow started = Thrown st'
             /\ downloads st' = downloads st
             /\ feedContent st' = reportStartNotice :: feedContent st
       end.
Proof.
  intros dn st started.
  assert (Hfeed : feedContent started = reportStartNotice :: feedContent st).
  { unfold started, generateBusinessReport. cbv zeta.
    change (feedContent (set_timers ?t ?x)) with (feedContent x).
    apply feedContent_addNotification. }
  assert (Hdown : downloads started = downloads st).
  { unfold started, generateBusinessReport. cbv zeta.
    cbn [downloads set_timers].
    now destruct (addNotification_frame dn (fst reportStartNotice)
                    (snd reportStartNotice) st). }
  assert (Hins : businessInsights started = businessInsights st).
  { unfold started, generateBusinessReport. cbv zeta.
    cbn [businessInsights set_timers]. now autorewrite with frame. }
  split; [exact Hfeed|]. split.
  { unfold started, generateBusinessReport. cbv zeta.
    cbn [timers set_timers]. now autorewrite with frame. }
  split; [exact Hdown|].
  unfold generateBusinessReport_timer, readClock. cbv zeta.
  change (businessInsights (set_clockReads ?a ?x)) with (businessInsights x).
  rewrite Hins.
  destruct (businessInsights st).
  - eexists; eexists. split; [reflexivity|]. split.
    + rewrite downloads_addNotification.
      cbn [downloads set_downloads set_clockReads]. now rewrite Hdown.
    + rewrite feedContent_addNotification. unfold feedContent in *.
      cbn [notifications set_downloads set_clockReads]. now rewrite Hfeed.
  - eexists. split; [reflexivity|]. split.
    + cbn [downloads set_clockReads]. exact Hdown.
    + change (feedContent (set_clockReads ?d ?x)) with (feedContent x).
      exact Hfeed.
Qed.

(** ** Voice capture as a state machine *)

Section CaptureFacts.

Variable dateNow : nat -> Z.
Variable mathRandom : nat -> Q.

Lemma sameCapture_refl (st : App) : sameCapture st st.
Proof. split; reflexivity. Qed.

Lemma sameCapture_trans (st st' st'' : App) :
  sameCapture st st' -> sameCapture st' st'' -> sameCapture st st''.
Proof. intros [H1 H2] [H3 H4]. split; congruence. Qed.

Lemma sameCapture_addSystemMessage message type (st : App) :
  sameCapture st (addSystemMessage dateNow message type st).
Proof. split; now autorewrite with frame. Qed.

Lemma sameCapture_addNotification message type (st : App) :
  sameCapture st (addNotification dateNow message type st).
Proof. split; now autorewrite with frame. Qed.

Lemma sameCapture_processMessage_begin message (st : App) :
  sameCapture st (processMessage_begin dateNow mathRandom message st).
Proof.
  unfold processMessage_begin, showTypingIndicator.
  destruct (chatMessages st) eqn:Hc, (userId st) eqn:Hu; simpl;
    rewrite ?Hu; split; reflexivity.
Qed.

Lemma sameCapture_addUserMessage message type (st : App) :
  sameCapture st (addUserMessage dateNow message type st).
Proof.
  unfold addUserMessage. destruct (chatMessages st); split; reflexivity.
Qed.

(** Peels the outermost operation off the state reached. *)
Ltac capture_step :=
  lazymatch goal with
  | |- sameCapture ?s ?s => apply sameCapture_refl
  | |- sameCapture _ (if ?b then _ else _) => destruct b
  | |- sameCapture _ (addSystemMessage _ _ _ ?x) =>
      apply (sameCapture_trans _ x); [|apply sameCapture_addSystemMessage]
  | |- sameCapture _ (addNotification _ _ _ ?x) =>
      apply (sameCapture_trans _ x); [|apply sameCapture_addNotification]
  | |- sameCapture _ (processMessage_begin _ _ _ ?x) =>
      apply (sameCapture_trans _ x); [|apply sameCapture_processMessage_begin]
  | |- sameCapture _ (addUserMessage _ _ _ ?x) =>
      apply (sameCapture_trans _ x); [|apply sameCapture_addUserMessage]
  | |- sameCapture _ (updateRealTimeMetrics _ ?x) =>
      apply (sameCapture_trans _ x); [|split; reflexivity]
  | |- sameCapture _ (set_requests _ ?x) =>
      apply (sameCapture_trans _ x); [|split; reflexivity]
  | |- sameCapture _ (set_currentSection _ ?x) =>
      apply (sameCapture_trans _ x); [|split; reflexivity]
  | |- sameCapture _ (set_isDarkMode _ ?x) =>
      apply (sameCapture_trans _ x); [|split; reflexivity]
  | |- sameCapture _ (set_timers _ ?x) =>
      apply (sameCapture_trans _ x); [|split; reflexivity]
  | |- sameCapture _ (set_downloads _ ?x) =>
      apply (sameCapture_trans _ x); [|split; reflexivity]
  | |- sameCapture _ (set_clockReads _ ?x) =>
      apply (sameCapture_trans _ x); [|split; reflexivity]
  end.

Lemma sameCapture_runAction (a : Action) (st : App) :
  sameCapture st (runAction dateNow mathRandom a st).
Proof.
  destruct a; unfold runAction, switchSection, generateBusinessReport,
    refreshAllData, toggleTheme, exportData, showVoiceHelp,
    loadAnalyticsSection_begin, loadCustomersSection_begin,
    loadInventorySection_begin, readClock; cbv zeta; cbv beta iota;
    repeat capture_step.
Qed.

Lemma sameCapture_onresult (spokenText : string) (st : App) :
  sameCapture st (recognition_onresult dateNow mathRandom spokenText st).
Proof.
  unfold recognition_onresult, commandHandler, handleVoiceInput_begin.
  destruct (recognition st) as [r|]; [|apply sameCapture_refl].
  destruct (onresult r); [repeat capture_step|].
  destruct (findCommand (Js.toLowerCase spokenText)) as [[command a]|];
    [|repeat capture_step].
  eapply sameCapture_trans;
    [apply sameCapture_runAction | apply sameCapture_addNotification].
Qed.

End CaptureFacts.

(** X12. The capture state machine. Whatever is called and whatever the
    recognition object reports, a state that listens only if there is a
    recognition object stays so; the recognition object is never replaced
    or removed; the state becomes listening only through the start event
    of the platform, and the end and error events always leave it idle. *)
Theorem capture_listens_only_between_start_and_end :
  forall (dateNow : nat -> Z) (mathRandom : nat -> Q) (event : CaptureEvent)
         (st : App),
    captureOk st ->
    let st' := captureStep dateNow mathRandom event st in
    captureOk st'
    /\ recognition st' = recognition st
    /\ (isListening st' = true -> isListening st = true \/ event = EventStart)
    /\ (event = EventEnd \/ event = EventError -> isListening st' = false).
Proof.
  intros dn mr event st Hok st'. unfold captureOk in *.
  assert (Hstart : forall start,
            sameCapture st (stateOf (startListening dn start st))).
  { intro start. unfold startListening.
    destruct (recognition st), start; cbn [stateOf];
      first [apply sameCapture_refl | apply sameCapture_addSystemMessage]. }
  assert (Hsame : forall x event',
            sameCapture st x ->
            event' <> EventEnd -> event' <> EventError ->
            (recognition x = None -> isListening x = false)
            /\ recognition x = recognition st
            /\ (isListening x = true ->
                isListening st = true \/ event' = EventStart)
            /\ (event' = EventEnd \/ event' = EventError ->
                isListening x = false)).
  { intros x event' [Hl Hr] Hne Hne'. rewrite Hl, Hr.
    split; [exact Hok|]. split; [reflexivity|].
    split; [intro H; left; exact H|]. intros [H|H]; contradiction. }
  destruct event; unfold st', captureStep.
  - apply Hsame; [apply Hstart | discriminate | discriminate].
  - apply Hsame; [apply sameCapture_refl | discriminate | discriminate].
  - apply Hsame; [|discriminate | discriminate].
    unfold toggleVoiceRecognition, stopListening.
    destruct (isListening st); [apply sameCapture_refl | apply Hstart].
  - unfold recognition_onstart. destruct (recognition st) eqn:Hr.
    + autorewrite with frame. cbn [isListening recognition set_isListening].
      rewrite Hr. split; [discriminate|]. split; [reflexivity|].
      split; [intro H; right; reflexivity|]. intros [H|H]; discriminate H.
    + apply Hsame; [apply sameCapture_refl | discriminate | discriminate].
  - apply Hsame; [apply sameCapture_onresult | discriminate | discriminate].
  - unfold recognition_onerror. destruct (recognition st) eqn:Hr.
    + cbn [isListening recognition set_isListening].
      autorewrite with frame. rewrite Hr.
      split; [reflexivity|]. split; [reflexivity|].
      split; [discriminate|]. reflexivity.
    + pose proof (Hok eq_refl) as Hidle.
      split; [intros _; exact Hidle|]. split; [exact Hr|].
      split; [intro H; left; exact H|]. intros _. exact Hidle.
  - unfold recognition_onend. destruct (recognition st) eqn:Hr.
    + cbn [isListening recognition set_isListening]. rewrite Hr.
      split; [reflexivity|]. split; [reflexivity|].
      split; [discriminate|]. reflexivity.
    + pose proof (Hok eq_refl) as Hidle.
      split; [intros _; exact Hidle|]. split; [exact Hr|].
      split; [intro H; left; exact H|]. intros _. exact Hidle.
Qed.

Lemma capture_listens_only_between_start_and_end_witness :
  let listening :=
    captureStep clockTick draws EventStart (listeningPage clockTick) in
  isListening listening = true
  /\ isListening (captureStep clockTick draws EventEnd listening) = false
  /\ recognition (captureStep clockTick draws EventEnd listening)
     = recognition listening.
Proof.
  intro listening.
  assert (Hok : captureOk listening)
    by (intro H; vm_compute in H; discriminate H).
  destruct (capture_listens_only_between_start_and_end clockTick draws
              EventEnd listening Hok) as (_ & Hr & _ & Hidle).
  split; [vm_compute; reflexivity|]. split; [|exact Hr].
  apply Hidle. left. reflexivity.
Defined.

(** X13. A start of the capture that the platform refuses is reported,
    not propagated: [startListening] always completes normally and never
    changes the capture state or the feed; when [recognition.start()]
    throws it shows one error message in the chat, and when it does not
    throw the call itself changes nothing. *)
Theorem refused_start_is_reported_in_the_chat :
  forall (dateNow : nat -> Z) (start : StartResult) (st : App),
    exists st',
      startListening dateNow start st = Normal st'
      /\ sameCapture st st'
      /\ notifications st' = notifications st
      /\ (start = Starts -> st' = st)
      /\ (start = StartThrows -> recognition st <> None ->
          chatMessages st <> None ->
          countSystemMessages error st' = S (countSystemMessages error st)).
Proof.
  intros dn start st. unfold startListening.
  destruct (recognition st) as [r|] eqn:Hr.
  - destruct start.
    + exists st. repeat split; auto; discriminate.
    + eexists. split; [reflexivity|]. split; [|split; [|split]].
      * split; now autorewrite with frame.
      * now autorewrite with frame.
      * discriminate.
      * intros _ _ Hc. unfold countSystemMessages, chatNodes, addSystemMessage.
        destruct (chatMessages st) as [nodes|]; [|congruence]. cbn.
        rewrite filter_app, length_app. cbn. lia.
  - exists st. repeat split; auto. intros _ H. congruence.
Qed.

Lemma refused_start_is_reported_in_the_chat_witness :
  exists st',
    startListening clockTick StartThrows (listeningPage clockTick) = Normal st'
    /\ countSystemMessages error st' = 1%nat
    /\ isListening st' = false.
Proof.
  destruct (refused_start_is_reported_in_the_chat clockTick StartThrows
              (listeningPage clockTick))
    as (st' & Heq & [Hl _] & _ & _ & Herr).
  exists st'. split; [exact Heq|]. split.
  - rewrite Herr; [reflexivity | reflexivity | discriminate | discriminate].
  - rewrite Hl. reflexivity.
Defined.

Lemma notifications_handleVoiceInput_begin (dateNow : nat -> Z)
    (mathRandom : nat -> Q) (transcript : string) (st : App) :
  notifications (handleVoiceInput_begin dateNow mathRandom transcript st)
  = notifications st.
Proof.
  unfold handleVoiceInput_begin, processMessage_begin, showTypingIndicator,
    addUserMessage.
  destruct (chatMessages st) eqn:Hc, (userId st) eqn:Hu; simpl;
    rewrite ?Hc; simpl; rewrite ?Hu; reflexivity.
Qed.

(** X14. What the command handler does with an utterance. When a trigger
    occurs in the lower-cased utterance, the first such trigger in the
    declared order has its action run, the notice of the executed command
    is posted on top of what the action posted, and nothing reaches the
    dispatcher or the transcript. When none occurs, the feed is untouched
    and the lower-cased utterance is appended as a user entry and
    dispatched. *)
Theorem utterance_is_a_command_or_a_message :
  forall (dateNow : nat -> Z) (mathRandom : nat -> Q) (spokenText : string)
         (st : App),
    let st' := commandHandler dateNow mathRandom spokenText st in
    match findCommand (Js.toLowerCase spokenText) with
    | Some (command, action) =>
        (exists before after,
           voiceCommands = before ++ (command, action) :: after
           /\ Js.includes (Js.toLowerCase spokenText) command = true
           /\ forallb
                (fun c =>
                   negb (Js.includes (Js.toLowerCase spokenText) (fst c)))
                before = true)
        /\ dispatched st' = dispatched st
        /\ userTexts st' = userTexts st
        /\ feedContent st'
           = executedNotice command
             :: feedContent (runAction dateNow mathRandom action st)
    | None =>
        notifications st' = notifications st
        /\ dispatched st' = dispatched st ++ [Js.toLowerCase spokenText]
        /\ userTexts st'
           = userTexts st
             ++ match chatMessages st with
                | Some _ => [Js.toLowerCase spokenText]
                | None => []
                end
    end.
Proof.
  intros dn mr spokenText st st'.
  destruct (findCommand (Js.toLowerCase spokenText)) as [[command a]|] eqn:E.
  - destruct (commandHandler_matched dn mr spokenText command a st E)
      as (Hfirst & [Hd Hu] & _).
    split; [exact Hfirst|]. split; [exact Hd|]. split; [exact Hu|].
    unfold st', commandHandler. rewrite E.
    apply feedContent_addNotification.
  - unfold st'. rewrite (commandHandler_unmatched dn mr spokenText st E).
    split; [apply notifications_handleVoiceInput_begin|].
    split; [apply dispatched_handleVoiceInput_begin|].
    unfold handleVoiceInput_begin.
    now rewrite userTexts_processMessage_begin, userTexts_addUserMessage.
Qed.

(** X15. The quick actions of the dashboard stay local: whatever the
    action string, nothing is posted to the notification feed, nothing is
    dispatched to the chat service and no user entry is added. A navigation
    action ends in its section and starts the fetch of that section; the
    export action and an unknown action leave the current section and start
    no fetch. *)
Theorem quick_actions_stay_local :
  forall (dateNow : nat -> Z) (action : string) (st : App),
    let st' := handleQuickAction dateNow action st in
    notifications st' = notifications st
    /\ dispatched st' = dispatched st
    /\ userTexts st' = userTexts st
    /\ match quickActionSection action with
       | Some sectionName =>
           currentSection st' = sectionName
           /\ requests st' = requests st ++ sectionRequest sectionName
       | None =>
           currentSection st' = currentSection st
           /\ requests st' = requests st
       end.
Proof.
  intros dn action st st'.
  assert (Hnav : forall sectionName message type,
            let x := addSystemMessage dn message type
                       (switchSection dn sectionName st) in
            notifications x = notifications st
            /\ dispatched x = dispatched st
            /\ userTexts x = userTexts st
            /\ currentSection x = sectionName
            /\ requests x = requests st ++ sectionRequest sectionName).
  { intros name message type x.
    destruct (switchSection_fields dn name st) as (Hc & Hr & Hn & _).
    assert (Hq : quiet st x).
    { eapply quiet_trans;
        [apply (quiet_runAction dn (fun _ => 0%Q) (SwitchSection name))
        |apply quiet_addSystemMessage]. }
    destruct Hq as [Hd Hu]. unfold x. autorewrite with frame.
    repeat split; assumption. }
  unfold st', handleQuickAction, quickActionSection.
  destruct (action =? "start-conversation")%string;
    [destruct (Hnav "assistant"
                 "🎤 Ready to start a new conversation! Click the microphone or type your message."
                 success) as (? & ? & ? & ? & ?); auto|].
  destruct (action =? "view-analytics")%string;
    [destruct (Hnav "analytics" "📊 Loading analytics dashboard..." info)
       as (? & ? & ? & ? & ?); auto|].
  destruct (action =? "manage-customers")%string;
    [destruct (Hnav "customers" "👥 Customer management loaded successfully."
                 info) as (? & ? & ? & ? & ?); auto|].
  destruct (action =? "inventory-check")%string;
    [destruct (Hnav "inventory" "🏍️ Inventory dashboard loaded." info)
       as (? & ? & ? & ? & ?); auto|].
  destruct (action =? "generate-report")%string;
    [destruct (Hnav "reports" "📋 Reports section opened." info)
       as (? & ? & ? & ? & ?); auto|].
  destruct (action =? "system-settings")%string;
    [destruct (Hnav "settings" "⚙️ System settings loaded." info)
       as (? & ? & ? & ? & ?); auto|].
  destruct (action =? "export-data")%string.
  - destruct (quiet_runAction dn (fun _ => 0%Q) ExportData st) as [Hd Hu].
    cbn [runAction] in Hd, Hu. unfold exportData, readClock in *. cbv zeta in *.
    autorewrite with frame.
    repeat split; first [assumption | reflexivity].
  - destruct (quiet_addSystemMessage dn
                ("Action " ++ Js.dquote ++ action ++ Js.dquote
                 ++ " is not yet implemented.")%string warning st)
      as [Hd Hu].
    autorewrite with frame. repeat split; assumption || reflexivity.
Qed.

(** ** Ranges and shape of the collections *)

Section CollectionFacts.

Variable dateNow : nat -> Z.
Variable mathRandom : nat -> Q.
Hypothesis mathRandom_range :
  forall k, (0 <= mathRandom k /\ mathRandom k < 1)%Q.

Lemma arrayFromAux_Forall {A} (f : nat -> App -> A * App) (P : A -> Prop) :
  (forall i st, P (fst (f i st))) ->
  forall n i st, Forall P (fst (arrayFromAux f n i st)).
Proof.
  intros Hf n. induction n as [|n IH]; intros i st; [constructor|].
  simpl. pose proof (Hf i st) as H1. destruct (f i st) as [x st1].
  pose proof (IH (S i) st1) as H2.
  destruct (arrayFromAux f n (S i) st1) as [l st2].
  simpl in *. now constructor.
Qed.

Lemma mapAux_Forall {A B} (f : A -> nat -> App -> B * App) (P : B -> Prop) :
  (forall x i st, P (fst (f x i st))) ->
  forall l i st, Forall P (fst (mapAux f l i st)).
Proof.
  intros Hf l. induction l as [|x l IH]; intros i st; [constructor|].
  simpl. pose proof (Hf x i st) as H1. destruct (f x i st) as [y st1].
  pose proof (IH (S i) st1) as H2.
  destruct (mapAux f l (S i) st1) as [r st2].
  simpl in *. now constructor.
Qed.

Lemma stockStatus_cases (r : Q) :
  stockStatus r = "In Stock" \/ stockStatus r = "Low Stock".
Proof. unfold stockStatus. destruct (Qle_bool r (8 # 10)); auto. Qed.

Lemma status_in_range (k : nat) :
  In (Js.at_ statuses (Z.to_nat (Js.floor (mathRandom k * inject_Z 4))))
    statuses.
Proof.
  pose proof (floor_scaled_draw mathRandom mathRandom_range k 4
                ltac:(reflexivity)) as H.
  remember (Js.floor (mathRandom k * inject_Z 4)) as d.
  assert (Hd : d = 0 \/ d = 1 \/ d = 2 \/ d = 3) by lia.
  destruct Hd as [-> | [-> | [-> | ->]]]; cbn; auto.
Qed.

Lemma inventory_item_ok (k : nat) (id : Z) (model brand : string) (now : Z) :
  inventoryItemOk
    (mkInventoryItem id model brand
       (Js.floor (mathRandom k * inject_Z 50) + 10)
       (Js.floor (mathRandom (S k) * inject_Z 100000) + 50000)
       (stockStatus (mathRandom (S (S k)))) now).
Proof.
  pose proof (floor_scaled_draw mathRandom mathRandom_range k 50
                ltac:(reflexivity)).
  pose proof (floor_scaled_draw mathRandom mathRandom_range (S k) 100000
                ltac:(reflexivity)).
  unfold inventoryItemOk.
  cbn [i_stock i_price i_status].
  split; [lia|]. split; [lia|]. apply stockStatus_cases.
Qed.

Lemma generateMockInventory_ok (st : App) :
  Forall inventoryItemOk (fst (generateMockInventory dateNow mathRandom st)).
Proof.
  unfold generateMockInventory, arrayFrom. apply arrayFromAux_Forall.
  intros i s. apply inventory_item_ok.
Qed.

Lemma fetchInventoryData_ok (posts : option (list Z)) (st : App) :
  Forall inventoryItemOk
    (fst (fetchInventoryData dateNow mathRandom posts st)).
Proof.
  unfold fetchInventoryData. destruct posts as [ids|].
  - apply mapAux_Forall. intros x i s. apply inventory_item_ok.
  - apply generateMockInventory_ok.
Qed.

Lemma customer_ok (k : nat) (id : Z) (name email phone location avatar : string)
    (lastContact : Q) (j : nat) :
  customerOk
    (mkCustomer id name email phone location avatar
       (Js.at_ statuses (Z.to_nat (Js.floor (mathRandom j * inject_Z 4))))
       lastContact
       (Js.floor (mathRandom k * inject_Z 3))
       (Js.floor (mathRandom (S k) * inject_Z 500000) + 50000)).
Proof.
  pose proof (floor_scaled_draw mathRandom mathRandom_range k 3
                ltac:(reflexivity)).
  pose proof (floor_scaled_draw mathRandom mathRandom_range (S k) 500000
                ltac:(reflexivity)).
  unfold customerOk. cbn [c_value c_purchaseHistory c_status].
  split; [lia|]. split; [lia|]. apply status_in_range.
Qed.

Lemma generateMockCustomers_ok (st : App) :
  Forall customerOk (fst (generateMockCustomers dateNow mathRandom st)).
Proof.
  unfold generateMockCustomers, arrayFrom. apply arrayFromAux_Forall.
  intros i s. apply customer_ok.
Qed.

Lemma fetchCustomersData_ok (users : option (list User)) (st : App) :
  Forall customerOk (fst (fetchCustomersData dateNow mathRandom users st)).
Proof.
  unfold fetchCustomersData. destruct users as [results|].
  - apply mapAux_Forall. intros x i s. apply customer_ok.
  - apply generateMockCustomers_ok.
Qed.

Lemma generateMockAnalytics_ok (st : App) :
  mockAnalyticsOk (fst (generateMockAnalytics mathRandom st)).
Proof.
  unfold generateMockAnalytics, arrayFrom.
  cbn [random drawBelow].
  lazymatch goal with
  | |- context [arrayFromAux ?f 4 0%nat ?s] =>
      pose proof (arrayFromAux_Forall f (fun x => 0 <= x < 100)
                    (fun _ s' =>
                       floor_scaled_draw mathRandom mathRandom_range
                         (randomReads s') 100 eq_refl) 4 0%nat s) as Hq;
      destruct (arrayFromAux f 4 0%nat s) as [q st1]
  end.
  lazymatch goal with
  | |- context [arrayFromAux ?f 12 0%nat ?s] =>
      pose proof (arrayFromAux_Forall f (fun x => 0 <= x < 80)
                    (fun _ s' =>
                       floor_scaled_draw mathRandom mathRandom_range
                         (randomReads s') 80 eq_refl) 12 0%nat s) as Hm;
      destruct (arrayFromAux f 12 0%nat s) as [m st2]
  end.
  cbn [fst snd] in *. unfold mockAnalyticsOk, salesOk.
  cbn [fst customerAcquisition quarterly monthly topModels tm_name tm_sales
       randomReads set_randomReads].
  pose proof (floor_scaled_draw mathRandom mathRandom_range
                (S (randomReads st)) 30 eq_refl).
  pose proof (floor_scaled_draw mathRandom mathRandom_range
                (randomReads st2) 200 eq_refl).
  pose proof (floor_scaled_draw mathRandom mathRandom_range
                (S (randomReads st2)) 150 eq_refl).
  pose proof (floor_scaled_draw mathRandom mathRandom_range
                (S (S (randomReads st2))) 120 eq_refl).
  repeat split; first [assumption | lia].
Qed.

End CollectionFacts.

Section ProjectionFacts.

Context {B : Type} (proj : App -> B).

Lemma arrayFromAux_proj {A} (f : nat -> App -> A * App) :
  (forall i st, proj (snd (f i st)) = proj st) ->
  forall n i st, proj (snd (arrayFromAux f n i st)) = proj st.
Proof.
  intros Hf n. induction n as [|n IH]; intros i st; [reflexivity|].
  simpl. pose proof (Hf i st) as H1. destruct (f i st) as [x st1].
  pose proof (IH (S i) st1) as H2.
  destruct (arrayFromAux f n (S i) st1) as [l st2].
  simpl in *. congruence.
Qed.

Lemma mapAux_proj {A C} (f : A -> nat -> App -> C * App) :
  (forall x i st, proj (snd (f x i st)) = proj st) ->
  forall l i st, proj (snd (mapAux f l i st)) = proj st.
Proof.
  intros Hf l. induction l as [|x l IH]; intros i st; [reflexivity|].
  simpl. pose proof (Hf x i st) as H1. destruct (f x i st) as [y st1].
  pose proof (IH (S i) st1) as H2.
  destruct (mapAux f l (S i) st1) as [r st2].
  simpl in *. congruence.
Qed.

End ProjectionFacts.

Lemma map_fst_combine_seq {A} (l : list A) (i : nat) :
  map fst (combine l (seq i (List.length l))) = l.
Proof.
  revert i. induction l as [|x l IH]; intro i; [reflexivity|].
  simpl. now rewrite IH.
Qed.

Lemma map_snd_combine_seq {A} (l : list A) (i : nat) :
  map snd (combine l (seq i (List.length l))) = seq i (List.length l).
Proof.
  revert i. induction l as [|x l IH]; intro i; [reflexivity|].
  simpl. now rewrite IH.
Qed.

Lemma fetchInventoryData_requests (dateNow : nat -> Z) (mathRandom : nat -> Q)
    (posts : option (list Z)) (st : App) :
  requests (snd (fetchInventoryData dateNow mathRandom posts st))
  = requests st ++ [PostsRequest].
Proof.
  unfold fetchInventoryData, generateMockInventory, arrayFrom.
  destruct posts as [ids|].
  - rewrite (mapAux_proj requests); [reflexivity|]. intros x i s. reflexivity.
  - rewrite (arrayFromAux_proj requests); [reflexivity|].
    intros i s. reflexivity.
Qed.

Lemma fetchCustomersData_requests (dateNow : nat -> Z) (mathRandom : nat -> Q)
    (users : option (list User)) (st : App) :
  requests (snd (fetchCustomersData dateNow mathRandom users st))
  = requests st ++ [UsersRequest].
Proof.
  unfold fetchCustomersData, generateMockCustomers, arrayFrom.
  destruct users as [results|].
  - rewrite (mapAux_proj requests); [reflexivity|]. intros x i s. reflexivity.
  - rewrite (arrayFromAux_proj requests); [reflexivity|].
    intros i s. reflexivity.
Qed.

(** X16. The inventory collection, live or mock. Every item has a stock
    from 10 to 59, a price from 50000 to 149999 and one of the two status
    texts; the fetch makes exactly one request. From a live source there is
    one item per post, with the id of the post, in the order of the posts;
    when the source is unreachable there are the twenty mock items. *)
Theorem inventory_is_within_range_live_or_mock :
  forall (dateNow : nat -> Z) (mathRandom : nat -> Q),
    (forall k, (0 <= mathRandom k /\ mathRandom k < 1)%Q) ->
    forall (posts : option (list Z)) (st : App),
      let result := fetchInventoryData dateNow mathRandom posts st in
      Forall inventoryItemOk (fst result)
      /\ requests (snd result) = requests st ++ [PostsRequest]
      /\ match posts with
         | Some ids => map i_id (fst result) = ids
         | None => List.length (fst result) = 20%nat
         end.
Proof.
  intros dn mr Hmr posts st result. split; [|split].
  - now apply fetchInventoryData_ok.
  - apply fetchInventoryData_requests.
  - unfold result, fetchInventoryData. destruct posts as [ids|].
    + rewrite (mapAux_map _ i_id (fun post _ => post));
        [apply map_fst_combine_seq|]. intros x i s. reflexivity.
    + unfold generateMockInventory, arrayFrom. apply arrayFromAux_length.
Qed.

(** X17. The customer collection, live or mock. Every customer has a
    value from 50000 to 549999, a purchase history from 0 to 2 and a status
    that is one of the four status texts (the index drawn is always within
    the array); the fetch makes exactly one request. From a live source
    there is one customer per user, numbered from 1 in the order of the
    users and named by first and last name; when the source is unreachable
    there are the fifteen mock customers. *)
Theorem customers_are_within_range_live_or_mock :
  forall (dateNow : nat -> Z) (mathRandom : nat -> Q),
    (forall k, (0 <= mathRandom k /\ mathRandom k < 1)%Q) ->
    forall (users : option (list User)) (st : App),
      let result := fetchCustomersData dateNow mathRandom users st in
      Forall customerOk (fst result)
      /\ requests (snd result) = requests st ++ [UsersRequest]
      /\ match users with
         | Some results =>
             map c_id (fst result)
             = map (fun i => Z.of_nat i + 1) (seq 0 (List.length results))
             /\ map c_name (fst result)
                = map (fun u => (u_first u ++ " " ++ u_last u)%string) results
         | None => List.length (fst result) = 15%nat
         end.
Proof.
  intros dn mr Hmr users st result. split; [|split].
  - now apply fetchCustomersData_ok.
  - apply fetchCustomersData_requests.
  - unfold result, fetchCustomersData. destruct users as [results|].
    + split.
      * rewrite (mapAux_map _ c_id (fun _ i => Z.of_nat i + 1));
          [|intros x i s; reflexivity].
        rewrite <- (map_map snd (fun i => Z.of_nat i + 1)).
        now rewrite map_snd_combine_seq.
      * rewrite (mapAux_map _ c_name
                   (fun u _ => (u_first u ++ " " ++ u_last u)%string));
          [|intros x i s; reflexivity].
        rewrite <- (map_map fst
                      (fun u => (u_first u ++ " " ++ u_last u)%string)).
        now rewrite map_fst_combine_seq.
    + unfold generateMockCustomers, arrayFrom. apply arrayFromAux_length.
Qed.

(** X18. The mock analytics are within the ranges of their draws: from 20
    to 49 new customers, four quarterly figures below 100, twelve monthly
    figures below 80, and the three top models with sales from 100 to 299,
    from 80 to 229 and from 60 to 179. *)
Theorem mock_analytics_are_within_range :
  forall (mathRandom : nat -> Q),
    (forall k, (0 <= mathRandom k /\ mathRandom k < 1)%Q) ->
    forall (st : App),
      mockAnalyticsOk (fst (generateMockAnalytics mathRandom st))
      /\ List.length (quarterly (fst (generateMockAnalytics mathRandom st)))
         = 4%nat
      /\ List.length (monthly (fst (generateMockAnalytics mathRandom st)))
         = 12%nat.
Proof.
  intros mr Hmr st. split; [now apply generateMockAnalytics_ok|].
  pose proof (generateMockAnalytics_shape mr st) as H.
  unfold analyticsShape in H. split; congruence.
Qed.

Lemma draws_in_range : forall k, (0 <= draws k /\ draws k < 1)%Q.
Proof.
  intro k. pose proof (Nat.mod_upper_bound k 13 ltac:(discriminate)) as Hk.
  unfold draws, Qle, Qlt. cbn [Qnum Qden]. lia.
Qed.

Lemma inventory_is_within_range_live_or_mock_witness :
  Forall inventoryItemOk
    (fst (fetchInventoryData clockTick draws (Some [7; 3; 11]) samplePage))
  /\ map i_id
       (fst (fetchInventoryData clockTick draws (Some [7; 3; 11]) samplePage))
     = [7; 3; 11].
Proof.
  destruct (inventory_is_within_range_live_or_mock clockTick draws
              draws_in_range (Some [7; 3; 11]) samplePage) as (Hok & _ & Hids).
  split; [exact Hok | exact Hids].
Defined.

Lemma customers_are_within_range_live_or_mock_witness :
  Forall customerOk (fst (fetchCustomersData clockTick draws None samplePage))
  /\ List.length (fst (fetchCustomersData clockTick draws None samplePage))
     = 15%nat.
Proof.
  destruct (customers_are_within_range_live_or_mock clockTick draws
              draws_in_range None samplePage) as (Hok & _ & Hlen).
  split; [exact Hok | exact Hlen].
Defined.

Lemma mock_analytics_are_within_range_witness :
  mockAnalyticsOk (fst (generateMockAnalytics draws samplePage)).
Proof.
  apply (mock_analytics_are_within_range draws draws_in_range samplePage).
Defined.

(** ** Live analytics *)

Lemma rem_range (x : Q) (m : Z) :
  (0 <= x)%Q -> 0 < m ->
  (0 <= Js.rem x (inject_Z m) /\ Js.rem x (inject_Z m) < inject_Z m)%Q.
Proof.
  intros Hx Hm. unfold Js.rem, Js.trunc.
  assert (HM : (0 < inject_Z m)%Q)
    by (change 0%Q with (inject_Z 0); now rewrite <- Zlt_Qlt).
  set (M := inject_Z m) in *.
  assert (Hq : (0 <= x / M)%Q).
  { apply Qle_shift_div_l; [exact HM|]. now rewrite Qmult_0_l. }
  apply Qle_bool_iff in Hq as Hb. rewrite Hb.
  pose proof (Qfloor_le (x / M)) as Hlo.
  pose proof (Qlt_floor (x / M)) as Hhi.
  set (f := Qfloor (x / M)) in *.
  assert (Hx' : (M * (x / M) == x)%Q)
    by (apply Qmult_div_r; intro E; rewrite E in HM; discriminate).
  assert (H1 : (M * inject_Z f <= M * (x / M))%Q)
    by (apply Qmult_le_l; assumption).
  assert (H2 : (M * (x / M) < M * inject_Z (f + 1))%Q)
    by (apply Qmult_lt_l; assumption).
  rewrite Hx' in H1, H2. rewrite inject_Z_plus in H2.
  change (inject_Z 1) with 1%Q in H2. split; lra.
Qed.

Lemma floor_rem_range (x : Q) (m : Z) :
  (0 <= x)%Q -> 0 < m -> 0 <= Js.floor (Js.rem x (inject_Z m)) < m.
Proof.
  intros Hx Hm. destruct (rem_range x m Hx Hm) as [H0 H1].
  unfold Js.floor. split.
  - change 0 with (Qfloor 0). now apply Qfloor_resp_le.
  - rewrite Zlt_Qlt. eapply Qle_lt_trans; [apply Qfloor_le | exact H1].
Qed.

Lemma Forall2_map_self {A B} (P : A -> B -> Prop) (f : A -> B) (l : list A) :
  (forall a, In a l -> P a (f a)) -> Forall2 P l (map f l).
Proof.
  induction l as [|a l IH]; intro H; [constructor|].
  constructor; [apply H; now left | apply IH; intros b Hb; apply H; now right].
Qed.

(** X19. The analytics derived from a live price that is not negative:
    from 20 to 69 new customers; the three top models with their sales in
    the ranges of the mock data; four quarterly figures, the i-th, counted
    from 0, from 0 to 99 + 10 i, and twelve monthly figures, the i-th from
    0 to 79 + 5 i. No draw of [Math.random] is made and one request is
    sent. *)
Theorem live_analytics_are_within_range :
  forall (mathRandom : nat -> Q) (btcPrice : Q) (st : App),
    (0 <= btcPrice)%Q ->
    let result := fetchAnalyticsData mathRandom (Some btcPrice) st in
    20 <= customerAcquisition (fst result) < 70
    /\ salesOk (fst result)
    /\ Forall2 (fun i x => 0 <= x < 100 + 10 * Z.of_nat i)
         [0; 1; 2; 3]%nat (quarterly (fst result))
    /\ Forall2 (fun i x => 0 <= x < 80 + 5 * Z.of_nat i)
         [0; 1; 2; 3; 4; 5; 6; 7; 8; 9; 10; 11]%nat (monthly (fst result))
    /\ randomReads (snd result) = randomReads st
    /\ requests (snd result) = requests st ++ [CryptoRequest].
Proof.
  intros mr p st Hp result. unfold result, fetchAnalyticsData.
  cbn [fst snd customerAcquisition topModels quarterly monthly].
  pose proof (floor_rem_range p 50 Hp eq_refl).
  pose proof (floor_rem_range p 200 Hp eq_refl).
  pose proof (floor_rem_range p 150 Hp eq_refl).
  pose proof (floor_rem_range p 120 Hp eq_refl).
  split; [lia|]. split.
  { unfold salesOk. cbn [topModels tm_name tm_sales].
    repeat split; lia. }
  split; [|split; [|split; reflexivity]].
  - change [0; 1; 2; 3]%nat with (seq 0 4).
    apply Forall2_map_self. intros i _.
    pose proof (floor_rem_range p (100 + Z.of_nat i * 10) Hp ltac:(lia)).
    lia.
  - change [0; 1; 2; 3; 4; 5; 6; 7; 8; 9; 10; 11]%nat with (seq 0 12).
    apply Forall2_map_self. intros i _.
    pose proof (floor_rem_range p (80 + Z.of_nat i * 5) Hp ltac:(lia)).
    lia.
Qed.

Lemma live_analytics_are_within_range_witness :
  let data :=
    fst (fetchAnalyticsData draws (Some (6543210 # 100)) samplePage) in
  20 <= customerAcquisition data < 70
  /\ salesOk data
  /\ Forall2 (fun i x => 0 <= x < 100 + 10 * Z.of_nat i)
       [0; 1; 2; 3]%nat (quarterly data).
Proof.
  destruct (live_analytics_are_within_range draws (6543210 # 100) samplePage)
    as (Ha & Hs & Hq & _).
  - unfold Qle. cbn. lia.
  - split; [exact Ha | split; [exact Hs | exact Hq]].
Defined.

(** ** The inventory alert *)

(** X20. [checkInventoryAlerts] makes one request for the inventory and
    counts the items with fewer than fifteen units, whatever their status
    text. With none it leaves the feed as it is; otherwise it puts one
    warning on top of the feed, which tells their number, and that number
    is at most the size of the inventory. *)
Theorem inventory_alert_counts_low_stock :
  forall (dateNow : nat -> Z) (mathRandom : nat -> Q)
         (posts : option (list Z)) (st : App),
    let inventory := fst (fetchInventoryData dateNow mathRandom posts st) in
    let n := List.length (lowStock inventory) in
    let st' := checkInventoryAlerts dateNow mathRandom posts st in
    (n <= List.length inventory)%nat
    /\ requests st' = requests st ++ [PostsRequest]
    /\ feedContent st'
       = if (n =? 0)%nat then feedContent st
         else lowStockNotice n :: feedContent st.
Proof.
  intros dn mr posts st inventory n st'.
  split; [apply filter_length_le|].
  unfold st', checkInventoryAlerts.
  pose proof (fetchInventoryData_requests dn mr posts st) as Hr.
  pose proof (reportView_fetchInventoryData dn mr posts st) as Hv.
  unfold n, inventory, lowStock.
  destruct (fetchInventoryData dn mr posts st) as [inv s1].
  cbn [fst snd] in *.
  assert (Hf : feedContent s1 = feedContent st)
    by (unfold feedContent, reportView in *; congruence).
  destruct (filter (fun item => i_stock item <? 15) inv) as [|x low] eqn:E.
  - split; [exact Hr | exact Hf].
  - split.
    + autorewrite with frame. exact Hr.
    + rewrite feedContent_addNotification, Hf. reflexivity.
Qed.

(** ** The pages of a report *)

Section FetchFrames.

Context {B : Type} (proj : App -> B).
Hypothesis proj_randomReads : forall k st, proj (set_randomReads k st) = proj st.
Hypothesis proj_clockReads : forall k st, proj (set_clockReads k st) = proj st.
Hypothesis proj_requests : forall r st, proj (set_requests r st) = proj st.

Variable dateNow : nat -> Z.
Variable mathRandom : nat -> Q.

Ltac proj_item :=
  cbn [drawBelow random readClock snd];
  repeat (rewrite proj_clockReads || rewrite proj_randomReads); reflexivity.

Lemma proj_generateMockAnalytics (st : App) :
  proj (snd (generateMockAnalytics mathRandom st)) = proj st.
Proof.
  unfold generateMockAnalytics, arrayFrom.
  cbn [random drawBelow].
  match goal with
  | |- context [arrayFromAux ?f 4 0%nat ?s] =>
      pose proof (arrayFromAux_proj proj f
                    ltac:(intros i s'; proj_item) 4 0 s)%nat as Hq;
      destruct (arrayFromAux f 4 0%nat s) as [q st1]
  end.
  match goal with
  | |- context [arrayFromAux ?f 12 0%nat ?s] =>
      pose proof (arrayFromAux_proj proj f
                    ltac:(intros i s'; proj_item) 12 0 s)%nat as Hm;
      destruct (arrayFromAux f 12 0%nat s) as [m st2]
  end.
  cbn [fst snd] in *.
  rewrite !proj_randomReads, Hm, Hq, !proj_randomReads. reflexivity.
Qed.

Lemma proj_fetchAnalyticsData (rate : option Q) (st : App) :
  proj (snd (fetchAnalyticsData mathRandom rate st)) = proj st.
Proof.
  unfold fetchAnalyticsData. destruct rate as [btcPrice|].
  - cbn [snd]. apply proj_requests.
  - rewrite proj_generateMockAnalytics. apply proj_requests.
Qed.

Lemma proj_fetchCustomersData (users : option (list User)) (st : App) :
  proj (snd (fetchCustomersData dateNow mathRandom users st)) = proj st.
Proof.
  unfold fetchCustomersData, generateMockCustomers, arrayFrom.
  destruct users as [results|].
  - rewrite (mapAux_proj proj); [apply proj_requests|].
    intros x i s. proj_item.
  - rewrite (arrayFromAux_proj proj); [apply proj_requests|].
    intros i s. proj_item.
Qed.

Lemma proj_fetchInventoryData (posts : option (list Z)) (st : App) :
  proj (snd (fetchInventoryData dateNow mathRandom posts st)) = proj st.
Proof.
  unfold fetchInventoryData, generateMockInventory, arrayFrom.
  destruct posts as [ids|].
  - rewrite (mapAux_proj proj); [apply proj_requests|].
    intros x i s. proj_item.
  - rewrite (arrayFromAux_proj proj); [apply proj_requests|].
    intros i s. proj_item.
Qed.

End FetchFrames.

(** What the pages of a report are read from, and where they go. *)
Definition pageSource (st : App) :=
  (elementIds st, realTimeData st, businessInsights st, downloads st,
   reportProgress st).

Lemma pageSource_fetches (dateNow : nat -> Z) (mathRandom : nat -> Q)
    (env : ReportEnv) (st : App) :
  let r1 := fetchAnalyticsData mathRandom (cryptoRate env) st in
  let r2 := fetchCustomersData dateNow mathRandom (userResults env) (snd r1) in
  let r3 := fetchInventoryData dateNow mathRandom (postIds env) (snd r2) in
  pageSource (snd r3) = pageSource st.
Proof.
  intros r1 r2 r3. unfold r3, r2, r1.
  rewrite (proj_fetchInventoryData pageSource), (proj_fetchCustomersData pageSource),
    (proj_fetchAnalyticsData pageSource); reflexivity.
Qed.

Lemma fold_left_captureChart (env : ReportEnv) (st : App)
    (slots : list (string * Z * Z)) (pdf : Pdf) :
  fold_left (captureChart env st) slots pdf
  = mkPdf (donePages pdf)
      (page pdf
       ++ filter (drawn env st)
            (map (fun '(chart, xPos, yPos) => ChartImage chart xPos yPos)
               slots)).
Proof.
  revert pdf. induction slots as [|[[chart xPos] yPos] slots IH]; intro pdf.
  - cbn. rewrite app_nil_r. now destruct pdf.
  - cbn [fold_left map filter]. rewrite IH.
    unfold captureChart, drawn at 2.
    destruct (hasElement chart st); [|reflexivity].
    destruct (captures env chart); [|reflexivity].
    cbn. now rewrite <- app_assoc.
Qed.

(** X21. The document of a compilation that succeeds has five pages, in
    this order: the cover with the metrics of the dashboard; the analytics
    page, which starts with the heading, ends with the indicators of the
    fetched analytics and holds between them, at the places of a two by two
    grid, the images of the charts whose canvas is in the document and
    whose capture succeeds; the customers; the inventory; the
    recommendations of the business insights. The collections are fetched
    in the order analytics, customers, inventory before the first page is
    drawn; the cover is dated by the reading of the clock that follows, the
    file by the next one. *)
Theorem successful_report_has_five_pages :
  forall (dateNow : nat -> Z) (mathRandom : nat -> Q) (env : ReportEnv)
         (st : App),
    stagesSucceed env st = true ->
    let r1 := fetchAnalyticsData mathRandom (cryptoRate env)
                (showReportProgress st) in
    let r2 := fetchCustomersData dateNow mathRandom (userResults env)
                (snd r1) in
    let r3 := fetchInventoryData dateNow mathRandom (postIds env) (snd r2) in
    let k := clockReads (snd r3) in
    exists recommendations,
      businessInsights st = Some recommendations
      /\ downloads (generateAdvancedPDFReport dateNow mathRandom env st)
         = downloads st
           ++ [PdfReport (dateNow (S k))
                 [ [CoverPage (dateNow k) (realTimeData st)];
                   filter (drawn env st)
                     [ AnalyticsHeading;
                       ChartImage "salesChart" 20 40;
                       ChartImage "modelsChart" 110 40;
                       ChartImage "quarterlyChart" 20 110;
                       ChartImage "revenueChart" 110 110;
                       AnalyticsIndicators (fst r1) ];
                   [CustomersPage (fst r2)];
                   [InventoryPage (fst r3)];
                   [InsightsPage recommendations] ]].
Proof.
  intros dn mr env st Hok. cbv zeta.
  unfold stagesSucceed in Hok.
  repeat (apply andb_prop in Hok; destruct Hok as [Hok ?]).
  destruct (businessInsights st) as [recs|] eqn:Hrecs; [|discriminate].
  exists recs. split; [reflexivity|].
  pose proof (pageSource_fetches dn mr env (showReportProgress st)) as Hsrc.
  destruct (reportView_fetchAnalyticsData mr (cryptoRate env)
              (showReportProgress st)) as [_ Hdata].
  unfold generateAdvancedPDFReport, compileReport.
  rewrite Hok. cbv zeta in Hsrc. revert Hsrc Hdata.
  destruct (fetchAnalyticsData mr (cryptoRate env) (showReportProgress st))
    as [a s1].
  cbn [fst snd].
  destruct (fetchCustomersData dn mr (userResults env) s1) as [c s2].
  cbn [fst snd].
  destruct (fetchInventoryData dn mr (postIds env) s2) as [i s3].
  cbn [fst snd]. unfold pageSource. cbn [showReportProgress].
  intros Hsrc Hdata. injection Hsrc as Hel Hrt Hbi Hdl Hrp.
  destruct s3. cbn [elementIds realTimeData businessInsights downloads
                      reportProgress clockReads] in *.
  subst. destruct (reportProgress st ++ [0]) as [|p rest] eqn:Ep;
    [now destruct (reportProgress st)|].
  unfold addCoverPage. rewrite H5.
  cbn -[fold_left drawn hasElement chartSlots filter].
  unfold addAnalyticsPage. rewrite H4, fold_left_captureChart.
  destruct (topModels a) as [|m ms] eqn:Em; [congruence|].
  cbn -[drawn hasElement chartSlots filter].
  unfold addCustomersPage. rewrite H3.
  cbn -[drawn hasElement chartSlots filter].
  unfold addInventoryPage. rewrite H2.
  cbn -[drawn hasElement chartSlots filter].
  unfold addInsightsPage. rewrite H1.
  cbn -[drawn hasElement chartSlots filter]. rewrite Hrecs.
  cbn -[drawn hasElement chartSlots filter]. rewrite H.
  cbn -[drawn hasElement chartSlots filter].
  match goal with
  | |- context [filter (drawn env ?s) (map _ chartSlots)] =>
      change (drawn env s) with (drawn env st)
  end.
  change (filter (drawn env st)
            [ AnalyticsHeading; ChartImage "salesChart" 20 40;
              ChartImage "modelsChart" 110 40;
              ChartImage "quarterlyChart" 20 110;
              ChartImage "revenueChart" 110 110; AnalyticsIndicators a ])
    with (AnalyticsHeading
          :: filter (drawn env st)
               (map (fun '(chart, xPos, yPos) => ChartImage chart xPos yPos)
                  chartSlots ++ [AnalyticsIndicators a])).
  rewrite filter_app. reflexivity.
Qed.

Lemma successful_report_has_five_pages_witness :
  exists stamp cover analytics customers inventory insights,
    downloads
      (generateAdvancedPDFReport clockTick draws (captureFails "modelsChart")
         (analyticsPage clockTick))
    = [PdfReport stamp
         [ [cover];
           [ AnalyticsHeading; ChartImage "salesChart" 20 40;
             ChartImage "quarterlyChart" 20 110;
             ChartImage "revenueChart" 110 110; analytics ];
           [customers]; [inventory]; [insights] ]].
Proof.
  destruct (successful_report_has_five_pages clockTick draws
              (captureFails "modelsChart") (analyticsPage clockTick)
              ltac:(vm_compute; reflexivity)) as (recs & _ & Hd).
  rewrite Hd. repeat eexists.
Defined.

(** ** The table of the customers page *)

Section SortFacts.

Context {A : Type} (compare : A -> A -> Z).

(** [x] may stay before [y]. *)
Let before (x y : A) : Prop := compare x y <= 0.

Hypothesis compare_total : forall x y, 0 < compare x y -> compare y x <= 0.
Hypothesis compare_trans :
  forall x y z, compare x y <= 0 -> compare y z <= 0 -> compare x z <= 0.

Lemma insertSorted_Permutation (x : A) (l : list A) :
  Permutation (insertSorted compare x l) (x :: l).
Proof.
  induction l as [|y l IH]; [reflexivity|].
  cbn [insertSorted]. destruct (compare x y <=? 0); [reflexivity|].
  rewrite IH. apply perm_swap.
Qed.

Lemma arraySort_Permutation (l : list A) : Permutation (arraySort compare l) l.
Proof.
  induction l as [|x l IH]; [reflexivity|].
  cbn [arraySort fold_right]. fold (arraySort compare l).
  rewrite insertSorted_Permutation. now apply perm_skip.
Qed.

Lemma insertSorted_sorted (x : A) (l : list A) :
  StronglySorted before l -> StronglySorted before (insertSorted compare x l).
Proof.
  induction 1 as [|y l Hl IH Hy]; [repeat constructor|].
  cbn [insertSorted]. destruct (compare x y <=? 0) eqn:E.
  - apply Z.leb_le in E. constructor; [now constructor|].
    constructor; [exact E|].
    eapply Forall_impl; [|exact Hy]. intros z Hz.
    eapply compare_trans; eassumption.
  - apply Z.leb_gt in E. constructor; [exact IH|].
    rewrite (insertSorted_Permutation x l).
    constructor; [now apply compare_total | exact Hy].
Qed.

Lemma arraySort_sorted (l : list A) :
  StronglySorted before (arraySort compare l).
Proof.
  induction l as [|x l IH]; [constructor|].
  cbn [arraySort fold_right]. now apply insertSorted_sorted.
Qed.

Lemma StronglySorted_app_inv (R : A -> A -> Prop) (l1 l2 : list A) :
  StronglySorted R (l1 ++ l2) ->
  StronglySorted R l1 /\ forall a b, In a l1 -> In b l2 -> R a b.
Proof.
  induction l1 as [|x l1 IH]; cbn [app].
  - intros _. split; [constructor | intros a b []].
  - intro H. apply StronglySorted_inv in H as [Hs Hx].
    destruct (IH Hs) as [H1 H2]. rewrite Forall_app in Hx.
    destruct Hx as [Hx1 Hx2]. split; [now constructor|].
    intros a b [<-|Ha] Hb.
    + rewrite Forall_forall in Hx2. now apply Hx2.
    + now apply H2.
Qed.

Lemma StronglySorted_impl (R R' : A -> A -> Prop) (l : list A) :
  (forall a b, R a b -> R' a b) -> StronglySorted R l -> StronglySorted R' l.
Proof.
  intros HR. induction 1 as [|x l Hl IH Hx]; constructor; [exact IH|].
  eapply Forall_impl; [|exact Hx]. intros b. apply HR.
Qed.

End SortFacts.

(** X22. The table of the customers page shows the customers of highest
    value, highest first: its rows are ten of the customers, or all of them
    when there are fewer, no row has a higher value than the row above it,
    and no customer left out has a higher value than a customer shown. *)
Theorem top_customers_are_the_most_valuable :
  forall customers : list Customer,
    let top := topCustomers customers in
    List.length top = Nat.min 10 (List.length customers)
    /\ StronglySorted (fun a b => c_value b <= c_value a) top
    /\ exists rest,
         Permutation (top ++ rest) customers
         /\ forall a b, In a top -> In b rest -> c_value b <= c_value a.
Proof.
  intros customers top. unfold top, topCustomers, arraySlice.
  set (compare := fun a b : Customer => c_value b - c_value a).
  cbn [skipn Nat.sub].
  pose proof (arraySort_Permutation compare customers) as Hp.
  assert (Hs : StronglySorted (fun a b => c_value b <= c_value a)
                 (arraySort compare customers)).
  { eapply StronglySorted_impl;
      [|apply (arraySort_sorted compare); unfold compare; intros; lia].
    unfold compare. intros a b. cbv beta. lia. }
  rewrite <- (firstn_skipn 10 (arraySort compare customers)) in Hs, Hp.
  apply StronglySorted_app_inv in Hs as [Hs Hrest].
  split; [|split; [exact Hs|]].
  - rewrite length_firstn. now rewrite (Permutation_length (arraySort_Permutation compare customers)).
  - exists (skipn 10 (arraySort compare customers)). split; assumption.
Qed.

(** * The service worker *)

Section CacheFacts.

Import Sw.

Lemma lookup_cachePut_same (u : string) (response : Response) (cache : Cache) :
  lookup u (cachePut u response cache) = Some response.
Proof.
  unfold lookup, cachePut.
  induction cache as [|e cache IH]; cbn [filter app find].
  - rewrite String.eqb_refl. reflexivity.
  - destruct (fst e =? u)%string eqn:E; cbn [negb]; [exact IH|].
    cbn [app find]. rewrite E. exact IH.
Qed.

Lemma lookup_cachePut_other (u v : string) (response : Response)
    (cache : Cache) :
  u <> v -> lookup u (cachePut v response cache) = lookup u cache.
Proof.
  intro Huv. unfold lookup, cachePut.
  induction cache as [|e cache IH]; cbn [filter app find fst].
  - apply String.eqb_neq in Huv. rewrite String.eqb_sym, Huv. reflexivity.
  - destruct (fst e =? v)%string eqn:E; cbn [negb].
    + apply String.eqb_eq in E.
      assert (Hu : (fst e =? u)%string = false)
        by (apply String.eqb_neq; congruence).
      rewrite Hu. exact IH.
    + cbn [app find]. destruct (fst e =? u)%string; [reflexivity | exact IH].
Qed.

Lemma lookup_putAll_other (u : string) (entries : list (string * Response))
    (cache : Cache) :
  ~ In u (map fst entries) -> lookup u (putAll entries cache) = lookup u cache.
Proof.
  revert cache. induction entries as [|e entries IH]; intros cache Hu;
    [reflexivity|].
  cbn [putAll fold_left]. fold (putAll entries (cachePut (fst e) (snd e) cache)).
  rewrite IH by (intro H; apply Hu; now right).
  apply lookup_cachePut_other. intro H. apply Hu. now left.
Qed.

Lemma lookup_putAll_in (u : string) (response : Response)
    (entries : list (string * Response)) (cache : Cache) :
  NoDup (map fst entries) -> In (u, response) entries ->
  lookup u (putAll entries cache) = Some response.
Proof.
  revert cache. induction entries as [|e entries IH]; intros cache Hnd Hin;
    [destruct Hin|].
  cbn [putAll fold_left]. fold (putAll entries (cachePut (fst e) (snd e) cache)).
  cbn [map] in Hnd. apply NoDup_cons_iff in Hnd as [Hfresh Hnd].
  destruct Hin as [->|Hin].
  - cbn [fst snd] in *. rewrite lookup_putAll_other by exact Hfresh.
    apply lookup_cachePut_same.
  - now apply IH.
Qed.

Lemma fold_putIn (name : string) (entries : list (string * Response))
    (caches : CacheStorage) :
  fold_left (fun cs e => putIn name (fst e) (snd e) cs) entries caches
  = map (fun c => if named name c then (fst c, putAll entries (snd c)) else c)
      caches.
Proof.
  revert caches. induction entries as [|e entries IH]; intro caches.
  - cbn. rewrite <- (map_id caches) at 1. apply map_ext.
    intros [n c]. now destruct (named name (n, c)).
  - cbn [fold_left]. rewrite IH. unfold putIn. rewrite map_map.
    apply map_ext. intros [n c]. unfold named. cbn [fst snd].
    destruct (n =? name)%string eqn:E; cbn [fst snd]; rewrite ?E; reflexivity.
Qed.

Lemma allSome_spec {A} (l : list (option A)) (r : list A) :
  allSome l = Some r <-> l = map Some r.
Proof.
  revert r. induction l as [|[x|] l IH]; intro r; cbn [allSome].
  - split; [intros [= <-]; reflexivity | now destruct r].
  - destruct (allSome l) as [r'|]; cbn [option_map].
    + split.
      * intros [= <-]. cbn. f_equal. now apply IH.
      * destruct r as [|y r]; [discriminate|]. cbn. intros [= -> H].
        apply IH in H. congruence.
    + split; [discriminate|]. destruct r as [|y r]; [discriminate|].
      cbn. intros [= -> H]. apply IH in H. discriminate.
  - split; [discriminate | now destruct r].
Qed.

Lemma allSome_None {A} (l : list (option A)) :
  allSome l = None <-> In None l.
Proof.
  induction l as [|[x|] l IH]; cbn [allSome In].
  - split; [discriminate | intros []].
  - destruct (allSome l); cbn [option_map].
    + split; [discriminate|]. intros [H|H]; [discriminate|].
      now apply IH in H.
    + split; [intros _; right; now apply IH | reflexivity].
  - split; [now left | reflexivity].
Qed.

(** The entries that a successful [addAll] stores. *)
Lemma addable_entries (network : Request -> option Response)
    (urls : list string) (entries : list (string * Response)) :
  allSome (map (addable network) urls) = Some entries ->
  map fst entries = urls
  /\ forall u, In u urls ->
       exists response,
         network (get u) = Some response /\ In (u, response) entries.
Proof.
  revert entries. induction urls as [|u urls IH]; intros entries;
    cbn [map allSome].
  - intros [= <-]. split; [reflexivity | intros u []].
  - unfold addable at 1. destruct (network (get u)) as [response|] eqn:N;
      [|discriminate].
    destruct (ok response && negb (status response =? 206)); [|discriminate].
    destruct (allSome (map (addable network) urls)) as [rest|];
      [|discriminate].
    cbn [option_map]. intros [= <-]. destruct (IH rest eq_refl) as [Hk Hin].
    split; [cbn; now rewrite Hk|].
    intros v [<-|Hv].
    + exists response. split; [exact N | now left].
    + destruct (Hin v Hv) as (r & Hr & Hi). exists r.
      split; [exact Hr | now right].
Qed.

Lemma cachesMatch_filter_named (name : string) (request : Request)
    (response : Response) (caches : CacheStorage) :
  existsb (named name) caches = true ->
  (forall c, In c caches -> named name c = true ->
             cacheMatch request (snd c) = Some response) ->
  cachesMatch request (filter (named name) caches) = Some response.
Proof.
  induction caches as [|[n c] caches IH]; cbn [existsb filter];
    [discriminate|].
  intros Hex Hall. destruct (named name (n, c)) eqn:E.
  - pose proof (Hall (n, c) (or_introl eq_refl) E) as H. cbn [snd] in H.
    cbn [cachesMatch]. now rewrite H.
  - cbn [orb] in Hex. apply IH; [exact Hex|].
    intros c' Hc'. apply Hall. now right.
Qed.

Lemma cachesMatch_some (request : Request) (caches : CacheStorage)
    (c : string * Cache) (response : Response) :
  In c caches -> cacheMatch request (snd c) = Some response ->
  cachesMatch request caches <> None.
Proof.
  induction caches as [|[n c'] caches IH]; [intros []|].
  intros [<-|Hin] Hm; cbn [cachesMatch snd] in *.
  - rewrite Hm. discriminate.
  - destruct (cacheMatch request c'); [discriminate | now apply IH].
Qed.

Lemma cachesMatch_app_empty (request : Request) (name : string)
    (caches : CacheStorage) :
  cachesMatch request (caches ++ [(name, [])]) = cachesMatch request caches.
Proof.
  induction caches as [|[n c] caches IH]; cbn [app cachesMatch].
  - unfold cacheMatch. now destruct (method request =? "GET")%string.
  - now rewrite IH.
Qed.

Lemma cachesMatch_cachesOpen (request : Request) (name : string)
    (caches : CacheStorage) :
  cachesMatch request (cachesOpen name caches) = cachesMatch request caches.
Proof.
  unfold cachesOpen. destruct (existsb (named name) caches);
    [reflexivity | apply cachesMatch_app_empty].
Qed.

Lemma existsb_cachesOpen (name : string) (caches : CacheStorage) :
  existsb (named name) (cachesOpen name caches) = true.
Proof.
  unfold cachesOpen. destruct (existsb (named name) caches) eqn:E;
    [exact E|].
  rewrite existsb_app. cbn. unfold named. cbn. rewrite String.eqb_refl.
  now rewrite orb_true_r.
Qed.

Lemma filter_twice {A} (f g : A -> bool) (l : list A) :
  filter f (filter g l) = filter (fun x => g x && f x) l.
Proof.
  induction l as [|x l IH]; [reflexivity|].
  cbn [filter]. destruct (g x); cbn [andb filter]; now rewrite IH.
Qed.

(** The deletions of [activate] leave the caches of the current name. *)
Lemma fold_cachesDelete (names : list string) (caches : CacheStorage) :
  fold_left (fun cs cacheName =>
    if negb (cacheName =? CACHE_NAME)%string then cachesDelete cacheName cs
    else cs) names caches
  = filter (fun c => named CACHE_NAME c
                     || negb (existsb (String.eqb (fst c)) names)) caches.
Proof.
  revert caches. induction names as [|n names IH]; intro caches.
  - cbn. rewrite <- (filter_true caches) at 1. apply filter_ext.
    intro c. now rewrite orb_true_r.
  - cbn [fold_left existsb]. rewrite IH.
    destruct (n =? CACHE_NAME)%string eqn:E; cbn [negb].
    + apply filter_ext. intros c. unfold named.
      apply String.eqb_eq in E. subst n.
      destruct (fst c =? CACHE_NAME)%string; reflexivity.
    + unfold cachesDelete. rewrite filter_twice. apply filter_ext.
      intros c. unfold named.
      destruct (fst c =? n)%string eqn:F; cbn [negb orb andb].
      * apply String.eqb_eq in F. rewrite F, E. reflexivity.
      * reflexivity.
Qed.

Lemma activate_filter (caches : CacheStorage) :
  activate caches = filter (named CACHE_NAME) caches.
Proof.
  unfold activate. rewrite fold_cachesDelete.
  apply filter_ext_in. intros c Hc.
  assert (H : existsb (String.eqb (fst c)) (keys caches) = true).
  { apply existsb_exists. exists (fst c).
    split; [now apply in_map | apply String.eqb_refl]. }
  rewrite H. now rewrite orb_false_r.
Qed.

End CacheFacts.

Section WorkerFacts.

Import Sw.

Lemma cachesMatch_putIn (request : Request) (response : Response)
    (name : string) (caches : CacheStorage) :
  method request = "GET" ->
  existsb (named name) caches = true ->
  cachesMatch request caches = None ->
  cachesMatch request (putIn name (url request) response caches)
  = Some response.
Proof.
  intros Hget. induction caches as [|[n c] caches IH];
    cbn [existsb cachesMatch putIn map]; [discriminate|].
  intros Hex Hnone.
  destruct (cacheMatch request c) eqn:Hc; [discriminate|].
  destruct (named name (n, c)) eqn:E; cbn [fst snd cachesMatch].
  - unfold cacheMatch. rewrite Hget. cbn.
    now rewrite lookup_cachePut_same.
  - rewrite Hc. apply IH; assumption.
Qed.

Lemma NoDup_CACHE_URLS : NoDup CACHE_URLS.
Proof.
  unfold CACHE_URLS.
  repeat (constructor; [cbn; intuition discriminate|]). constructor.
Qed.

(** What a successful [install] leaves: a cache of the current name
    exists, and each of them holds, for every URL of the list, the
    response that the network delivered for it. *)
Lemma install_Normal (network : Request -> option Response)
    (caches caches' : CacheStorage) :
  install network caches = Normal caches' ->
  existsb (named CACHE_NAME) caches' = true
  /\ forall c u, In c caches' -> named CACHE_NAME c = true ->
       In u CACHE_URLS ->
       network (get u) <> None
       /\ cacheMatch (get u) (snd c) = network (get u).
Proof.
  unfold install, addAll.
  destruct (allSome (map (addable network) CACHE_URLS)) as [entries|] eqn:E;
    [|discriminate].
  intros [= <-]. rewrite fold_putIn.
  destruct (addable_entries network CACHE_URLS entries E) as [Hk Hin].
  split.
  - pose proof (existsb_cachesOpen CACHE_NAME caches) as Hex.
    apply existsb_exists in Hex as ([n c] & Hc & Hn).
    apply existsb_exists.
    exists (n, putAll entries c). split; [|exact Hn].
    apply in_map_iff. exists (n, c). now rewrite Hn.
  - intros c u Hc Hn Hu. apply in_map_iff in Hc as ([n c0] & <- & _).
    destruct (Hin u Hu) as (response & Hr & Hi). rewrite Hr.
    split; [discriminate|].
    destruct (named CACHE_NAME (n, c0)) eqn:F; [|congruence].
    cbn [snd]. unfold cacheMatch. cbn.
    apply lookup_putAll_in; [|exact Hi].
    rewrite Hk. apply NoDup_CACHE_URLS.
Qed.

End WorkerFacts.

(** X23. A response that the worker fetches for a [GET] request that is
    not cached, when its status is 200 and its type is basic, is the
    answer to that request and is stored: the same request is answered
    with it afterwards, whatever the network delivers then, and the storage
    stays as it is. *)
Theorem fetched_response_is_served_from_the_cache_afterwards :
  forall (request : Sw.Request) (response : Sw.Response)
         (caches : Sw.CacheStorage) (later : option Sw.Response),
    Sw.method request = "GET" ->
    Sw.cachesMatch request caches = None ->
    Sw.status response = 200 ->
    Sw.type response = Sw.basic ->
    let result := Sw.onfetch request (Some response) caches in
    fst result = Some response
    /\ Sw.onfetch request later (snd result) = (Some response, snd result).
Proof.
  intros request response caches later Hget Hnone Hstatus Htype result.
  assert (Hres : result
                 = (Some response,
                    Sw.putIn Sw.CACHE_NAME (Sw.url request) response
                      (Sw.cachesOpen Sw.CACHE_NAME caches))).
  { unfold result, Sw.onfetch. rewrite Hnone, Hstatus, Htype, Hget.
    reflexivity. }
  rewrite Hres. cbn [fst snd]. split; [reflexivity|]. unfold Sw.onfetch.
  rewrite cachesMatch_putIn;
    [reflexivity | exact Hget | apply existsb_cachesOpen |].
  rewrite cachesMatch_cachesOpen. exact Hnone.
Qed.

Lemma fetched_response_is_served_from_the_cache_afterwards_witness :
  let request := Sw.get "/api/health" in
  let response := Sw.mkResponse 200 Sw.basic "up" in
  let result := Sw.onfetch request (Some response) oldStorage in
  fst result = Some response
  /\ Sw.onfetch request None (snd result) = (Some response, snd result).
Proof.
  apply (fetched_response_is_served_from_the_cache_afterwards
           (Sw.get "/api/health") (Sw.mkResponse 200 Sw.basic "up")
           oldStorage None); reflexivity.
Defined.

(** X24. A fetched response is handed on and not stored when its status
    is not 200, its type is not basic, or the request is not a [GET]:
    every lookup gives afterwards what it gave before. *)
Theorem uncacheable_response_leaves_the_caches :
  forall (request : Sw.Request) (response : Sw.Response)
         (caches : Sw.CacheStorage),
    Sw.cachesMatch request caches = None ->
    Sw.status response <> 200 \/ Sw.type response <> Sw.basic
    \/ Sw.method request <> "GET" ->
    let result := Sw.onfetch request (Some response) caches in
    fst result = Some response
    /\ forall q, Sw.cachesMatch q (snd result) = Sw.cachesMatch q caches.
Proof.
  intros request response caches Hnone Hwhy result.
  unfold result, Sw.onfetch. rewrite Hnone.
  destruct (negb (Sw.status response =? 200)
            || negb (Sw.isBasic (Sw.type response))) eqn:E;
    [split; reflexivity|].
  apply orb_false_elim in E as [E1 E2].
  apply negb_false_iff in E1, E2. apply Z.eqb_eq in E1.
  destruct Hwhy as [H|[H|H]]; [contradiction | |].
  - destruct (Sw.type response); try discriminate E2. now contradiction H.
  - apply String.eqb_neq in H. rewrite H. cbn [fst snd].
    split; [reflexivity|]. intro q. apply cachesMatch_cachesOpen.
Qed.

Lemma uncacheable_response_leaves_the_caches_witness :
  let result :=
    Sw.onfetch (Sw.mkRequest "POST" "/api/chat")
      (Some (Sw.mkResponse 200 Sw.basic "hello")) oldStorage in
  fst result = Some (Sw.mkResponse 200 Sw.basic "hello")
  /\ Sw.cachesMatch (Sw.get "/") (snd result)
     = Sw.cachesMatch (Sw.get "/") oldStorage.
Proof.
  destruct (uncacheable_response_leaves_the_caches
              (Sw.mkRequest "POST" "/api/chat")
              (Sw.mkResponse 200 Sw.basic "hello") oldStorage)
    as [Hfst Hsnd]; [reflexivity | right; right; discriminate|].
  split; [exact Hfst | exact (Hsnd (Sw.get "/"))].
Defined.

Section RootFacts.

Import Sw.

Lemma lookup_cachePut_kept (u v : string) (response : Response)
    (cache : Cache) :
  lookup u cache <> None -> lookup u (cachePut v response cache) <> None.
Proof.
  intro H. destruct (String.eqb_spec u v) as [->|Hne].
  - rewrite lookup_cachePut_same. discriminate.
  - now rewrite lookup_cachePut_other.
Qed.

Lemma lookup_putAll_kept (u : string) (entries : list (string * Response))
    (cache : Cache) :
  lookup u cache <> None -> lookup u (putAll entries cache) <> None.
Proof.
  revert cache. induction entries as [|e entries IH]; intros cache H;
    [exact H|].
  cbn [putAll fold_left]. fold (putAll entries (cachePut (fst e) (snd e) cache)).
  apply IH. now apply lookup_cachePut_kept.
Qed.

Lemma rootCached_cachesOpen (name : string) (caches : CacheStorage) :
  rootCached caches -> rootCached (cachesOpen name caches).
Proof.
  intros (c & Hc & Hn & Hl). exists c. split; [|split; assumption].
  unfold cachesOpen. destruct (existsb (named name) caches); [exact Hc|].
  apply in_or_app. now left.
Qed.

Lemma rootCached_map (f : Cache -> Cache) (g : string * Cache -> bool)
    (caches : CacheStorage) :
  (forall cache, lookup "/" cache <> None -> lookup "/" (f cache) <> None) ->
  rootCached caches ->
  rootCached (map (fun c => if g c then (fst c, f (snd c)) else c) caches).
Proof.
  intros Hf ([n c] & Hc & Hn & Hl).
  exists (if g (n, c) then (n, f c) else (n, c)). split.
  - apply in_map_iff. exists (n, c). split; [reflexivity | exact Hc].
  - destruct (g (n, c)); split; try assumption. cbn [snd] in *. now apply Hf.
Qed.

Lemma rootCached_putIn (name u : string) (response : Response)
    (caches : CacheStorage) :
  rootCached caches -> rootCached (putIn name u response caches).
Proof.
  apply (rootCached_map (cachePut u response) (named name)).
  intros cache. apply lookup_cachePut_kept.
Qed.

Lemma rootCached_install (network : Request -> option Response)
    (caches : CacheStorage) :
  rootCached caches -> rootCached (stateOf (install network caches)).
Proof.
  intro H. unfold install, addAll.
  destruct (allSome (map (addable network) CACHE_URLS)) as [entries|];
    cbn [stateOf]; [|now apply rootCached_cachesOpen].
  rewrite fold_putIn.
  apply (rootCached_map (putAll entries) (named CACHE_NAME));
    [|now apply rootCached_cachesOpen].
  intro cache. apply lookup_putAll_kept.
Qed.

Lemma rootCached_activate (caches : CacheStorage) :
  rootCached caches -> rootCached (activate caches).
Proof.
  intros (c & Hc & Hn & Hl). rewrite activate_filter.
  exists c. split; [|split; assumption]. apply filter_In. now split.
Qed.

Lemma rootCached_onfetch (request : Request) (fetched : option Response)
    (caches : CacheStorage) :
  rootCached caches -> rootCached (snd (onfetch request fetched caches)).
Proof.
  intro H. unfold onfetch.
  destruct (cachesMatch request caches); [exact H|].
  destruct fetched as [response|]; [|exact H].
  destruct (negb (status response =? 200) || negb (isBasic (type response)));
    [exact H|].
  cbn [snd]. destruct (method request =? "GET")%string.
  - now apply rootCached_putIn, rootCached_cachesOpen.
  - now apply rootCached_cachesOpen.
Qed.

Lemma rootCached_handleAll (events : list WorkerEvent)
    (caches : CacheStorage) :
  rootCached caches -> rootCached (handleAll events caches).
Proof.
  revert caches. induction events as [|event events IH]; intros caches H;
    [exact H|].
  cbn [handleAll fold_left]. apply IH. destruct event as [network| |r f].
  - now apply rootCached_install.
  - now apply rootCached_activate.
  - now apply rootCached_onfetch.
Qed.

Lemma rootCached_installed (network : Request -> option Response)
    (caches caches' : CacheStorage) :
  install network caches = Normal caches' -> rootCached caches'.
Proof.
  intro Hi. destruct (install_Normal network caches caches' Hi) as [Hex Hall].
  apply existsb_exists in Hex as (c & Hc & Hn).
  destruct (Hall c "/" Hc Hn ltac:(now left)) as [Hsome Hroot].
  exists c. split; [exact Hc|]. split; [exact Hn|].
  unfold cacheMatch in Hroot. cbn in Hroot. congruence.
Qed.

Lemma rootCached_match (caches : CacheStorage) :
  rootCached caches -> cachesMatch (get "/") caches <> None.
Proof.
  intros (c & Hc & _ & Hl).
  destruct (lookup "/" (snd c)) as [response|] eqn:E; [|congruence].
  apply (cachesMatch_some (get "/") caches c response Hc).
  unfold cacheMatch. cbn. exact E.
Qed.

End RootFacts.

(** X25. Once the worker is installed, and whatever it installs,
    activates and fetches afterwards, a request made while the network
    fails gets a response from the caches: the response cached for the
    request when there is one, and otherwise the response cached for the
    root page, which is always there. *)
Theorem installed_worker_answers_offline :
  forall (network : Sw.Request -> option Sw.Response)
         (caches caches' : Sw.CacheStorage) (events : list WorkerEvent),
    Sw.install network caches = Normal caches' ->
    let later := handleAll events caches' in
    forall request : Sw.Request,
      exists response,
        Sw.onfetch request None later = (Some response, later)
        /\ match Sw.cachesMatch request later with
           | Some cached => response = cached
           | None => Sw.cachesMatch (Sw.get "/") later = Some response
           end.
Proof.
  intros network caches caches' events Hi later request.
  assert (Hroot : Sw.cachesMatch (Sw.get "/") later <> None).
  { apply rootCached_match, rootCached_handleAll.
    now apply (rootCached_installed network caches). }
  unfold Sw.onfetch.
  destruct (Sw.cachesMatch request later) as [cached|].
  - exists cached. split; reflexivity.
  - destruct (Sw.cachesMatch (Sw.get "/") later) as [root|]; [|congruence].
    exists root. split; reflexivity.
Qed.

Lemma installed_worker_answers_offline_witness :
  let later :=
    handleAll
      [ActivateEvent;
       FetchEvent (Sw.get "/api/health")
         (Some (Sw.mkResponse 200 Sw.basic "up"))]
      (stateOf (Sw.install appNetwork oldStorage)) in
  Sw.onfetch (Sw.get "/dashboard") None later
  = (Some (Sw.mkResponse 200 Sw.basic "v1 /"), later)
  /\ Sw.onfetch (Sw.get "/api/health") None later
     = (Some (Sw.mkResponse 200 Sw.basic "up"), later).
Proof.
  pose proof (installed_worker_answers_offline appNetwork oldStorage
                (stateOf (Sw.install appNetwork oldStorage))
                [ActivateEvent;
                 FetchEvent (Sw.get "/api/health")
                   (Some (Sw.mkResponse 200 Sw.basic "up"))]
                ltac:(vm_compute; reflexivity)) as H.
  cbv zeta in *. split.
  - destruct (H (Sw.get "/dashboard")) as (response & Hf & Hm).
    rewrite Hf. vm_compute in Hm. now injection Hm as <-.
  - destruct (H (Sw.get "/api/health")) as (response & Hf & Hm).
    rewrite Hf. vm_compute in Hm. now subst response.
Defined.

(** X26. Activation after an installation leaves no cache of another
    name, and every resource of the list is then answered from the cache
    with the response that the installation fetched for it, also where an
    older cache held another response for the same URL. *)
Theorem activation_serves_the_installed_resources :
  forall (network : Sw.Request -> option Sw.Response)
         (caches caches' : Sw.CacheStorage),
    Sw.install network caches = Normal caches' ->
    (forall name, In name (Sw.keys (Sw.activate caches')) ->
                  name = Sw.CACHE_NAME)
    /\ forall u, In u Sw.CACHE_URLS ->
         network (Sw.get u) <> None
         /\ forall fetched,
              Sw.onfetch (Sw.get u) fetched (Sw.activate caches')
              = (network (Sw.get u), Sw.activate caches').
Proof.
  intros network caches caches' Hi.
  destruct (install_Normal network caches caches' Hi) as [Hex Hall].
  rewrite activate_filter. split.
  - intros name Hn. unfold Sw.keys in Hn.
    apply in_map_iff in Hn as (c & <- & Hc).
    apply filter_In in Hc as [_ Hc]. now apply String.eqb_eq in Hc.
  - intros u Hu.
    assert (Hs : network (Sw.get u) <> None).
    { apply existsb_exists in Hex as (c & Hc & Hn).
      now destruct (Hall c u Hc Hn Hu). }
    split; [exact Hs|]. intro fetched.
    destruct (network (Sw.get u)) as [response|] eqn:N; [|congruence].
    unfold Sw.onfetch.
    rewrite (cachesMatch_filter_named Sw.CACHE_NAME (Sw.get u) response);
      [reflexivity | exact Hex |].
    intros c Hc Hn. destruct (Hall c u Hc Hn Hu) as [_ H]. congruence.
Qed.

Lemma activation_serves_the_installed_resources_witness :
  Sw.cachesMatch (Sw.get "/") (stateOf (Sw.install appNetwork oldStorage))
  = Some (Sw.mkResponse 200 Sw.basic "v0 /")
  /\ Sw.onfetch (Sw.get "/") None
       (Sw.activate (stateOf (Sw.install appNetwork oldStorage)))
     = (Some (Sw.mkResponse 200 Sw.basic "v1 /"),
        Sw.activate (stateOf (Sw.install appNetwork oldStorage))).
Proof.
  split; [vm_compute; reflexivity|].
  destruct (activation_serves_the_installed_resources appNetwork oldStorage
              (stateOf (Sw.install appNetwork oldStorage))
              ltac:(vm_compute; reflexivity)) as [_ H].
  destruct (H "/" ltac:(now left)) as [_ H1]. exact (H1 None).
Defined.

(** X27. An installation fails exactly when one of the resources cannot
    be stored: its fetch fails, or its status is not an ok status or is
    206. Then none of the resources is stored: the cache of the current
    name has been created if it was missing, and every lookup gives what it
    gave before. *)
Theorem failed_install_stores_nothing :
  forall (network : Sw.Request -> option Sw.Response)
         (caches : Sw.CacheStorage),
    ((exists u, In u Sw.CACHE_URLS /\ notAddable (network (Sw.get u)))
     <-> isNormal (Sw.install network caches) = false)
    /\ (isNormal (Sw.install network caches) = false ->
        stateOf (Sw.install network caches)
        = Sw.cachesOpen Sw.CACHE_NAME caches
        /\ forall q,
             Sw.cachesMatch q (stateOf (Sw.install network caches))
             = Sw.cachesMatch q caches).
Proof.
  intros network caches. unfold Sw.install, Sw.addAll.
  assert (Hadd : forall u, Sw.addable network u = None
                           <-> notAddable (network (Sw.get u))).
  { intro u. unfold Sw.addable, notAddable.
    destruct (network (Sw.get u)) as [r|]; [|tauto].
    destruct (Sw.ok r) eqn:O; cbn [andb].
    - destruct (Sw.status r =? 206) eqn:S; cbn [negb].
      + apply Z.eqb_eq in S. tauto.
      + apply Z.eqb_neq in S. split; [discriminate|].
        intros [H|H]; [discriminate | contradiction].
    - tauto. }
  destruct (Sw.allSome (map (Sw.addable network) Sw.CACHE_URLS))
    as [entries|] eqn:E; cbn [isNormal stateOf].
  - split; [|discriminate]. split; [|discriminate].
    intros (u & Hu & Hn). apply Hadd in Hn.
    assert (Hin : In None (map (Sw.addable network) Sw.CACHE_URLS))
      by (rewrite <- Hn; now apply in_map).
    apply allSome_None in Hin. congruence.
  - split.
    + split; [reflexivity|]. intros _.
      apply allSome_None in E. apply in_map_iff in E as (u & Hn & Hu).
      exists u. split; [exact Hu | now apply Hadd].
    + intros _. split; [reflexivity|]. intro q.
      apply cachesMatch_cachesOpen.
Qed.

(** X28. Activation deletes the caches of every other name and nothing
    else: what is left is the caches of the current name, with their
    entries as they were; a second activation changes nothing. *)
Theorem activation_keeps_the_current_cache_only :
  forall caches : Sw.CacheStorage,
    Sw.activate caches = filter (Sw.named Sw.CACHE_NAME) caches
    /\ Sw.activate (Sw.activate caches) = Sw.activate caches.
Proof.
  intro caches. rewrite !activate_filter. split; [reflexivity|].
  rewrite filter_twice. apply filter_ext. intro c. apply andb_diag.
Qed.
